(** * Payment reconciliation core of the olympiad ticketing service

    A shallow embedding of [apps/api/payment_views.py] (the Payme JSON-RPC
    merchant endpoint, the Click prepare/complete endpoint and the two
    order-initiation views) together with the part of
    [apps/public/models.py] they read and write, followed by the
    properties of the written specification that were checked against it.

    Conventions of the embedding:
    - Python integers are [Z]; nullable model columns are [option];
    - a [datetime] is represented by the integer the code extracts from
      it, [int(dt.timestamp() * 1000)];
    - the database is passed explicitly; a handler returns its response
      together with the database it leaves behind, and an exception that
      leaves a [transaction.atomic()] block restores the database the
      block started from;
    - wall-clock readings ([timezone.now()], [_now_ms()]) are inputs;
    - a save that hands the database a value its column cannot hold
      raises; this is written out where the value comes from the
      request ([Column], [Backend]);
    - a text is a sequence of characters with code points below 256, one
      [ascii] each, and the builtins are those of CPython 3.11 with its
      default limit of 4300 digits on conversions between [int] and
      [str]. *)

From Stdlib Require Import ZArith QArith String Ascii List Lia.
From stdpp Require Import base decidable option list strings pretty gmap.
Import ListNotations.

Close Scope Q_scope.
Local Open Scope Z_scope.

(** ** Python values carried by request parameters *)

Module Py.

(** The scalar JSON values a parameter can hold once decoded by
    [json.loads]: [null], booleans, integers and text.  A key that is
    absent reads as [PNone], which is what [dict.get] returns.
    Fractional numbers, arrays and nested objects are not represented
    as parameter values.  An integer of a decoded body has at most 4300
    digits, as [json.loads] refuses a body with a longer one; so [str]
    of such an integer does not meet the limit on digits. *)
Inductive pyval : Type :=
| PNone
| PBool (b : bool)
| PInt (z : Z)
| PStr (s : string).

#[global] Instance pyval_eq_dec : EqDecision pyval.
Proof. solve_decision. Defined.

(** Truth value of an object, as tested by [if x], [not x] and [x or y]. *)
Definition truthy (v : pyval) : bool :=
  match v with
  | PNone => false
  | PBool b => b
  | PInt z => negb (z =? 0)
  | PStr s => negb (String.eqb s EmptyString)
  end.

(** [str(x)]. *)
Definition str (v : pyval) : string :=
  match v with
  | PNone => "None"
  | PBool true => "True"
  | PBool false => "False"
  | PInt z => pretty z
  | PStr s => s
  end.

(** [str.isspace] on code points below 256: the characters removed by
    [str.strip()].  These are 9 to 13, 28 to 32, 133 and 160. *)
Definition is_space (c : ascii) : bool :=
  let n := nat_of_ascii c in
  ((9 <=? n) && (n <=? 13) || (28 <=? n) && (n <=? 32)
   || (n =? 133) || (n =? 160))%nat.

(** The blanks [int()] skips around a number: the ASCII blanks 9 to 13
    and 32, and the two blanks 133 and 160 above 127, which it maps to a
    space first.  The separators 28 to 31 are not skipped. *)
Definition int_space (c : ascii) : bool :=
  let n := nat_of_ascii c in
  ((9 <=? n) && (n <=? 13) || (n =? 32) || (n =? 133) || (n =? 160))%nat.

Fixpoint lstrip (space : ascii -> bool) (l : list ascii) : list ascii :=
  match l with
  | c :: r => if space c then lstrip space r else l
  | [] => []
  end.

(** The text without the leading and trailing characters of [space]. *)
Definition trim (space : ascii -> bool) (s : string) : string :=
  string_of_list_ascii
    (rev (lstrip space (rev (lstrip space (list_ascii_of_string s))))).

(** [s.strip()]. *)
Definition strip (s : string) : string := trim is_space s.

Definition digit_of (c : ascii) : option Z :=
  let n := nat_of_ascii c in
  if ((48 <=? n) && (n <=? 57))%nat then Some (Z.of_nat n - 48) else None.

(** [sys.get_int_max_str_digits()], at its default. *)
Definition int_max_str_digits : N := 4300.

(** The number of decimal digits of a text; signs, underscores and
    blanks do not count. *)
Definition digit_count (l : list ascii) : N :=
  N.of_nat
    (length
       (List.filter
          (fun c => match digit_of c with Some _ => true | None => false end)
          l)).

(** Decimal digits with single underscores allowed between digits. *)
Fixpoint int_digits (acc : Z) (after_digit : bool) (l : list ascii)
  : option Z :=
  match l with
  | [] => if after_digit then Some acc else None
  | c :: r =>
      match digit_of c with
      | Some d => int_digits (acc * 10 + d) true r
      | None =>
          if Ascii.eqb c "_" && after_digit
          then int_digits acc false r
          else None
      end
  end.

(** [int(s)] for a text; [None] is the [ValueError], raised also for a
    text of more than 4300 digits. *)
Definition int_of_text (s : string) : option Z :=
  let l := list_ascii_of_string (trim int_space s) in
  if (int_max_str_digits <? digit_count l)%N then None
  else
    match l with
    | "-"%char :: r => Z.opp <$> int_digits 0 false r
    | "+"%char :: r => int_digits 0 false r
    | l => int_digits 0 false l
    end.

(** [str(n)] and [f"{n}"] for an integer; [None] is the [ValueError]
    raised for a number of more than 4300 digits. *)
Definition str_int (n : Z) : option string :=
  let s := pretty n in
  if (int_max_str_digits <? digit_count (list_ascii_of_string s))%N
  then None else Some s.

(** [int(x)]; [None] stands for the [TypeError]/[ValueError] raised. *)
Definition int (v : pyval) : option Z :=
  match v with
  | PNone => None
  | PBool b => Some (if b then 1 else 0)
  | PInt z => Some z
  | PStr s => int_of_text s
  end.

(** [x or d] for a nullable integer column [x]. *)
Definition or_int (x : option Z) (d : Z) : Z :=
  match x with
  | Some v => if v =? 0 then d else v
  | None => d
  end.

(** [if x:] for a nullable integer column. *)
Definition truthy_int (x : option Z) : bool :=
  match x with
  | Some v => negb (v =? 0)
  | None => false
  end.

(** [int(x or v)] for a nullable integer column [x] and a value [v]. *)
Definition int_or (x : option Z) (v : pyval) : option Z :=
  if truthy_int x then x else int v.

(** [str(x)] for a nullable text column. *)
Definition str_text (x : option string) : string :=
  match x with
  | Some s => s
  | None => "None"
  end.

(** [if x:] for a nullable text column. *)
Definition truthy_text (x : option string) : bool :=
  match x with
  | Some s => negb (String.eqb s EmptyString)
  | None => false
  end.

End Py.
Export Py.

(** ** Decimal amounts *)

Module Dec.

(** A [decimal.Decimal]: the value [coeff * 10 ^ exp].  Amounts of the
    models have at most ten digits, far below the 28 digits of the
    default context, so products and sums are exact. *)
Record Decimal : Type := mkDecimal { coeff : Z; exp : Z }.

#[global] Instance Decimal_eq_dec : EqDecision Decimal.
Proof. solve_decision. Defined.

Definition of_int (n : Z) : Decimal := mkDecimal n 0.

Definition mul (a b : Decimal) : Decimal :=
  mkDecimal (coeff a * coeff b) (exp a + exp b).

(** Coefficient of [d] rescaled to the exponent [e <= exp d]. *)
Definition rescale (d : Decimal) (e : Z) : Z := coeff d * 10 ^ (exp d - e).

Definition add (a b : Decimal) : Decimal :=
  let e := Z.min (exp a) (exp b) in
  mkDecimal (rescale a e + rescale b e) e.

(** [int(d)]: truncation toward zero. *)
Definition to_int (d : Decimal) : Z :=
  if 0 <=? exp d then coeff d * 10 ^ exp d
  else Z.quot (coeff d) (10 ^ (- exp d)).

(** [a > 0]. *)
Definition gt0 (d : Decimal) : bool := 0 <? coeff d.

(** The rational number a decimal denotes. *)
Definition value (d : Decimal) : Q :=
  if 0 <=? exp d then inject_Z (coeff d * 10 ^ exp d)
  else Qmake (coeff d) (Z.to_pos (10 ^ (- exp d))).

(** A column declared [DecimalField(decimal_places=2)] yields values
    with exactly two fractional digits. *)
Definition two_places (d : Decimal) : Prop := exp d = -2.

End Dec.
Export Dec.

(** ** Data model ([apps/public/models.py]) *)

Inductive Status : Type := pending | paid | cancelled | failed.

#[global] Instance Status_eq_dec : EqDecision Status.
Proof. solve_decision. Defined.

Inductive PaymentMethod : Type := payme | click.

#[global] Instance PaymentMethod_eq_dec : EqDecision PaymentMethod.
Proof. solve_decision. Defined.

(** [Order].  [participant] is a non-null foreign key, so
    [participant_id] is always set (and a UUID is always truthy). *)
Record Order : Type := mkOrder {
  id : Z;
  participant_id : N;
  olympiad_id : option Z;
  subject_id : option Z;
  total_amount : Decimal;
  status : Status;
  payment_method : PaymentMethod;
  created_at : option Z;
  updated_at : option Z;
  payme_transaction_id : option string;
  payme_create_time : option Z;
  payme_perform_time : option Z;
  payme_cancel_time : option Z;
  payme_state : option Z;
  payme_cancel_reason : option Z;
  click_trans_id : option Z;
  click_prepare_id : option Z
}.

#[global] Instance Order_eq_dec : EqDecision Order.
Proof. solve_decision. Defined.

(** Assignments to the attributes of an in-memory [Order]. *)
Definition set_status (v : Status) (o : Order) : Order :=
  mkOrder (id o) (participant_id o) (olympiad_id o) (subject_id o)
    (total_amount o) v (payment_method o) (created_at o) (updated_at o)
    (payme_transaction_id o) (payme_create_time o) (payme_perform_time o)
    (payme_cancel_time o) (payme_state o) (payme_cancel_reason o)
    (click_trans_id o) (click_prepare_id o).

Definition set_payment_method (v : PaymentMethod) (o : Order) : Order :=
  mkOrder (id o) (participant_id o) (olympiad_id o) (subject_id o)
    (total_amount o) (status o) v (created_at o) (updated_at o)
    (payme_transaction_id o) (payme_create_time o) (payme_perform_time o)
    (payme_cancel_time o) (payme_state o) (payme_cancel_reason o)
    (click_trans_id o) (click_prepare_id o).

Definition set_updated_at (v : option Z) (o : Order) : Order :=
  mkOrder (id o) (participant_id o) (olympiad_id o) (subject_id o)
    (total_amount o) (status o) (payment_method o) (created_at o) v
    (payme_transaction_id o) (payme_create_time o) (payme_perform_time o)
    (payme_cancel_time o) (payme_state o) (payme_cancel_reason o)
    (click_trans_id o) (click_prepare_id o).

Definition set_payme_transaction_id (v : option string) (o : Order) : Order :=
  mkOrder (id o) (participant_id o) (olympiad_id o) (subject_id o)
    (total_amount o) (status o) (payment_method o) (created_at o)
    (updated_at o) v (payme_create_time o) (payme_perform_time o)
    (payme_cancel_time o) (payme_state o) (payme_cancel_reason o)
    (click_trans_id o) (click_prepare_id o).

Definition set_payme_create_time (v : option Z) (o : Order) : Order :=
  mkOrder (id o) (participant_id o) (olympiad_id o) (subject_id o)
    (total_amount o) (status o) (payment_method o) (created_at o)
    (updated_at o) (payme_transaction_id o) v (payme_perform_time o)
    (payme_cancel_time o) (payme_state o) (payme_cancel_reason o)
    (click_trans_id o) (click_prepare_id o).

Definition set_payme_perform_time (v : option Z) (o : Order) : Order :=
  mkOrder (id o) (participant_id o) (olympiad_id o) (subject_id o)
    (total_amount o) (status o) (payment_method o) (created_at o)
    (updated_at o) (payme_transaction_id o) (payme_create_time o) v
    (payme_cancel_time o) (payme_state o) (payme_cancel_reason o)
    (click_trans_id o) (click_prepare_id o).

Definition set_payme_cancel_time (v : option Z) (o : Order) : Order :=
  mkOrder (id o) (participant_id o) (olympiad_id o) (subject_id o)
    (total_amount o) (status o) (payment_method o) (created_at o)
    (updated_at o) (payme_transaction_id o) (payme_create_time o)
    (payme_perform_time o) v (payme_state o) (payme_cancel_reason o)
    (click_trans_id o) (click_prepare_id o).

Definition set_payme_state (v : option Z) (o : Order) : Order :=
  mkOrder (id o) (participant_id o) (olympiad_id o) (subject_id o)
    (total_amount o) (status o) (payment_method o) (created_at o)
    (updated_at o) (payme_transaction_id o) (payme_create_time o)
    (payme_perform_time o) (payme_cancel_time o) v (payme_cancel_reason o)
    (click_trans_id o) (click_prepare_id o).

Definition set_payme_cancel_reason (v : option Z) (o : Order) : Order :=
  mkOrder (id o) (participant_id o) (olympiad_id o) (subject_id o)
    (total_amount o) (status o) (payment_method o) (created_at o)
    (updated_at o) (payme_transaction_id o) (payme_create_time o)
    (payme_perform_time o) (payme_cancel_time o) (payme_state o) v
    (click_trans_id o) (click_prepare_id o).

Definition set_click_trans_id (v : option Z) (o : Order) : Order :=
  mkOrder (id o) (participant_id o) (olympiad_id o) (subject_id o)
    (total_amount o) (status o) (payment_method o) (created_at o)
    (updated_at o) (payme_transaction_id o) (payme_create_time o)
    (payme_perform_time o) (payme_cancel_time o) (payme_state o)
    (payme_cancel_reason o) v (click_prepare_id o).

Definition set_click_prepare_id (v : option Z) (o : Order) : Order :=
  mkOrder (id o) (participant_id o) (olympiad_id o) (subject_id o)
    (total_amount o) (status o) (payment_method o) (created_at o)
    (updated_at o) (payme_transaction_id o) (payme_create_time o)
    (payme_perform_time o) (payme_cancel_time o) (payme_state o)
    (payme_cancel_reason o) (click_trans_id o) v.

(** The two [Participant] columns the payment code writes. *)
Record Participant : Type := mkParticipant {
  is_paid : bool;
  paid_at : option Z
}.

#[global] Instance Participant_eq_dec : EqDecision Participant.
Proof. solve_decision. Defined.

(** [Subject]; [olympiad] is a nullable foreign key. *)
Record Subject : Type := mkSubject {
  subj_id : Z;
  name : string;
  olympiad : option Z;
  ticket_price : Decimal
}.

(** What the columns hold.  A [BigIntegerField] holds the signed
    integers of 64 bits and a save raises on any other value.  What an
    [IntegerField] and a [CharField(max_length=n)] hold depends on the
    database the project is run on, which the settings choose: the
    bounds of an [IntegerField], and whether [max_length] is enforced.
    A save raises on a value outside the bounds and, where the length
    is enforced, on a text of more than [n] characters. *)
Record Backend : Type := mkBackend {
  integer_min : Z;
  integer_max : Z;
  enforces_max_length : bool
}.

Module Column.

Definition bigint_ok (v : Z) : bool :=
  (-9223372036854775808 <=? v) && (v <=? 9223372036854775807).

End Column.

(** The values an [IntegerField] holds. *)
Definition integer_ok (b : Backend) (v : Z) : bool :=
  (integer_min b <=? v) && (v <=? integer_max b).

(** The texts a [CharField(max_length=n)] holds. *)
Definition varchar_ok (b : Backend) (n : Z) (s : string) : bool :=
  negb (enforces_max_length b) || (Z.of_nat (String.length s) <=? n).

(** SQLite keeps every integer column in 64 bits and does not enforce
    [max_length]. *)
Definition sqlite : Backend :=
  mkBackend (-9223372036854775808) 9223372036854775807 false.

(** PostgreSQL keeps an [IntegerField] in 32 bits and enforces
    [max_length], counted in characters. *)
Definition postgresql : Backend :=
  mkBackend (-2147483648) 2147483647 true.

(** The tables.  [orders] is kept in the default ordering of the model
    ([Meta.ordering = ["-created_at"]], newest first), which is the order
    in which a queryset is iterated and in which [.first()] picks;
    [subjects] likewise in its ordering (by [name]).  [olympiads] maps
    the key of an [OlympiadSettings] row to its [is_active] flag, and
    [next_order_id] is the next value of the [BigAutoField] sequence;
    [backend] is the database the tables are kept in. *)
Record Db : Type := mkDb {
  orders : list Order;
  participants : gmap N Participant;
  subjects : list Subject;
  olympiads : gmap Z bool;
  next_order_id : Z;
  backend : Backend
}.

Definition with_orders (os : list Order) (d : Db) : Db :=
  mkDb os (participants d) (subjects d) (olympiads d) (next_order_id d)
    (backend d).

Definition with_participants (ps : gmap N Participant) (d : Db) : Db :=
  mkDb (orders d) ps (subjects d) (olympiads d) (next_order_id d)
    (backend d).

(** [Order.objects.filter(id=order_id).first()]. *)
Definition order_by_id (d : Db) (order_id : Z) : option Order :=
  find (fun o => id o =? order_id) (orders d).

(** [Order.objects.filter(payme_transaction_id=tid).first()]; a NULL
    column matches nothing. *)
Definition order_by_payme_transaction (d : Db) (tid : string)
  : option Order :=
  find (fun o => bool_decide (payme_transaction_id o = Some tid)) (orders d).

(** The write of [order.save(update_fields=[...])] once the database has
    accepted the values: the row with the primary key of the object
    takes the values of the object.  Every call site lists all the
    attributes it assigned, so the whole object is written.  The call
    sites that store a value taken from the request first check that
    its column holds it, and raise otherwise; the other values stored
    are constants, clock readings and values read from the row. *)
Definition save_order (o : Order) (d : Db) : Db :=
  with_orders (map (fun r => if id r =? id o then o else r) (orders d)) d.

(** [p = order.participant; p.is_paid = ...; p.paid_at = ...;
    p.save(update_fields=["is_paid", "paid_at"])].  [None] when the row
    the foreign key points to does not exist ([DoesNotExist]). *)
Definition save_participant_payment (pid : N) (flag : bool)
    (at_ : option Z) (d : Db) : option Db :=
  match participants d !! pid with
  | Some _ => Some (with_participants
                      (<[pid := mkParticipant flag at_]> (participants d)) d)
  | None => None
  end.

(** Settings consulted by the payment code. *)
Record Settings : Type := mkSettings {
  PAYME_ID : option string;
  PAYME_KEY : option string;
  CLICK_SERVICE_ID : option string;
  CLICK_MERCHANT_ID : option string;
  CLICK_SECRET_KEY : string
}.

(** Clock readings of one request: the value of [_now_ms()], the value
    an [auto_now] column takes when a save lists it, and the value of
    [timezone.now()] stored in [paid_at]. *)
Record Clock : Type := mkClock {
  now_ms : Z;
  auto_now : Z;
  tz_now : Z
}.

(** ** Payme merchant endpoint ([PaymeCallBackAPIView]) *)

Module Payme.

Definition ERROR_INTERNAL_SERVER : Z := -32400.
Definition ERROR_INSUFFICIENT_PRIVILEGE : Z := -32504.
Definition ERROR_INVALID_JSON_RPC_OBJECT : Z := -32600.
Definition ERROR_METHOD_NOT_FOUND : Z := -32601.
Definition ERROR_INVALID_PARAMS : Z := -32602.
Definition ERROR_INVALID_AMOUNT : Z := -31001.
Definition ERROR_ORDER_NOT_FOUND : Z := -31050.
Definition ERROR_CANT_PERFORM_OPERATION : Z := -31008.
Definition ERROR_ORDER_ALREADY_PAID : Z := -31051.
Definition ERROR_TRANSACTION_NOT_FOUND : Z := -31003.

(** The value under ["account"]: missing, [null] or empty (replaced by
    [{}]); an object, of which only ["order_id"] is read; or some other
    truthy value, on which [.get] raises. *)
Inductive Account : Type :=
| AccountFalsy
| AccountDict (order_id : pyval)
| AccountOther.

(** The [params] object, by the keys the handlers read. *)
Record Params : Type := mkParams {
  p_account : Account;
  p_amount : pyval;
  p_id : pyval;
  p_time : pyval;
  p_reason : pyval;
  p_from : pyval;
  p_to : pyval
}.

(** [{}], the value [params] defaults to. *)
Definition no_params : Params :=
  mkParams AccountFalsy PNone PNone PNone PNone PNone PNone.

(** One entry of the [GetStatement] result; [tx_reason = None] means
    that the key ["reason"] is absent. *)
Record StatementTx : Type := mkStatementTx {
  tx_id : string;
  tx_time : Z;
  tx_amount : Z;
  tx_account_order_id : Z;
  tx_create_time : Z;
  tx_perform_time : Z;
  tx_cancel_time : Z;
  tx_transaction : string;
  tx_state : Z;
  tx_reason : option Z
}.

(** The [result] objects, by the keys they carry. *)
Inductive Result : Type :=
| Allow (allow : bool)
| Created (create_time : Z) (transaction : string) (state : Z)
| Performed (perform_time : Z) (transaction : string) (state : Z)
| Cancelled (cancel_time : Z) (transaction : string) (state : Z)
| Checked (create_time perform_time cancel_time : Z)
          (transaction : string) (state : Z) (reason : option Z)
| Statement (transactions : list StatementTx).

(** [_success] and [_error]; the message is repeated under the three
    language keys, [data] is absent when [None]. *)
Inductive Response : Type :=
| Success (rpc_id : pyval) (result : Result)
| Error (rpc_id : pyval) (code : Z) (message : string)
        (data : option string).

(** What a handler does: return a response or let an exception out. *)
Inductive Outcome : Type :=
| Return (r : Response)
| Raised.

(** [with transaction.atomic(): ...] started on database [d]. *)
Definition atomic (d : Db) (r : Outcome * Db) : Outcome * Db :=
  match fst r with
  | Raised => (Raised, d)
  | Return _ => r
  end.

(** [x in (-1, -2)] for the nullable column [payme_state]. *)
Definition in_cancelled (st : option Z) : bool :=
  match st with
  | Some v => (v =? -1) || (v =? -2)
  | None => false
  end.

(** [state in (-1, -2)] for an integer. *)
Definition is_cancelled_state (st : Z) : bool := (st =? -1) || (st =? -2).

(** [_get_order_id]; the outer [None] is the [AttributeError] of
    [account.get] on a value that is not an object. *)
Definition _get_order_id (params : Params) : option (option Z) :=
  match p_account params with
  | AccountFalsy => Some None
  | AccountDict order_id =>
      match order_id with
      | PNone => Some None
      | _ => Some (Py.int order_id)
      end
  | AccountOther => None
  end.

Definition _get_amount_tiyin (params : Params) : option Z :=
  match p_amount params with
  | PNone => None
  | amount => Py.int amount
  end.

(** [int(Decimal(str(order.total_amount)) * Decimal("100"))]; printing
    a decimal and reading it back is the identity, so the [except]
    branch is never entered. *)
Definition _expected_amount_tiyin (order : Order) : Z :=
  Dec.to_int (Dec.mul (total_amount order) (Dec.of_int 100)).

Definition _check_perform_transaction (clk : Clock) (d : Db)
    (rpc_id : pyval) (params : Params) : Outcome * Db :=
  match _get_order_id params with
  | None => (Raised, d)
  | Some None =>
      (Return (Error rpc_id ERROR_INVALID_PARAMS "Invalid Params"
                 (Some "order_id")), d)
  | Some (Some order_id) =>
  match _get_amount_tiyin params with
  | None =>
      (Return (Error rpc_id ERROR_INVALID_PARAMS "Invalid Params"
                 (Some "amount")), d)
  | Some amount_tiyin =>
  match order_by_id d order_id with
  | None =>
      (Return (Error rpc_id ERROR_ORDER_NOT_FOUND "Order not found"
                 (Some "order_id")), d)
  | Some order =>
      if bool_decide (status order = paid) then
        (Return (Error rpc_id ERROR_ORDER_ALREADY_PAID "Order already paid"
                   (Some "order_id")), d)
      else if bool_decide (status order = cancelled) then
        (Return (Error rpc_id ERROR_ORDER_NOT_FOUND "Order is blocked"
                   (Some "order_id")), d)
      else
        let expected := _expected_amount_tiyin order in
        if negb (amount_tiyin =? expected) then
          (Return (Error rpc_id ERROR_INVALID_AMOUNT "Invalid amount"
                     (Some "amount")), d)
        else (Return (Success rpc_id (Allow true)), d)
  end end end.

Definition _create_transaction (clk : Clock) (d : Db)
    (rpc_id : pyval) (params : Params) : Outcome * Db :=
  match _get_order_id params with
  | None => (Raised, d)
  | Some None =>
      (Return (Error rpc_id ERROR_INVALID_PARAMS "Invalid Params"
                 (Some "order_id")), d)
  | Some (Some order_id) =>
  match _get_amount_tiyin params with
  | None =>
      (Return (Error rpc_id ERROR_INVALID_PARAMS "Invalid Params"
                 (Some "amount")), d)
  | Some amount_tiyin =>
  let transaction_id := p_id params in
  if negb (truthy transaction_id) then
    (Return (Error rpc_id ERROR_INVALID_PARAMS "Invalid Params"
               (Some "id")), d)
  else
  let create_time :=
    match p_time params with
    | PNone => PInt (now_ms clk)
    | t => t
    end in
  atomic d
  match order_by_id d order_id with
  | None =>
      (Return (Error rpc_id ERROR_ORDER_NOT_FOUND "Order not found"
                 (Some "order_id")), d)
  | Some order =>
      let expected := _expected_amount_tiyin order in
      if negb (amount_tiyin =? expected) then
        (Return (Error rpc_id ERROR_INVALID_AMOUNT "Invalid amount"
                   (Some "amount")), d)
      else if bool_decide (status order = paid) then
        (Return (Error rpc_id ERROR_ORDER_ALREADY_PAID "Order already paid"
                   (Some "order_id")), d)
      else if bool_decide (status order = cancelled) then
        (Return (Error rpc_id ERROR_ORDER_NOT_FOUND "Order is blocked"
                   (Some "order_id")), d)
      else if Py.truthy_text (payme_transaction_id order) then
        if String.eqb (Py.str_text (payme_transaction_id order))
                      (Py.str transaction_id)
        then
          match Py.int_or (payme_create_time order) create_time with
          | None => (Raised, d)
          | Some stored_ct =>
              let stored_state := Py.or_int (payme_state order) 1 in
              (Return (Success rpc_id
                         (Created stored_ct
                            (Py.str_text (payme_transaction_id order))
                            stored_state)), d)
          end
        else
          (Return (Error rpc_id ERROR_ORDER_NOT_FOUND "Order is busy"
                     (Some "order_id")), d)
      else
        match Py.int create_time with
        | None => (Raised, d)
        | Some ct =>
            let order :=
              set_payme_state (Some 1)
                (set_payme_create_time (Some ct)
                   (set_payme_transaction_id
                      (Some (Py.str transaction_id)) order)) in
            if negb (varchar_ok (backend d) 255 (Py.str transaction_id)
                     && Column.bigint_ok ct)
            then (Raised, d)
            else
              (Return (Success rpc_id
                         (Created ct (Py.str transaction_id) 1)),
               save_order order d)
        end
  end
  end end.

(** [was_performed] as [_cancel_transaction] computes it from the row:
    [(perform_time_db > 0) or (order.payme_state == 2) or
    (order.status == "paid")]. *)
Definition was_performed (order : Order) : bool :=
  let perform_time_db := Py.or_int (payme_perform_time order) 0 in
  (0 <? perform_time_db)
  || bool_decide (payme_state order = Some 2)
  || bool_decide (status order = paid).

Definition _perform_transaction (clk : Clock) (d : Db)
    (rpc_id : pyval) (params : Params) : Outcome * Db :=
  let transaction_id := p_id params in
  if negb (truthy transaction_id) then
    (Return (Error rpc_id ERROR_INVALID_PARAMS "Invalid Params"
               (Some "id")), d)
  else
  atomic d
  match order_by_payme_transaction d (Py.str transaction_id) with
  | None =>
      (Return (Error rpc_id ERROR_TRANSACTION_NOT_FOUND
                 "Transaction not found" (Some "id")), d)
  | Some order =>
      if in_cancelled (payme_state order)
         || bool_decide (status order = cancelled)
      then
        let stored_cancel_time := Py.or_int (payme_cancel_time order) 0 in
        match payme_state order with
        | None => (Raised, d)
        | Some stored_state =>
            (Return (Success rpc_id
                       (Cancelled stored_cancel_time
                          (Py.str transaction_id) stored_state)), d)
        end
      else if bool_decide (payme_state order = Some 2)
              || bool_decide (status order = paid)
      then
        let pt := Py.or_int (payme_perform_time order) 0 in
        (Return (Success rpc_id
                   (Performed pt (Py.str transaction_id) 2)), d)
      else
        let now := now_ms clk in
        let order :=
          set_updated_at (Some (auto_now clk))
            (set_payme_perform_time (Some now)
               (set_payme_state (Some 2)
                  (set_status paid order))) in
        let d := save_order order d in
        match save_participant_payment (participant_id order) true
                (Some (tz_now clk)) d with
        | None => (Raised, d)
        | Some d =>
            (Return (Success rpc_id
                       (Performed now (Py.str transaction_id) 2)), d)
        end
  end.

Definition _cancel_transaction (clk : Clock) (d : Db)
    (rpc_id : pyval) (params : Params) : Outcome * Db :=
  let transaction_id := p_id params in
  if negb (truthy transaction_id) then
    (Return (Error rpc_id ERROR_INVALID_PARAMS "Invalid Params"
               (Some "id")), d)
  else
  let reason := p_reason params in
  atomic d
  match order_by_payme_transaction d (Py.str transaction_id) with
  | None =>
      (Return (Error rpc_id ERROR_TRANSACTION_NOT_FOUND
                 "Transaction not found" (Some "id")), d)
  | Some order =>
      let was := was_performed order in
      if bool_decide (status order = cancelled)
         || in_cancelled (payme_state order)
      then
        let expected_state := if was then -2 else -1 in
        let healed : option (Order * Db) :=
          if negb (Py.or_int (payme_state order) 0 =? expected_state) then
            let order :=
              if negb (Py.truthy_int (payme_cancel_time order))
              then set_payme_cancel_time (Some (now_ms clk)) order
              else order in
            let order := set_payme_state (Some expected_state) order in
            let order : option Order :=
              match payme_cancel_reason order with
              | None =>
                  match reason with
                  | PNone =>
                      Some (set_payme_cancel_reason
                              (Some (if was then 5 else 3)) order)
                  | _ =>
                      r ← Py.int reason;
                      if integer_ok (backend d) r
                      then Some (set_payme_cancel_reason (Some r) order)
                      else None
                  end
              | Some _ => Some order
              end in
            order ← order;
            let order := set_updated_at (Some (auto_now clk)) order in
            Some (order, save_order order d)
          else Some (order, d) in
        match healed with
        | None => (Raised, d)
        | Some (order, d) =>
            match payme_state order with
            | None => (Raised, d)
            | Some st =>
                (Return (Success rpc_id
                           (Cancelled
                              (Py.or_int (payme_cancel_time order) 0)
                              (Py.str transaction_id) st)), d)
            end
        end
      else
        let now := now_ms clk in
        let state := if was then -2 else -1 in
        let reason :=
          match reason with
          | PNone => PInt (if was then 5 else 3)
          | _ => reason
          end in
        match Py.int reason with
        | None => (Raised, d)
        | Some r =>
            if negb (match p_reason params with
                     | PNone => true
                     | _ => integer_ok (backend d) r
                     end)
            then (Raised, d)
            else
            let order :=
              set_payme_cancel_reason (Some r)
                (set_payme_cancel_time (Some now)
                   (set_payme_state (Some state)
                      (set_status cancelled order))) in
            let order :=
              if negb was then set_payme_perform_time (Some 0) order
              else order in
            let order := set_updated_at (Some (auto_now clk)) order in
            let d := save_order order d in
            if was then
              match save_participant_payment (participant_id order) false
                      None d with
              | None => (Raised, d)
              | Some d =>
                  (Return (Success rpc_id
                             (Cancelled now (Py.str transaction_id)
                                state)), d)
              end
            else
              (Return (Success rpc_id
                         (Cancelled now (Py.str transaction_id) state)), d)
        end
  end.

(** The part of a row [GetStatement] reports. *)
Definition statement_entry (o : Order) : StatementTx :=
  let create_time := Py.or_int (payme_create_time o) 0 in
  let perform_time := Py.or_int (payme_perform_time o) 0 in
  let cancel_time := Py.or_int (payme_cancel_time o) 0 in
  let state := Py.or_int (payme_state o) 1 in
  let amount_tiyin :=
    Dec.to_int (Dec.mul (total_amount o) (Dec.of_int 100)) in
  mkStatementTx
    (Py.str_text (payme_transaction_id o))
    create_time
    amount_tiyin
    (id o)
    create_time
    (if 0 <? perform_time then perform_time else 0)
    (if is_cancelled_state state then cancel_time else 0)
    (Py.str_text (payme_transaction_id o))
    state
    (if is_cancelled_state state then payme_cancel_reason o else None).

(** The rows selected by the queryset of [GetStatement]. *)
Definition in_statement (from_ts to_ts : Z) (o : Order) : bool :=
  match payme_transaction_id o, payme_create_time o with
  | Some _, Some ct => (from_ts <=? ct) && (ct <=? to_ts)
  | _, _ => false
  end.

Definition _get_statement (clk : Clock) (d : Db)
    (rpc_id : pyval) (params : Params) : Outcome * Db :=
  match Py.int (p_from params), Py.int (p_to params) with
  | Some from_ts, Some to_ts =>
      if to_ts <? from_ts then
        (Return (Error rpc_id ERROR_INVALID_PARAMS "Invalid Params"
                   (Some "from>to")), d)
      else
        let qs := List.filter (in_statement from_ts to_ts) (orders d) in
        (Return (Success rpc_id (Statement (map statement_entry qs))), d)
  | _, _ =>
      (Return (Error rpc_id ERROR_INVALID_PARAMS "Invalid Params"
                 (Some "from/to")), d)
  end.

Definition _check_transaction (clk : Clock) (d : Db)
    (rpc_id : pyval) (params : Params) : Outcome * Db :=
  let transaction_id := p_id params in
  if negb (truthy transaction_id) then
    (Return (Error rpc_id ERROR_INVALID_PARAMS "Invalid Params"
               (Some "id")), d)
  else
  match order_by_payme_transaction d (Py.str transaction_id) with
  | None =>
      (Return (Error rpc_id ERROR_TRANSACTION_NOT_FOUND
                 "Transaction not found" (Some "id")), d)
  | Some order =>
      let state := Py.or_int (payme_state order) 1 in
      let create_time := Py.or_int (payme_create_time order) 0 in
      let perform_time_db := Py.or_int (payme_perform_time order) 0 in
      let cancel_time := Py.or_int (payme_cancel_time order) 0 in
      let create_time :=
        if create_time <=? 0 then
          match created_at order with
          | Some t => t
          | None => now_ms clk
          end
        else create_time in
      let cancel_time :=
        if is_cancelled_state state && (cancel_time <=? 0) then
          match updated_at order with
          | Some t => t
          | None => now_ms clk
          end
        else cancel_time in
      let perform_time :=
        if state =? -1 then 0
        else if state =? -2 then
          if 0 <? perform_time_db then perform_time_db else create_time
        else if state =? 2 then
          if 0 <? perform_time_db then perform_time_db else create_time
        else 0 in
      (Return (Success rpc_id
                 (Checked create_time perform_time
                    (if is_cancelled_state state then cancel_time else 0)
                    (Py.str transaction_id) state
                    (if is_cancelled_state state
                     then payme_cancel_reason order else None))), d)
  end.

(** The decoded request body: not JSON; a falsy JSON value ([{}],
    [null], [0], ...); or an envelope, given by what [data.get] returns
    for ["id"] and ["method"] and by [data.get("params") or {}]. *)
Inductive Body : Type :=
| BadJson
| FalsyJson
| Envelope (rpc_id method : pyval) (params : Params).

(** A request: the [Authorization] header (empty when absent) and the
    body. *)
Record HttpRequest : Type := mkHttpRequest {
  authorization : string;
  body : Body
}.

(** [s.split(sep, 1)] when [sep] occurs in [s]. *)
Fixpoint split_once (sep : ascii) (s : string) : option (string * string) :=
  match s with
  | EmptyString => None
  | String c r =>
      if Ascii.eqb c sep then Some (EmptyString, r)
      else
        match split_once sep r with
        | Some (a, b) => Some (String c a, b)
        | None => None
        end
  end.

(** The configured key, stripped: [getattr(settings, "PAYME_KEY", ...)],
    replaced by the empty text when unset or falsy, then [.strip()]. *)
Definition configured_key (cfg : Settings) : string :=
  Py.strip (default EmptyString (PAYME_KEY cfg)).

Section Dispatch.

(** [base64.b64decode(text).decode("utf-8")]; [None] when either
    step raises. *)
Variable b64decode : string -> option string.

Definition _verify_auth (cfg : Settings) (request : HttpRequest) : bool :=
  let auth_header := authorization request in
  if negb (String.prefix "Basic " auth_header) then false
  else
    match split_once " " auth_header with
    | None => false
    | Some (_, payload) =>
        match b64decode payload with
        | None => false
        | Some decoded =>
            match split_once ":" decoded with
            | None => false
            | Some (username, password) =>
                let expected := configured_key cfg in
                String.eqb username "Paycom"
                && String.eqb password expected
            end
        end
    end.

(** The table [handlers] of [post]. *)
Definition handlers (method : pyval)
  : option (Clock -> Db -> pyval -> Params -> Outcome * Db) :=
  match method with
  | PStr m =>
      if String.eqb m "CheckPerformTransaction"
      then Some _check_perform_transaction
      else if String.eqb m "CreateTransaction"
      then Some _create_transaction
      else if String.eqb m "PerformTransaction"
      then Some _perform_transaction
      else if String.eqb m "CancelTransaction"
      then Some _cancel_transaction
      else if String.eqb m "CheckTransaction"
      then Some _check_transaction
      else if String.eqb m "GetStatement"
      then Some _get_statement
      else None
  | _ => None
  end.

Definition post (cfg : Settings) (clk : Clock) (d : Db)
    (request : HttpRequest) : Response * Db :=
  match body request with
  | BadJson | FalsyJson =>
      (Error PNone ERROR_INVALID_JSON_RPC_OBJECT
         "Invalid JSON-RPC object" None, d)
  | Envelope rpc_id method params =>
      if negb (negb (String.eqb (configured_key cfg) EmptyString)) then
        (Error rpc_id ERROR_INSUFFICIENT_PRIVILEGE "Unauthorized" None, d)
      else if negb (_verify_auth cfg request) then
        (Error rpc_id ERROR_INSUFFICIENT_PRIVILEGE "Unauthorized" None, d)
      else
        match handlers method with
        | None =>
            (Error rpc_id ERROR_METHOD_NOT_FOUND
               ("Method not found: " +:+ Py.str method) None, d)
        | Some handler =>
            match handler clk d rpc_id params with
            | (Return r, d) => (r, d)
            | (Raised, d) =>
                (Error rpc_id ERROR_INTERNAL_SERVER
                   "Internal server error" None, d)
            end
        end
  end.

End Dispatch.

End Payme.

(** ** Click callback handlers ([ClickCallbackView])

    [post] parses the form, checks the MD5 signature and compares the
    amounts as floats before it hands the order it fetched to one of the
    two handlers below; the handlers are what is embedded here. *)

Module Click.

Definition CLICK_ERROR_SUCCESS : Z := 0.
Definition CLICK_ERROR_SIGN_CHECK_FAILED : Z := -1.
Definition CLICK_ERROR_INVALID_AMOUNT : Z := -2.
Definition CLICK_ERROR_ACTION_NOT_FOUND : Z := -3.
Definition CLICK_ERROR_ALREADY_PAID : Z := -4.
Definition CLICK_ERROR_USER_NOT_FOUND : Z := -5.
Definition CLICK_ERROR_TRANSACTION_NOT_FOUND : Z := -6.
Definition CLICK_ERROR_UPDATE_FAILED : Z := -7.
Definition CLICK_ERROR_REQUEST_FROM_CLICK : Z := -8.
Definition CLICK_ERROR_TRANSACTION_CANCELLED : Z := -9.

(** The object built by [_response]. *)
Record Response : Type := _response {
  r_click_trans_id : Z;
  r_merchant_trans_id : string;
  r_merchant_prepare_id : Z;
  r_error : Z;
  r_error_note : string
}.

(** [_handle_prepare], called by [post] when [action == 0]; [trans_id]
    is its argument [click_trans_id].  [None] is the exception of
    [order.save] on a transaction id that the [BigIntegerField] does not
    hold; it leaves the view and nothing is written. *)
Definition _handle_prepare (d : Db) (order : Order) (trans_id : Z)
    (merchant_trans_id : string) (error : Z) : option Response * Db :=
  if bool_decide (status order = paid) then
    (Some (_response trans_id merchant_trans_id (id order)
             CLICK_ERROR_ALREADY_PAID "Already paid"), d)
  else if bool_decide (status order = cancelled) then
    (Some (_response trans_id merchant_trans_id (id order)
             CLICK_ERROR_TRANSACTION_CANCELLED "Order cancelled"), d)
  else
    (* an order already holding another Click transaction: [pass] *)
    let order :=
      if Py.truthy_int (click_trans_id order)
         && negb (bool_decide (click_trans_id order = Some trans_id))
      then order else order in
    let order :=
      set_payment_method click
        (set_click_prepare_id (Some (id order))
           (set_click_trans_id (Some trans_id) order)) in
    if negb (Column.bigint_ok trans_id) then (None, d)
    else
      (Some (_response trans_id merchant_trans_id (id order)
               CLICK_ERROR_SUCCESS "Success"), save_order order d).

(** [_handle_complete], called by [post] when [action == 1].  [None]
    is an exception leaving the view; the [atomic] block it leaves
    restores the database.  [trans_id] is the argument
    [click_trans_id]. *)
Definition _handle_complete (clk : Clock) (d : Db) (order : Order)
    (trans_id : Z) (merchant_trans_id : string)
    (merchant_prepare_id : Z) (error : Z) : option Response * Db :=
  if error <? 0 then
    let d :=
      if negb (bool_decide (status order = paid)) then
        save_order
          (set_updated_at (Some (auto_now clk))
             (set_status cancelled order)) d
      else d in
    (Some (_response trans_id merchant_trans_id merchant_prepare_id
             CLICK_ERROR_TRANSACTION_CANCELLED "Cancelled"), d)
  else if bool_decide (status order = paid) then
    (Some (_response trans_id merchant_trans_id merchant_prepare_id
             CLICK_ERROR_ALREADY_PAID "Already paid"), d)
  else if bool_decide (status order = cancelled) then
    (Some (_response trans_id merchant_trans_id merchant_prepare_id
             CLICK_ERROR_TRANSACTION_CANCELLED "Order cancelled"), d)
  else if negb (bool_decide (click_prepare_id order
                             = Some merchant_prepare_id)) then
    (Some (_response trans_id merchant_trans_id merchant_prepare_id
             CLICK_ERROR_TRANSACTION_NOT_FOUND "Prepare ID mismatch"), d)
  else
    let order :=
      set_updated_at (Some (auto_now clk)) (set_status paid order) in
    match save_participant_payment (participant_id order) true
            (Some (tz_now clk)) (save_order order d) with
    | None => (None, d)
    | Some d' =>
        (Some (_response trans_id merchant_trans_id
                 merchant_prepare_id CLICK_ERROR_SUCCESS "Success"), d')
    end.

End Click.

(** ** Order initiation ([InitiatePaymentView], [InitiateClickPaymentView]) *)

Module Initiate.

(** A checkout address.  [PaymeCheckout plain] stands for
    ["https://checkout.paycom.uz/"] followed by the base64 form of
    [plain]; [ClickPay query return_url] for
    ["https://my.click.uz/services/pay"] followed by [query] and, when
    there is a return address, ["&return_url="] and its quoted form. *)
Inductive Url : Type :=
| PaymeCheckout (plain : string)
| ClickPay (query : string) (return_url : option string).

(** [generate_pay_link]; [None] is the [RuntimeError], or the
    [ValueError] of printing a number of more than 4300 digits. *)
Definition generate_pay_link (cfg : Settings) (order_id amount_tiyin : Z)
    (return_url : option string) : option Url :=
  if negb (Py.truthy_text (PAYME_ID cfg)) then None
  else
    match Py.str_int order_id, Py.str_int amount_tiyin with
    | Some order_text, Some amount_text =>
        let params :=
          "m=" +:+ Py.str_text (PAYME_ID cfg)
          +:+ ";ac.order_id=" +:+ order_text
          +:+ ";a=" +:+ amount_text in
        let params :=
          if Py.truthy_text return_url
          then params +:+ ";c=" +:+ Py.str_text return_url
          else params in
        Some (PaymeCheckout params)
    | _, _ => None
    end.

(** [generate_click_pay_link]; [None] is the [RuntimeError], or the
    [ValueError] of printing a number of more than 4300 digits. *)
Definition generate_click_pay_link (cfg : Settings) (order_id amount : Z)
    (return_url : option string) : option Url :=
  if negb (Py.truthy_text (CLICK_SERVICE_ID cfg)) then None
  else
    match Py.str_int amount, Py.str_int order_id with
    | Some amount_text, Some order_text =>
        let params :=
          "?service_id=" +:+ Py.str_text (CLICK_SERVICE_ID cfg)
          +:+ "&merchant_id=" +:+ Py.str_text (CLICK_MERCHANT_ID cfg)
          +:+ "&amount=" +:+ amount_text
          +:+ "&transaction_param=" +:+ order_text in
        Some (ClickPay params
                (if Py.truthy_text return_url then return_url else None))
    | _, _ => None
    end.

(** What the views read from a request: the participant key kept in
    the session, the ["subject_ids"] of the body ([[]] when the body
    is empty or not JSON) and the absolute address of ["/ticket/"]. *)
Record Request : Type := mkRequest {
  session_participant_id : option N;
  subject_ids : list Z;
  ticket_uri : string
}.

Inductive Response : Type :=
| Failure (http_status : Z) (error : string)
| Started (order_id : Z) (amount : Decimal) (pay_url : Url).

(** [Subject.objects.select_related('olympiad').filter(id__in=...,
    olympiad__is_active=True, ticket_price__gt=0)]. *)
Definition selected (d : Db) (ids : list Z) (s : Subject) : bool :=
  existsb (Z.eqb (subj_id s)) ids
  && match olympiad s with
     | Some k => bool_decide (olympiads d !! k = Some true)
     | None => false
     end
  && Dec.gt0 (ticket_price s).

(** [sum(s.ticket_price for s in subjects)]. *)
Definition sum_prices (l : list Subject) : Decimal :=
  fold_left (fun acc s => Dec.add acc (ticket_price s)) l (Dec.of_int 0).

(** [Order.objects.filter(participant=participant,
    status="pending").update(status="cancelled")]. *)
Definition supersede_pending (pid : N) (d : Db) : Db :=
  with_orders
    (map (fun o =>
            if (participant_id o =? pid)%N
               && bool_decide (status o = pending)
            then set_status cancelled o else o) (orders d)) d.

(** [Order.objects.create(participant=..., olympiad=..., subject=...,
    total_amount=..., status="pending", payment_method=...)]: the row
    takes the next key of the sequence and, being the newest, comes
    first in the default ordering. *)
Definition create_order (clk : Clock) (pid : N) (s : Subject)
    (amount : Decimal) (method : PaymentMethod) (d : Db) : Order * Db :=
  let o :=
    mkOrder (next_order_id d) pid (olympiad s) (Some (subj_id s)) amount
      pending method (Some (auto_now clk)) (Some (auto_now clk))
      None None None None None None None None in
  (o, mkDb (o :: orders d) (participants d) (subjects d) (olympiads d)
        (next_order_id d + 1) (backend d)).

(** The loop [for subj in subject_list[1:]] of
    [InitiatePaymentView.post]: one more order per further subject, each
    with the price of its subject. *)
Definition create_remaining (clk : Clock) (pid : N) (method : PaymentMethod)
    (rest : list Subject) (d : Db) : Db :=
  fold_left
    (fun d subj =>
       snd (create_order clk pid subj (ticket_price subj) method d))
    rest d.

(** [InitiatePaymentView.post].  The outer [None] is an exception
    leaving the view; the rows written before it stay, as the view
    opens no transaction. *)
Definition payme_post (cfg : Settings) (clk : Clock) (d : Db)
    (request : Request) : option Response * Db :=
  match session_participant_id request with
  | None => (Some (Failure 401 "Unauthorized"), d)
  | Some pid =>
  match participants d !! pid with
  | None => (Some (Failure 404 "Participant not found"), d)
  | Some participant =>
  if is_paid participant then (Some (Failure 400 "Already paid"), d)
  else
  match subject_ids request with
  | [] => (Some (Failure 400 "No subjects selected"), d)
  | ids =>
  match List.filter (selected d ids) (subjects d) with
  | [] => (Some (Failure 404 "Subjects not found"), d)
  | (first_subject :: rest) as subject_list =>
      let total_amount := sum_prices subject_list in
      let d := supersede_pending pid d in
      let (first_order, d) :=
        create_order clk pid first_subject total_amount payme d in
      let d := create_remaining clk pid payme rest d in
      let amount_tiyin :=
        Dec.to_int (Dec.mul total_amount (Dec.of_int 100)) in
      match generate_pay_link cfg (id first_order) amount_tiyin
              (Some (ticket_uri request)) with
      | None => (None, d)
      | Some pay_url =>
          (Some (Started (id first_order) total_amount pay_url), d)
      end
  end end end end.

(** The loop of [InitiateClickPaymentView.post]: one order per
    subject, each with the price of its subject; [first_order] keeps
    the first one created. *)
Fixpoint click_create_orders (clk : Clock) (pid : N) (l : list Subject)
    (first_order : option Order) (d : Db) : option Order * Db :=
  match l with
  | [] => (first_order, d)
  | subj :: rest =>
      let (order, d) :=
        create_order clk pid subj (ticket_price subj) click d in
      let first_order :=
        match first_order with
        | None => Some order
        | Some _ => first_order
        end in
      click_create_orders clk pid rest first_order d
  end.

(** [InitiateClickPaymentView.post]. *)
Definition click_post (cfg : Settings) (clk : Clock) (d : Db)
    (request : Request) : option Response * Db :=
  match session_participant_id request with
  | None => (Some (Failure 401 "Unauthorized"), d)
  | Some pid =>
  match participants d !! pid with
  | None => (Some (Failure 404 "Participant not found"), d)
  | Some participant =>
  if is_paid participant then (Some (Failure 400 "Already paid"), d)
  else
  match subject_ids request with
  | [] => (Some (Failure 400 "No subjects selected"), d)
  | ids =>
  match List.filter (selected d ids) (subjects d) with
  | [] => (Some (Failure 404 "Subjects not found"), d)
  | subject_list =>
      let total_amount := sum_prices subject_list in
      let d := supersede_pending pid d in
      match click_create_orders clk pid subject_list None d with
      | (None, d) => (None, d)
      | (Some first_order, d) =>
          let amount_sum := Dec.to_int total_amount in
          match generate_click_pay_link cfg (id first_order) amount_sum
                  (Some (ticket_uri request)) with
          | None => (None, d)
          | Some pay_url =>
              (Some (Started (id first_order) total_amount pay_url), d)
          end
      end
  end end end end.

End Initiate.

(** ** The Click endpoint ([ClickCallbackView.post], [_verify_sign]) *)

Module ClickView.

(** [request.POST.dict()], by the keys the view reads; [None] is an
    absent key. *)
Record Form : Type := mkForm {
  f_click_trans_id : option string;
  f_service_id : option string;
  f_merchant_trans_id : option string;
  f_amount : option string;
  f_action : option string;
  f_sign_time : option string;
  f_sign_string : option string;
  f_error : option string;
  f_error_note : option string;
  f_merchant_prepare_id : option string
}.

(** [int(data.get(key, dflt))] with an integer default; [None] is the
    [ValueError]. *)
Definition int_field (x : option string) (dflt : Z) : option Z :=
  match x with
  | Some s => Py.int_of_text s
  | None => Some dflt
  end.

Section View.

(** [hashlib.md5(text.encode()).hexdigest()]. *)
Variable md5_hexdigest : string -> string.

(** The amount comparison of [post], which is carried out in binary
    floating point: [Some (abs(float(total) - float(amount)) > 0.01)],
    or [None] when [float(amount)] raises [ValueError]. *)
Variable amount_differs : Decimal -> string -> option bool.

(** [_verify_sign].  [action] is the integer [post] has read from the
    form; it has at most 4300 digits, so [f"{action}"] does not meet the
    limit on digits. *)
Definition _verify_sign (cfg : Settings) (data : Form) (action : Z) : bool :=
  let secret_key := CLICK_SECRET_KEY cfg in
  let click_trans_id := default EmptyString (f_click_trans_id data) in
  let service_id := default EmptyString (f_service_id data) in
  let merchant_trans_id := default EmptyString (f_merchant_trans_id data) in
  let amount := default EmptyString (f_amount data) in
  let sign_time := default EmptyString (f_sign_time data) in
  let sign_string := default EmptyString (f_sign_string data) in
  let check_string :=
    if action =? 0 then
      click_trans_id +:+ service_id +:+ secret_key +:+ merchant_trans_id
      +:+ amount +:+ pretty action +:+ sign_time
    else
      let merchant_prepare_id :=
        default EmptyString (f_merchant_prepare_id data) in
      click_trans_id +:+ service_id +:+ secret_key +:+ merchant_trans_id
      +:+ merchant_prepare_id +:+ amount +:+ pretty action +:+ sign_time in
  let expected_sign := md5_hexdigest check_string in
  String.eqb expected_sign sign_string.

(** [ClickCallbackView.post].  The outer [None] is an exception leaving
    the view (a form field that [int()] rejects, or the one a handler
    lets out). *)
Definition post (cfg : Settings) (clk : Clock) (d : Db) (data : Form)
  : option Click.Response * Db :=
  match int_field (f_click_trans_id data) 0 with
  | None => (None, d)
  | Some trans_id =>
  match int_field (f_service_id data) 0 with
  | None => (None, d)
  | Some service_id =>
  let merchant_trans_id := default EmptyString (f_merchant_trans_id data) in
  let amount := default "0"%string (f_amount data) in
  match int_field (f_action data) (-1) with
  | None => (None, d)
  | Some action =>
  match int_field (f_error data) 0 with
  | None => (None, d)
  | Some error =>
  match Py.int_of_text merchant_trans_id with
  | None =>
      (Some (Click._response trans_id merchant_trans_id 0
               Click.CLICK_ERROR_USER_NOT_FOUND "Invalid order ID"), d)
  | Some order_id =>
      if negb (_verify_sign cfg data action) then
        (Some (Click._response trans_id merchant_trans_id 0
                 Click.CLICK_ERROR_SIGN_CHECK_FAILED "Invalid signature"), d)
      else
      match order_by_id d order_id with
      | None =>
          (Some (Click._response trans_id merchant_trans_id 0
                   Click.CLICK_ERROR_USER_NOT_FOUND "Order not found"), d)
      | Some order =>
          match amount_differs (total_amount order) amount with
          | None =>
              (Some (Click._response trans_id merchant_trans_id 0
                       Click.CLICK_ERROR_INVALID_AMOUNT
                       "Invalid amount format"), d)
          | Some true =>
              (Some (Click._response trans_id merchant_trans_id 0
                       Click.CLICK_ERROR_INVALID_AMOUNT "Invalid amount"), d)
          | Some false =>
              if action =? 0 then
                Click._handle_prepare d order trans_id merchant_trans_id
                  error
              else if action =? 1 then
                match int_field (f_merchant_prepare_id data) 0 with
                | None => (None, d)
                | Some merchant_prepare_id =>
                    Click._handle_complete clk d order trans_id
                      merchant_trans_id merchant_prepare_id error
                end
              else
                (Some (Click._response trans_id merchant_trans_id 0
                         Click.CLICK_ERROR_ACTION_NOT_FOUND
                         "Unknown action"), d)
          end
      end
  end end end end end.

End View.

End ClickView.

(** ** Payment status ([CheckPaymentStatusView]) *)

Module Status.

(** The JSON answers of the view: a failure with its HTTP status, or the
    buyer's flag and payment time. *)
Inductive Response : Type :=
| Failure (http_status : Z) (error : string)
| Report (paid : bool) (at_ : option Z).

(** [CheckPaymentStatusView.get], given the participant key kept in the
    session. *)
Definition get (d : Db) (session_participant_id : option N) : Response :=
  match session_participant_id with
  | None => Failure 401 "Unauthorized"
  | Some pid =>
      match participants d !! pid with
      | None => Failure 404 "Participant not found"
      | Some participant => Report (is_paid participant) (paid_at participant)
      end
  end.

End Status.

(** * Properties *)

(** ** Fixtures used to run the model on concrete requests *)

Module Fixtures.

Definition clk0 : Clock := mkClock 1700000000000 1700000000001 1700000000002.

Definition order0 : Order :=
  mkOrder 7 1%N (Some 1) (Some 3) (mkDecimal 5000000 (-2)) pending payme
    (Some 1690000000000) (Some 1690000000000)
    None None None None None None None None.

Definition buyer0 : Participant := mkParticipant false None.

(** [order0] after CreateTransaction with id ["tx-1"]. *)
Definition bound_order : Order :=
  set_payme_state (Some 1)
    (set_payme_create_time (Some 1694000000000)
       (set_payme_transaction_id (Some "tx-1"%string) order0)).

(** ... then cancelled before being performed. *)
Definition cancelled_order : Order :=
  set_payme_cancel_time (Some 1695000000000)
    (set_payme_state (Some (-1)) (set_status cancelled bound_order)).

(** ... or performed. *)
Definition performed_order : Order :=
  set_payme_perform_time (Some 1694000005000)
    (set_payme_state (Some 2) (set_status paid bound_order)).

(** [order0] after a Click Prepare for transaction 111. *)
Definition click_bound_order : Order :=
  set_payment_method click
    (set_click_prepare_id (Some 7)
       (set_click_trans_id (Some 111) order0)).

Definition db_click_bound : Db :=
  mkDb [click_bound_order] {[ 1%N := buyer0 ]} [] ∅ 8 sqlite.

Definition db_bound : Db :=
  mkDb [bound_order] {[ 1%N := buyer0 ]} [] ∅ 8 sqlite.

(** A second order, bound to ["tx-9"] one millisecond after the end
    of the range used below. *)
Definition late_order : Order :=
  mkOrder 9 1%N (Some 1) (Some 3) (mkDecimal 3000000 (-2)) pending payme
    (Some 1690000000000) (Some 1690000000000)
    (Some "tx-9"%string) (Some 1694000000001) None None (Some 1) None
    None None.

Definition db_statement : Db :=
  mkDb [late_order; performed_order] {[ 1%N := buyer0 ]} [] ∅ 10 sqlite.

Definition params_range (from_ts to_ts : Z) : Payme.Params :=
  Payme.mkParams Payme.AccountFalsy PNone PNone PNone PNone
    (PInt from_ts) (PInt to_ts).

(** A catalogue with two priced subjects of an active olympiad and an
    unpaid buyer who selects both. *)
Definition algebra : Subject :=
  mkSubject 3 "Algebra" (Some 1) (mkDecimal 5000000 (-2)).

Definition physics : Subject :=
  mkSubject 4 "Physics" (Some 1) (mkDecimal 3000000 (-2)).

Definition db_catalogue : Db :=
  mkDb [] {[ 1%N := buyer0 ]} [algebra; physics] {[ 1 := true ]} 8 sqlite.

Definition cfg0 : Settings :=
  mkSettings (Some "merchant-1"%string) (Some "secret"%string)
    (Some "12345"%string) (Some "678"%string) "click-secret".

Definition both_subjects : Initiate.Request :=
  Initiate.mkRequest (Some 1%N) [3; 4] "https://bond.example/ticket/".

Definition paid_buyer : Participant :=
  mkParticipant true (Some 1694000005001).

Definition db_performed : Db :=
  mkDb [performed_order] {[ 1%N := paid_buyer ]} [] ∅ 8 sqlite.

Definition db0 : Db :=
  mkDb [order0] {[ 1%N := buyer0 ]} [] ∅ 8 sqlite.

Definition params_for (order_id amount : Z) (tid : string) (time : pyval)
  : Payme.Params :=
  Payme.mkParams (Payme.AccountDict (PInt order_id)) (PInt amount)
    (PStr tid) time PNone PNone PNone.

(** A stand-in for [base64.b64decode(...).decode("utf-8")] that
    answers every payload with the credentials of [cfg0]. *)
Definition decode0 (_ : string) : option string :=
  Some "Paycom:secret"%string.

(** A JSON-RPC request that carries those credentials. *)
Definition signed (method : string) (params : Payme.Params)
  : Payme.HttpRequest :=
  Payme.mkHttpRequest "Basic UGF5Y29tOnNlY3JldA=="
    (Payme.Envelope (PInt 1) (PStr method) params).

(** Stand-ins for the digest (the text itself) and for the amount
    comparison (on whole amounts), to run the Click view. *)
Definition digest0 (text : string) : string := text.

Definition amount_differs0 (total : Decimal) (amount : string)
  : option bool :=
  match Py.int_of_text amount with
  | Some a => Some (negb (a =? Dec.to_int total))
  | None => None
  end.


Definition forged_form : ClickView.Form :=
  ClickView.mkForm (Some "111") (Some "12345") (Some "7") (Some "50000")
    (Some "0") (Some "2024") (Some "forged") None None None.

Definition complete_form : ClickView.Form :=
  ClickView.mkForm (Some "111") (Some "12345") (Some "7") (Some "50000")
    (Some "1") (Some "2024") (Some "11112345click-secret775000012024")
    None None (Some "7").

(** The catalogue with a pending order of the buyer. *)
Definition db_catalogue_pending : Db :=
  mkDb [order0] {[ 1%N := buyer0 ]} [algebra; physics] {[ 1 := true ]} 8 sqlite.

(** [bound_order] cancelled from outside the Payme callback, its
    [payme_state] left at 1. *)
Definition stale_order : Order := set_status cancelled bound_order.

Definition db_stale : Db :=
  mkDb [stale_order] {[ 1%N := buyer0 ]} [] ∅ 8 sqlite.

End Fixtures.

(** ** A consistency condition on rows

    A positive stored [perform_time] goes with a bound transaction in
    state 2 or -2.  The callbacks establish and keep this condition (see
    [post_keeps_perform_time_consistent] and the lemmas next to it). *)
Definition perform_time_consistent (o : Order) : Prop :=
  0 < Py.or_int (payme_perform_time o) 0 ->
  Py.truthy_text (payme_transaction_id o) = true
  /\ (payme_state o = Some 2 \/ payme_state o = Some (-2)).

(** ** What one Payme request can do to a row

    [payme_step o o'] lists the writes of the handlers: none; the
    binding made by CreateTransaction; the commit of
    PerformTransaction; the first CancelTransaction; and the repair
    CancelTransaction makes on a row that is already cancelled. *)
Inductive payme_step (o : Order) : Order -> Prop :=
| step_none : payme_step o o
| step_bind (tid : string) (ct : Z) :
    Py.truthy_text (payme_transaction_id o) = false ->
    status o <> paid ->
    status o <> cancelled ->
    tid <> EmptyString ->
    payme_step o
      (set_payme_state (Some 1)
         (set_payme_create_time (Some ct)
            (set_payme_transaction_id (Some tid) o)))
| step_perform (now au : Z) :
    Py.truthy_text (payme_transaction_id o) = true ->
    Payme.in_cancelled (payme_state o) = false ->
    status o <> cancelled ->
    payme_state o <> Some 2 ->
    status o <> paid ->
    payme_step o
      (set_updated_at (Some au)
         (set_payme_perform_time (Some now)
            (set_payme_state (Some 2) (set_status paid o))))
| step_cancel (now au r : Z) :
    Py.truthy_text (payme_transaction_id o) = true ->
    status o <> cancelled ->
    Payme.in_cancelled (payme_state o) = false ->
    payme_step o
      (set_updated_at (Some au)
         ((if negb (Payme.was_performed o)
           then set_payme_perform_time (Some 0)
           else fun order => order)
            (set_payme_cancel_reason (Some r)
               (set_payme_cancel_time (Some now)
                  (set_payme_state
                     (Some (if Payme.was_performed o then -2 else -1))
                     (set_status cancelled o))))))
| step_heal (now au r : Z) :
    Py.truthy_text (payme_transaction_id o) = true ->
    (status o = cancelled \/ Payme.in_cancelled (payme_state o) = true) ->
    Py.or_int (payme_state o) 0
    <> (if Payme.was_performed o then -2 else -1) ->
    payme_step o
      (set_updated_at (Some au)
         ((match payme_cancel_reason o with
           | None => set_payme_cancel_reason (Some r)
           | Some _ => fun order => order
           end)
            (set_payme_state
               (Some (if Payme.was_performed o then -2 else -1))
               ((if negb (Py.truthy_int (payme_cancel_time o))
                 then set_payme_cancel_time (Some now)
                 else fun order => order) o)))).

(** ** What one Click callback can do to a row: nothing; the binding
    made by Prepare; the cancellation on a failure notice; the commit of
    Complete. *)
Inductive click_step (o : Order) : Order -> Prop :=
| cstep_none : click_step o o
| cstep_prepare (trans_id : Z) :
    status o <> paid ->
    status o <> cancelled ->
    click_step o
      (set_payment_method click
         (set_click_prepare_id (Some (id o))
            (set_click_trans_id (Some trans_id) o)))
| cstep_fail (au : Z) :
    status o <> paid ->
    click_step o (set_updated_at (Some au) (set_status cancelled o))
| cstep_complete (au : Z) :
    status o <> paid ->
    status o <> cancelled ->
    click_step o (set_updated_at (Some au) (set_status paid o)).

(** Primary keys are unique and below the next value of the sequence. *)
Definition keys_fresh (d : Db) : Prop :=
  NoDup (map id (orders d))
  /\ Forall (fun o => id o < next_order_id d) (orders d).

(** The id a JSON-RPC response carries. *)
Definition response_id (r : Payme.Response) : pyval :=
  match r with
  | Payme.Success rpc_id _ => rpc_id
  | Payme.Error rpc_id _ _ _ => rpc_id
  end.

Definition is_error (r : Payme.Response) : bool :=
  match r with
  | Payme.Success _ _ => false
  | Payme.Error _ _ _ _ => true
  end.

(** What every handler result looks like from the dispatcher's side: an
    exception comes with the database it started from, a response carries
    the id of the request, and an error response comes with the database
    it started from. *)
Definition outcome_shape (rpc_id : pyval) (d : Db)
    (res : Payme.Outcome * Db) : Prop :=
  match fst res with
  | Payme.Raised => snd res = d
  | Payme.Return r =>
      response_id r = rpc_id /\ (is_error r = true -> snd res = d)
  end.

(** ** What one Payme request can do to the database

    Nothing; one row written ([save_order]); or one row written together
    with the [is_paid]/[paid_at] of the buyer of that row, which happens
    only when the row becomes paid (flag set) or when a performed row is
    cancelled (flag and time cleared). *)
Inductive payme_write (d : Db) : Db -> Prop :=
| write_none : payme_write d d
| write_row (o o' : Order) :
    In o (orders d) ->
    id o' = id o ->
    payme_step o o' ->
    payme_write d (save_order o' d)
| write_row_buyer (o o' : Order) (flag : bool) (at_ : option Z) (d' : Db) :
    In o (orders d) ->
    id o' = id o ->
    payme_step o o' ->
    save_participant_payment (participant_id o) flag at_ (save_order o' d)
    = Some d' ->
    (if flag
     then status o <> paid /\ status o' = paid
     else at_ = None /\ Payme.was_performed o = true
          /\ status o <> cancelled /\ status o' = cancelled) ->
    payme_write d d'.

(** A row as [Order.objects.create] of the initiation views makes it for
    subject [s]: pending, owned by the buyer, unbound on both sides. *)
Definition fresh_row (pid : N) (method : PaymentMethod) (s : Subject)
    (o : Order) : Prop :=
  subject_id o = Some (subj_id s)
  /\ olympiad_id o = olympiad s
  /\ participant_id o = pid
  /\ status o = pending
  /\ payment_method o = method
  /\ payme_transaction_id o = None
  /\ payme_state o = None
  /\ payme_perform_time o = None
  /\ click_trans_id o = None
  /\ click_prepare_id o = None.

(** What a successful initiation leaves behind, for the buyer [pid] and
    the selection [sel]: the new rows [new] (one per selected subject,
    in the order of the selection, with consecutive fresh keys) in front
    of the old table, in which the buyer's pending orders are
    cancelled. *)
Definition initiated (pid : N) (method : PaymentMethod)
    (sel : list Subject) (new : list Order) (d d' : Db) : Prop :=
  orders d' = rev new ++ orders (Initiate.supersede_pending pid d)
  /\ map id new = seqZ (next_order_id d) (Z.of_nat (length sel))
  /\ next_order_id d' = next_order_id d + Z.of_nat (length sel)
  /\ Forall2 (fresh_row pid method) sel new
  /\ participants d' = participants d
  /\ subjects d' = subjects d
  /\ olympiads d' = olympiads d.

(** ** Column ranges *)

Lemma bigint_ok_range (v : Z) :
  -9223372036854775808 <= v <= 9223372036854775807 ->
  Column.bigint_ok v = true.
Proof.
  intros [Hlo Hhi]. unfold Column.bigint_ok.
  apply andb_true_intro. split; apply Z.leb_le; assumption.
Qed.

(** ** Conversions of parameter values *)

Lemma int_examples :
  Py.int (PStr " 5_000_000 ") = Some 5000000
  /\ Py.int (PStr "-12") = Some (-12)
  /\ Py.int (PStr "+7") = Some 7
  /\ Py.int (PStr "1__0") = None
  /\ Py.int (PStr "_1") = None
  /\ Py.int (PStr "12a") = None
  /\ Py.int (PStr EmptyString) = None
  /\ Py.int (PBool true) = Some 1
  /\ Py.int PNone = None.
Proof. repeat split; reflexivity. Qed.

Lemma str_examples :
  Py.str (PInt 5000000) = "5000000"%string
  /\ Py.str (PInt (-3)) = "-3"%string
  /\ Py.str (PInt 0) = "0"%string
  /\ Py.strip "  key  " = "key"%string
  /\ Py.strip EmptyString = EmptyString.
Proof. repeat split; reflexivity. Qed.

(** [int()] and [strip()] on blanks above 127 and on the separators 28
    to 31, and the limit on digits. *)
Lemma blank_and_limit_examples :
  Py.int (PStr (String (ascii_of_nat 160) "5 ")) = Some 5
  /\ Py.int (PStr (String (ascii_of_nat 133) "5")) = Some 5
  /\ Py.int (PStr (String (ascii_of_nat 28) "5")) = None
  /\ Py.strip (String (ascii_of_nat 28) (String (ascii_of_nat 160) "key "))
     = "key"%string
  /\ Py.int_of_text (string_of_list_ascii (repeat "0"%char 4300)) = Some 0
  /\ Py.int_of_text (string_of_list_ascii (repeat "0"%char 4301)) = None.
Proof. vm_compute. repeat split. Qed.

Lemma decimal_examples :
  Dec.to_int (Dec.mul (mkDecimal 5000000 (-2)) (Dec.of_int 100)) = 5000000
  /\ Dec.to_int (mkDecimal 5000099 (-2)) = 50000
  /\ Dec.to_int (mkDecimal (-5000099) (-2)) = -50000
  /\ Dec.add (Dec.of_int 0) (mkDecimal 5000000 (-2))
     = mkDecimal 5000000 (-2)
  /\ Dec.add (mkDecimal 5000000 (-2)) (mkDecimal 3 0)
     = mkDecimal 5000300 (-2).
Proof. repeat split; reflexivity. Qed.

(** ** Decimal arithmetic *)

Lemma expected_two_places (o : Order) :
  Dec.two_places (total_amount o) ->
  Payme._expected_amount_tiyin o = coeff (total_amount o).
Proof.
  unfold Dec.two_places, Payme._expected_amount_tiyin, Dec.to_int, Dec.mul.
  intros He. cbn [coeff exp Dec.of_int]. rewrite He. cbn.
  apply Z.quot_mul. lia.
Qed.

Lemma value_two_places (d : Decimal) (n : Z) :
  Dec.two_places d ->
  (Qeq (inject_Z n) (Qmult (Dec.value d) (inject_Z 100)) <-> n = coeff d).
Proof.
  unfold Dec.two_places, Dec.value. intros He. rewrite He. cbn.
  unfold Qeq, Qmult, inject_Z. cbn. lia.
Qed.

(** ** CheckPerformTransaction *)

(** C4.  On a pending order whose [total_amount] has the two decimal
    places of its column, CheckPerformTransaction is read-only, answers
    [allow] exactly when the integer amount of the request equals
    [total_amount * 100], and answers the invalid-amount fault -31001 for
    every other integer amount.  For [total_amount = 50000.00] it accepts
    5000000 and rejects 50000 and 5000001. *)
Theorem check_perform_exact_amount
    (clk : Clock) (d : Db) (rpc_id : pyval) (params : Payme.Params)
    (order_id amount : Z) (o : Order) :
  Payme._get_order_id params = Some (Some order_id) ->
  Payme._get_amount_tiyin params = Some amount ->
  order_by_id d order_id = Some o ->
  status o = pending ->
  Dec.two_places (total_amount o) ->
  let r := Payme._check_perform_transaction clk d rpc_id params in
  let exact :=
    Qeq (inject_Z amount)
        (Qmult (Dec.value (total_amount o)) (inject_Z 100)) in
  snd r = d
  /\ (fst r = Payme.Return (Payme.Success rpc_id (Payme.Allow true))
      <-> exact)
  /\ (~ exact ->
      fst r = Payme.Return
                (Payme.Error rpc_id (-31001) "Invalid amount"
                   (Some "amount"%string)))
  /\ (total_amount o = mkDecimal 5000000 (-2) ->
      (amount = 5000000 ->
       fst r = Payme.Return (Payme.Success rpc_id (Payme.Allow true)))
      /\ (amount = 50000 \/ amount = 5000001 ->
          fst r = Payme.Return
                    (Payme.Error rpc_id (-31001) "Invalid amount"
                       (Some "amount"%string)))).
Proof.
  intros Hid Hamt Hfind Hst Hexp r exact.
  assert (Hr : r = if negb (amount =? coeff (total_amount o))
                   then (Payme.Return
                           (Payme.Error rpc_id Payme.ERROR_INVALID_AMOUNT
                              "Invalid amount" (Some "amount"%string)), d)
                   else (Payme.Return
                           (Payme.Success rpc_id (Payme.Allow true)), d)).
  { subst r. unfold Payme._check_perform_transaction.
    rewrite Hid, Hamt, Hfind, Hst, (expected_two_places o Hexp).
    reflexivity. }
  assert (Hex : exact <-> amount = coeff (total_amount o))
    by (apply value_two_places; exact Hexp).
  destruct (Z.eqb_spec amount (coeff (total_amount o))) as [Heq | Hne];
    cbn [negb] in Hr; rewrite Hr; cbn [fst snd].
  - split; [reflexivity |]. split; [tauto |]. split; [tauto |].
    intros Htot. rewrite Htot in Heq. cbn in Heq.
    split; [reflexivity | lia].
  - split; [reflexivity |]. split.
    + split; [discriminate | tauto].
    + split; [reflexivity |]. intros Htot. rewrite Htot in Hne. cbn in Hne.
      split; [lia | reflexivity].
Qed.

Lemma check_perform_exact_amount_witness :
  snd (Payme._check_perform_transaction Fixtures.clk0 Fixtures.db0 (PInt 1)
         (Fixtures.params_for 7 5000000 "tx-1" PNone)) = Fixtures.db0
  /\ fst (Payme._check_perform_transaction Fixtures.clk0 Fixtures.db0 (PInt 1)
            (Fixtures.params_for 7 5000000 "tx-1" PNone))
     = Payme.Return (Payme.Success (PInt 1) (Payme.Allow true)).
Proof.
  pose proof (check_perform_exact_amount Fixtures.clk0 Fixtures.db0 (PInt 1)
                (Fixtures.params_for 7 5000000 "tx-1" PNone) 7 5000000
                Fixtures.order0 eq_refl eq_refl eq_refl eq_refl eq_refl)
    as [Hdb [_ [_ Hconcrete]]].
  split; [exact Hdb |].
  exact (proj1 (Hconcrete eq_refl) eq_refl).
Defined.

(** ** Lookups *)

Lemma order_by_payme_transaction_Some (d : Db) (tid : string) (o : Order) :
  order_by_payme_transaction d tid = Some o ->
  In o (orders d) /\ payme_transaction_id o = Some tid.
Proof.
  unfold order_by_payme_transaction. intros H.
  apply find_some in H as [Hin Hb].
  apply bool_decide_eq_true in Hb. auto.
Qed.

Lemma order_by_id_Some (d : Db) (k : Z) (o : Order) :
  order_by_id d k = Some o -> In o (orders d) /\ id o = k.
Proof.
  unfold order_by_id. intros H.
  apply find_some in H as [Hin Hb]. apply Z.eqb_eq in Hb. auto.
Qed.

(** ** PerformTransaction on a cancelled transaction *)

(** C6.  When the transaction found for the request is cancelled (state
    -1 or -2, or order status [cancelled]), PerformTransaction leaves the
    whole database as it was (order columns and the buyer's
    [is_paid]/[paid_at] included) and answers with the stored
    [cancel_time] and the stored state. *)
Theorem perform_on_cancelled_is_inert
    (clk : Clock) (d : Db) (rpc_id : pyval) (params : Payme.Params)
    (o : Order) :
  truthy (Payme.p_id params) = true ->
  order_by_payme_transaction d (Py.str (Payme.p_id params)) = Some o ->
  (payme_state o = Some (-1) \/ payme_state o = Some (-2)
   \/ status o = cancelled) ->
  let r := Payme._perform_transaction clk d rpc_id params in
  snd r = d
  /\ forall st : Z,
       payme_state o = Some st ->
       fst r = Payme.Return
                 (Payme.Success rpc_id
                    (Payme.Cancelled (Py.or_int (payme_cancel_time o) 0)
                       (Py.str (Payme.p_id params)) st)).
Proof.
  intros Htid Hfind Hc r. subst r. unfold Payme._perform_transaction.
  rewrite Htid, Hfind. cbn [negb].
  assert (Hb : Payme.in_cancelled (payme_state o)
               || bool_decide (status o = cancelled) = true).
  { destruct Hc as [H | [H | H]]; rewrite H; cbn; try reflexivity.
    rewrite bool_decide_eq_true_2 by reflexivity. apply orb_true_r. }
  rewrite Hb. destruct (payme_state o) as [st0 |]; cbn.
  - split; [reflexivity |]. intros st [= ->]. reflexivity.
  - split; [reflexivity |]. intros st [=].
Qed.

Lemma perform_on_cancelled_is_inert_witness :
  let d := with_orders [Fixtures.cancelled_order] Fixtures.db0 in
  let r := Payme._perform_transaction Fixtures.clk0 d (PInt 2)
             (Fixtures.params_for 7 5000000 "tx-1" PNone) in
  snd r = d
  /\ fst r = Payme.Return
               (Payme.Success (PInt 2)
                  (Payme.Cancelled 1695000000000 "tx-1" (-1))).
Proof.
  pose proof (perform_on_cancelled_is_inert Fixtures.clk0
                (with_orders [Fixtures.cancelled_order] Fixtures.db0) (PInt 2)
                (Fixtures.params_for 7 5000000 "tx-1" PNone)
                Fixtures.cancelled_order eq_refl eq_refl (or_introl eq_refl))
    as [Hdb Hresp].
  split; [exact Hdb | exact (Hresp (-1) eq_refl)].
Defined.

(** ** Click Complete with a wrong prepare id *)

(** C9.  A Complete callback that reports no provider error, for an order
    that is neither paid nor cancelled, and that echoes a prepare id
    different from the one stored on the order, is answered with the
    transaction-not-found fault -6 and leaves the database as it was: the
    order keeps its status and the buyer's [is_paid]/[paid_at] are not
    written. *)
Theorem complete_prepare_mismatch
    (clk : Clock) (d : Db) (o : Order) (trans_id : Z)
    (merchant_trans_id : string) (merchant_prepare_id error : Z) :
  0 <= error ->
  status o <> paid ->
  status o <> cancelled ->
  click_prepare_id o <> Some merchant_prepare_id ->
  Click._handle_complete clk d o trans_id merchant_trans_id
    merchant_prepare_id error
  = (Some (Click._response trans_id merchant_trans_id merchant_prepare_id
             (-6) "Prepare ID mismatch"), d).
Proof.
  intros He Hp Hc Hm. unfold Click._handle_complete.
  destruct (Z.ltb_spec error 0) as [Hlt | _]; [lia |].
  rewrite !bool_decide_eq_false_2 by assumption.
  reflexivity.
Qed.

Lemma complete_prepare_mismatch_witness :
  let o := snd (Click._handle_prepare Fixtures.db0 Fixtures.order0 900 "7" 0) in
  Click._handle_complete Fixtures.clk0 o
    (set_payment_method click
       (set_click_prepare_id (Some 7)
          (set_click_trans_id (Some 900) Fixtures.order0)))
    900 "7" 8 0
  = (Some (Click._response 900 "7" 8 (-6) "Prepare ID mismatch"), o).
Proof.
  intros o.
  apply (complete_prepare_mismatch Fixtures.clk0 o
           (set_payment_method click
              (set_click_prepare_id (Some 7)
                 (set_click_trans_id (Some 900) Fixtures.order0)))
           900 "7" 8 0);
    [lia | discriminate | discriminate | discriminate].
Defined.

(** ** The Payme endpoint without a configured key *)

(** C10.  When [PAYME_KEY] is unset or empty, every request whose body is
    a JSON-RPC envelope is answered with the insufficient-privilege fault
    -32504 under the request's id, whatever its [Authorization] header
    and whatever the base64 decoder yields; no handler runs and the
    database is returned as it was. *)
Theorem post_without_key_is_refused
    (b64decode : string -> option string) (cfg : Settings) (clk : Clock)
    (d : Db) (request : Payme.HttpRequest)
    (rpc_id method : pyval) (params : Payme.Params) :
  (PAYME_KEY cfg = None \/ PAYME_KEY cfg = Some EmptyString) ->
  Payme.body request = Payme.Envelope rpc_id method params ->
  Payme.post b64decode cfg clk d request
  = (Payme.Error rpc_id (-32504) "Unauthorized" None, d).
Proof.
  intros Hkey Hbody. unfold Payme.post. rewrite Hbody.
  assert (Hk : Payme.configured_key cfg = EmptyString).
  { unfold Payme.configured_key. destruct Hkey as [-> | ->]; reflexivity. }
  rewrite Hk. reflexivity.
Qed.

Lemma post_without_key_is_refused_witness :
  Payme.post (fun s => Some "Paycom:"%string)
    (mkSettings (Some "merchant"%string) None None None EmptyString)
    Fixtures.clk0 Fixtures.db0
    (Payme.mkHttpRequest "Basic UGF5Y29tOg=="
       (Payme.Envelope (PInt 5) (PStr "CreateTransaction")
          (Fixtures.params_for 7 5000000 "tx-1" PNone)))
  = (Payme.Error (PInt 5) (-32504) "Unauthorized" None, Fixtures.db0).
Proof.
  apply (post_without_key_is_refused (fun s => Some "Paycom:"%string)
           (mkSettings (Some "merchant"%string) None None None EmptyString)
           Fixtures.clk0 Fixtures.db0 _ (PInt 5) (PStr "CreateTransaction")
           (Fixtures.params_for 7 5000000 "tx-1" PNone));
    [left; reflexivity | reflexivity].
Defined.

(** ** CheckTransaction *)

(** C7.  For the transaction found for the request, and with clock
    readings after the epoch, CheckTransaction is read-only and reports:
    a strictly positive [create_time], which is the stored one when that
    is positive and otherwise the order's [created_at]; in states -1 and
    -2 a strictly positive [cancel_time], which is the stored one when
    positive and otherwise the order's [updated_at]; [perform_time = 0]
    in state -1; in states 2 and -2 the stored [perform_time] when
    positive and otherwise the reported [create_time], hence a strictly
    positive value; and a reason (and a non-zero [cancel_time]) only in
    states -1 and -2. *)
Theorem check_transaction_report
    (clk : Clock) (d : Db) (rpc_id : pyval) (params : Payme.Params)
    (o : Order) :
  truthy (Payme.p_id params) = true ->
  order_by_payme_transaction d (Py.str (Payme.p_id params)) = Some o ->
  0 < now_ms clk ->
  (forall t, created_at o = Some t -> 0 < t) ->
  (forall t, updated_at o = Some t -> 0 < t) ->
  let state := Py.or_int (payme_state o) 1 in
  let stored_create := Py.or_int (payme_create_time o) 0 in
  let stored_perform := Py.or_int (payme_perform_time o) 0 in
  let stored_cancel := Py.or_int (payme_cancel_time o) 0 in
  exists (create_time perform_time cancel_time : Z) (reason : option Z),
    Payme._check_transaction clk d rpc_id params
    = (Payme.Return
         (Payme.Success rpc_id
            (Payme.Checked create_time perform_time cancel_time
               (Py.str (Payme.p_id params)) state reason)), d)
    /\ 0 < create_time
    /\ create_time
       = (if 0 <? stored_create then stored_create
          else default (now_ms clk) (created_at o))
    /\ (state = -1 \/ state = -2 ->
        0 < cancel_time
        /\ cancel_time
           = (if 0 <? stored_cancel then stored_cancel
              else default (now_ms clk) (updated_at o))
        /\ reason = payme_cancel_reason o)
    /\ (state = -1 -> perform_time = 0)
    /\ (state = 2 \/ state = -2 ->
        0 < perform_time
        /\ perform_time
           = (if 0 <? stored_perform then stored_perform else create_time))
    /\ (state <> -1 -> state <> -2 -> reason = None /\ cancel_time = 0).
Proof.
  intros Htid Hfind Hnow Hcr Hup state stored_create stored_perform
    stored_cancel.
  unfold Payme._check_transaction. rewrite Htid, Hfind. cbn [negb].
  fold state stored_create stored_perform stored_cancel.
  set (ct := if stored_create <=? 0
             then match created_at o with
                  | Some t => t
                  | None => now_ms clk
                  end
             else stored_create).
  assert (Hct : 0 < ct
                /\ ct = (if 0 <? stored_create then stored_create
                         else default (now_ms clk) (created_at o))).
  { subst ct. destruct (Z.leb_spec stored_create 0);
      destruct (Z.ltb_spec 0 stored_create); try lia.
    destruct (created_at o) as [t |] eqn:E; cbn; [| lia].
    split; [apply Hcr; reflexivity | reflexivity]. }
  destruct Hct as [Hct_pos Hct_eq].
  eexists ct, _, _, _. split; [reflexivity |].
  split; [exact Hct_pos |]. split; [exact Hct_eq |].
  unfold Payme.is_cancelled_state.
  split; [| split; [| split]].
  - intros Hs.
    assert (Hc : (state =? -1) || (state =? -2) = true)
      by (destruct Hs as [-> | ->]; reflexivity).
    rewrite Hc. cbn [andb].
    destruct (Z.leb_spec stored_cancel 0);
      destruct (Z.ltb_spec 0 stored_cancel); try lia.
    + destruct (updated_at o) as [t |] eqn:E; cbn.
      * split; [apply Hup; reflexivity | split; reflexivity].
      * split; [lia | split; reflexivity].
    + split; [lia | split; reflexivity].
  - intros ->. reflexivity.
  - intros Hs.
    assert (Hp : (if state =? -1 then 0
                  else if state =? -2
                       then if 0 <? stored_perform then stored_perform
                            else ct
                       else if state =? 2
                            then if 0 <? stored_perform then stored_perform
                                 else ct
                            else 0)
                 = (if 0 <? stored_perform then stored_perform else ct))
      by (destruct Hs as [-> | ->]; reflexivity).
    rewrite Hp. split; [| reflexivity].
    destruct (Z.ltb_spec 0 stored_perform); lia.
  - intros Hn1 Hn2.
    destruct (Z.eqb_spec state (-1)); [contradiction |].
    destruct (Z.eqb_spec state (-2)); [contradiction |].
    cbn. split; reflexivity.
Qed.

Lemma check_transaction_report_witness :
  let d := with_orders [Fixtures.cancelled_order] Fixtures.db0 in
  exists create_time perform_time cancel_time reason,
    Payme._check_transaction Fixtures.clk0 d (PInt 3)
      (Fixtures.params_for 7 5000000 "tx-1" PNone)
    = (Payme.Return
         (Payme.Success (PInt 3)
            (Payme.Checked create_time perform_time cancel_time "tx-1"
               (-1) reason)), d)
    /\ 0 < create_time /\ 0 < cancel_time /\ perform_time = 0.
Proof.
  intros d.
  destruct (check_transaction_report Fixtures.clk0 d (PInt 3)
              (Fixtures.params_for 7 5000000 "tx-1" PNone) Fixtures.cancelled_order
              eq_refl eq_refl eq_refl)
    as (ct & pt & cn & rs & Heq & Hct & _ & Hcn & Hpt & _).
  - intros t [= <-]. reflexivity.
  - intros t [= <-]. reflexivity.
  - exists ct, pt, cn, rs. split; [exact Heq |]. split; [exact Hct |].
    split; [exact (proj1 (Hcn (or_introl eq_refl))) |].
    exact (Hpt eq_refl).
Defined.

(** ** Rows after [save] *)

Lemma find_after_save (p : Order -> bool) (o o' : Order) (l : list Order) :
  find p l = Some o ->
  id o' = id o ->
  p o' = true ->
  find p (map (fun r => if id r =? id o' then o' else r) l) = Some o'.
Proof.
  intros Hfind Hid Hp. induction l as [| r l IH]; [discriminate |].
  cbn in Hfind |- *.
  destruct (Z.eqb_spec (id r) (id o')) as [Heq | Hne].
  - rewrite Hp. reflexivity.
  - destruct (p r) eqn:Hr.
    + injection Hfind as ->. congruence.
    + apply IH. exact Hfind.
Qed.

Lemma order_by_payme_transaction_save (d : Db) (tid : string) (o o' : Order) :
  order_by_payme_transaction d tid = Some o ->
  id o' = id o ->
  payme_transaction_id o' = Some tid ->
  order_by_payme_transaction (save_order o' d) tid = Some o'.
Proof.
  intros Hfind Hid Htid. unfold order_by_payme_transaction, save_order.
  cbn [orders with_orders].
  apply (find_after_save _ o); [exact Hfind | exact Hid |].
  apply bool_decide_eq_true. exact Htid.
Qed.

Lemma order_by_id_save (d : Db) (k : Z) (o o' : Order) :
  order_by_id d k = Some o ->
  id o' = id o ->
  order_by_id (save_order o' d) k = Some o'.
Proof.
  intros Hfind Hid. unfold order_by_id, save_order. cbn [orders with_orders].
  apply (find_after_save _ o); [exact Hfind | exact Hid |].
  apply order_by_id_Some in Hfind as [_ Hk]. apply Z.eqb_eq. congruence.
Qed.

(** ** First CancelTransaction *)

(** C5.  For a found transaction that is not yet cancelled (order status
    not [cancelled], state neither -1 nor -2), a reason that is omitted
    or an integer the [IntegerField] of the database holds, and an
    existing buyer row, CancelTransaction answers
    with [cancel_time = now] and writes one row [o']: status
    [cancelled], [cancel_time = now], the reason (5 or 3 by default when
    omitted), and
    - when [was_performed] (stored [perform_time > 0], or state 2, or
      order paid): state -2, [perform_time] as it was stored, and the
      buyer set to [is_paid = false] with [paid_at] cleared;
    - otherwise: state -1, [perform_time = 0], buyer untouched. *)
Theorem first_cancel_effect
    (clk : Clock) (d : Db) (rpc_id : pyval) (params : Payme.Params)
    (o : Order) (r : Z) :
  truthy (Payme.p_id params) = true ->
  order_by_payme_transaction d (Py.str (Payme.p_id params)) = Some o ->
  status o <> cancelled ->
  payme_state o <> Some (-1) ->
  payme_state o <> Some (-2) ->
  let was := Payme.was_performed o in
  Py.int (match Payme.p_reason params with
          | PNone => PInt (if was then 5 else 3)
          | _ => Payme.p_reason params
          end) = Some r ->
  (Payme.p_reason params <> PNone -> integer_ok (backend d) r = true) ->
  is_Some (participants d !! participant_id o) ->
  exists (o' : Order) (d' : Db),
    Payme._cancel_transaction clk d rpc_id params
    = (Payme.Return
         (Payme.Success rpc_id
            (Payme.Cancelled (now_ms clk) (Py.str (Payme.p_id params))
               (if was then -2 else -1))), d')
    /\ orders d' = orders (save_order o' d)
    /\ order_by_payme_transaction d' (Py.str (Payme.p_id params)) = Some o'
    /\ id o' = id o
    /\ status o' = cancelled
    /\ payme_state o' = Some (if was then -2 else -1)
    /\ payme_perform_time o'
       = (if was then payme_perform_time o else Some 0)
    /\ payme_cancel_time o' = Some (now_ms clk)
    /\ payme_cancel_reason o' = Some r
    /\ (Payme.p_reason params = PNone -> r = if was then 5 else 3)
    /\ participants d'
       = (if was
          then <[participant_id o := mkParticipant false None]>
                 (participants d)
          else participants d)
    /\ (was = true <->
        0 < Py.or_int (payme_perform_time o) 0
        \/ payme_state o = Some 2 \/ status o = paid).
Proof.
  intros Htid Hfind Hst Hn1 Hn2 was Hr Hfit [p Hp].
  assert (Hok : match Payme.p_reason params with
                | PNone => true
                | _ => integer_ok (backend d) r
                end = true).
  { destruct (Payme.p_reason params); try reflexivity;
      apply Hfit; discriminate. }
  assert (Hwas_iff : was = true <->
                     0 < Py.or_int (payme_perform_time o) 0
                     \/ payme_state o = Some 2 \/ status o = paid).
  { subst was. unfold Payme.was_performed.
    rewrite !orb_true_iff, Z.ltb_lt, !bool_decide_eq_true. tauto. }
  assert (Hnc : bool_decide (status o = cancelled)
                || Payme.in_cancelled (payme_state o) = false).
  { rewrite bool_decide_eq_false_2 by exact Hst. cbn.
    destruct (payme_state o) as [s |]; [| reflexivity]. cbn.
    destruct (Z.eqb_spec s (-1)); [congruence |].
    destruct (Z.eqb_spec s (-2)); [congruence | reflexivity]. }
  assert (Hdef : Payme.p_reason params = PNone -> r = if was then 5 else 3).
  { intros E. rewrite E in Hr. cbn in Hr. congruence. }
  unfold Payme._cancel_transaction.
  rewrite Htid, Hfind. cbn [negb]. rewrite Hnc. fold was.
  rewrite Hr, Hok. cbn [negb].
  pose proof (order_by_payme_transaction_Some _ _ _ Hfind) as [_ Hbound].
  destruct was eqn:Hwas; cbn [negb].
  - set (o' := set_updated_at _ _).
    unfold save_participant_payment. cbn [participants with_participants
      save_order with_orders participant_id o' set_updated_at
      set_payme_cancel_reason set_payme_cancel_time set_payme_state
      set_status]. rewrite Hp.
    eexists o', _. split; [reflexivity |].
    split; [reflexivity |].
    split.
    { apply (order_by_payme_transaction_save d _ o o' Hfind);
        [reflexivity | exact Hbound]. }
    repeat (split; [reflexivity |]).
    split; [exact Hdef |]. split; [reflexivity | exact Hwas_iff].
  - set (o' := set_updated_at _ _).
    eexists o', _. split; [reflexivity |].
    split; [reflexivity |].
    split.
    { apply (order_by_payme_transaction_save d _ o o' Hfind);
        [reflexivity | exact Hbound]. }
    repeat (split; [reflexivity |]).
    split; [exact Hdef |]. split; [reflexivity | exact Hwas_iff].
Qed.

Lemma first_cancel_effect_witness :
  exists (o' : Order) (d' : Db),
    Payme._cancel_transaction Fixtures.clk0 Fixtures.db_performed (PInt 4)
      (Fixtures.params_for 7 5000000 "tx-1" PNone)
    = (Payme.Return
         (Payme.Success (PInt 4)
            (Payme.Cancelled 1700000000000 "tx-1" (-2))), d')
    /\ order_by_payme_transaction d' "tx-1" = Some o'
    /\ payme_state o' = Some (-2)
    /\ payme_perform_time o' = Some 1694000005000
    /\ payme_cancel_reason o' = Some 5
    /\ participants d' !! 1%N = Some (mkParticipant false None).
Proof.
  destruct (first_cancel_effect Fixtures.clk0 Fixtures.db_performed (PInt 4)
              (Fixtures.params_for 7 5000000 "tx-1" PNone)
              Fixtures.performed_order 5 eq_refl eq_refl)
    as (o' & d' & Heq & _ & Hfind & _ & _ & Hst & Hpt & _ & Hrs & _ & Hps & _).
  - discriminate.
  - discriminate.
  - discriminate.
  - reflexivity.
  - intros _. reflexivity.
  - exists Fixtures.paid_buyer. reflexivity.
  - exists o', d'. split; [exact Heq |]. split; [exact Hfind |].
    split; [exact Hst |]. split; [exact Hpt |]. split; [exact Hrs |].
    rewrite Hps. reflexivity.
Defined.

(** ** Text of a truthy transaction id *)

Lemma pretty_N_go_length (x : N) (s : string) :
  (String.length s <= String.length (pretty_N_go x s))%nat.
Proof.
  revert s. induction (N.lt_wf_0 x) as [x _ IH]. intros s.
  destruct (decide (x = 0)%N) as [-> | Hx].
  - rewrite pretty_N_go_0. lia.
  - rewrite pretty_N_go_step by lia.
    etransitivity; [| apply IH; apply N.div_lt; lia]. cbn. lia.
Qed.

Lemma pretty_N_nonempty (x : N) : pretty x <> EmptyString.
Proof.
  unfold pretty, pretty_N. destruct (decide (x = 0)%N) as [-> | Hx];
    [discriminate |].
  rewrite pretty_N_go_step by lia. intros E.
  pose proof (pretty_N_go_length (x `div` 10)%N
                (String (pretty_N_char (x `mod` 10)%N) EmptyString)) as Hlen.
  rewrite E in Hlen. cbn in Hlen. lia.
Qed.

Lemma pretty_Z_nonempty (z : Z) : pretty z <> EmptyString.
Proof.
  destruct z as [| p | p]; [discriminate | |].
  - apply (pretty_N_nonempty (Npos p)).
  - discriminate.
Qed.

Lemma str_truthy_nonempty (v : pyval) :
  truthy v = true -> Py.str v <> EmptyString.
Proof.
  destruct v as [| [|] | z | s]; cbn; try discriminate.
  - intros _. apply pretty_Z_nonempty.
  - intros H E. subst s. discriminate.
Qed.

Lemma truthy_text_Some (s : string) :
  s <> EmptyString -> Py.truthy_text (Some s) = true.
Proof.
  intros H. cbn. destruct (String.eqb_spec s EmptyString); [contradiction | reflexivity].
Qed.

(** ** Presenting a second external id *)

(** C2, as stated, fails for Click: a Prepare callback carrying
    transaction 222 for an order that Prepare had bound to transaction
    111 is answered with success and the stored [click_trans_id]
    becomes 222. *)
Lemma click_prepare_overwrites_bound_id :
  click_trans_id Fixtures.click_bound_order = Some 111
  /\ (let r := Click._handle_prepare Fixtures.db_click_bound
                 Fixtures.click_bound_order 222 "7" 0 in
      (Click.r_error <$> fst r) = Some 0
      /\ (click_trans_id <$> order_by_id (snd r) 7) = Some (Some 222)).
Proof. split; [reflexivity |]. split; reflexivity. Qed.

(** C2, amended.  Payme: on an order bound to a non-empty transaction id,
    CreateTransaction presenting an id with a different text returns an
    error and leaves the database as it was; the error is the busy fault
    (-31050, "Order is busy") when the amount matches and the order is
    neither paid nor cancelled.  Click: Prepare on an order that is
    neither paid nor cancelled, with a transaction id the
    [BigIntegerField] holds (64 bits, signed), answers success and
    stores the transaction id of the callback, whatever id was stored
    before; on a paid or cancelled order it writes nothing. *)
Theorem second_external_id
    (clk : Clock) (d : Db) (rpc_id : pyval) (params : Payme.Params)
    (order_id amount : Z) (o : Order) (bound : string)
    (d2 : Db) (o2 : Order) (trans_id : Z) (merchant_trans_id : string)
    (error : Z) :
  (Payme._get_order_id params = Some (Some order_id) ->
   Payme._get_amount_tiyin params = Some amount ->
   truthy (Payme.p_id params) = true ->
   order_by_id d order_id = Some o ->
   payme_transaction_id o = Some bound ->
   bound <> EmptyString ->
   Py.str (Payme.p_id params) <> bound ->
   let r := Payme._create_transaction clk d rpc_id params in
   snd r = d
   /\ (exists code message data,
         fst r = Payme.Return (Payme.Error rpc_id code message data))
   /\ (amount = Payme._expected_amount_tiyin o ->
       status o <> paid ->
       status o <> cancelled ->
       fst r = Payme.Return
                 (Payme.Error rpc_id (-31050) "Order is busy"
                    (Some "order_id"%string))))
  /\ (status o2 <> paid ->
      status o2 <> cancelled ->
      order_by_id d2 (id o2) = Some o2 ->
      -9223372036854775808 <= trans_id <= 9223372036854775807 ->
      let r := Click._handle_prepare d2 o2 trans_id merchant_trans_id error in
      fst r = Some (Click._response trans_id merchant_trans_id (id o2) 0
                      "Success")
      /\ exists o', order_by_id (snd r) (id o2) = Some o'
                    /\ click_trans_id o' = Some trans_id
                    /\ click_prepare_id o' = Some (id o2)
                    /\ payment_method o' = click)
  /\ (status o2 = paid \/ status o2 = cancelled ->
      snd (Click._handle_prepare d2 o2 trans_id merchant_trans_id error) = d2).
Proof.
  split; [| split].
  - intros Hid Hamt Htid Hfind Hbound Hne Hdiff r. subst r.
    unfold Payme._create_transaction.
    rewrite Hid, Hamt, Htid, Hfind. cbn [negb].
    destruct (Z.eqb_spec amount (Payme._expected_amount_tiyin o))
      as [Ha | Ha]; cbn [negb].
    2: { cbn. split; [reflexivity |]. split; [eauto | contradiction]. }
    destruct (decide (status o = paid)) as [Hp | Hp].
    { rewrite bool_decide_eq_true_2 by exact Hp. cbn.
      split; [reflexivity |]. split; [eauto | contradiction]. }
    rewrite (bool_decide_eq_false_2 _ Hp).
    destruct (decide (status o = cancelled)) as [Hc | Hc].
    { rewrite bool_decide_eq_true_2 by exact Hc. cbn.
      split; [reflexivity |]. split; [eauto | contradiction]. }
    rewrite (bool_decide_eq_false_2 _ Hc).
    rewrite Hbound, (truthy_text_Some bound Hne). cbn [Py.str_text].
    destruct (String.eqb_spec bound (Py.str (Payme.p_id params)));
      [congruence |].
    cbn. split; [reflexivity |]. split; [eauto | reflexivity].
  - intros Hp Hc Hfind Hrange r. subst r. unfold Click._handle_prepare.
    rewrite !bool_decide_eq_false_2 by assumption.
    rewrite (bigint_ok_range trans_id Hrange).
    cbn [negb fst snd].
    split; [destruct (_ && _); reflexivity |].
    eexists. split.
    + apply (order_by_id_save d2 (id o2) o2); [exact Hfind |].
      destruct (_ && _); reflexivity.
    + destruct (_ && _); repeat split; reflexivity.
  - intros [H | H]; unfold Click._handle_prepare; rewrite H.
    + reflexivity.
    + reflexivity.
Qed.

Lemma second_external_id_witness :
  (let r := Payme._create_transaction Fixtures.clk0 Fixtures.db_bound
              (PInt 6) (Fixtures.params_for 7 5000000 "tx-2" PNone) in
   snd r = Fixtures.db_bound
   /\ fst r = Payme.Return
                (Payme.Error (PInt 6) (-31050) "Order is busy"
                   (Some "order_id"%string)))
  /\ (exists o',
        order_by_id
          (snd (Click._handle_prepare Fixtures.db_click_bound
                  Fixtures.click_bound_order 222 "7" 0)) 7 = Some o'
        /\ click_trans_id o' = Some 222).
Proof.
  destruct (second_external_id Fixtures.clk0 Fixtures.db_bound (PInt 6)
              (Fixtures.params_for 7 5000000 "tx-2" PNone) 7 5000000
              Fixtures.bound_order "tx-1"
              Fixtures.db_click_bound Fixtures.click_bound_order 222 "7" 0)
    as (Hpayme & Hclick & _).
  split.
  - destruct (Hpayme eq_refl eq_refl eq_refl eq_refl eq_refl)
      as (Hdb & _ & Hbusy); [discriminate | discriminate |].
    split; [exact Hdb |].
    apply Hbusy; [reflexivity | discriminate | discriminate].
  - destruct Hclick as (_ & o' & Ho' & Hid & _);
      [discriminate | discriminate | reflexivity | lia |].
    exists o'. split; [exact Ho' | exact Hid].
Defined.

(** ** CreateTransaction replayed *)

(** The first CreateTransaction on an order that is not bound yet. *)
Lemma create_binds
    (clk : Clock) (d : Db) (rpc_id : pyval) (params : Payme.Params)
    (order_id ct : Z) (o : Order) :
  Payme._get_order_id params = Some (Some order_id) ->
  Payme._get_amount_tiyin params = Some (Payme._expected_amount_tiyin o) ->
  truthy (Payme.p_id params) = true ->
  order_by_id d order_id = Some o ->
  status o <> paid ->
  status o <> cancelled ->
  Py.truthy_text (payme_transaction_id o) = false ->
  Py.int (match Payme.p_time params with
          | PNone => PInt (now_ms clk)
          | PBool b => PBool b
          | PInt z => PInt z
          | PStr s => PStr s
          end) = Some ct ->
  varchar_ok (backend d) 255 (Py.str (Payme.p_id params)) = true ->
  Column.bigint_ok ct = true ->
  Payme._create_transaction clk d rpc_id params
  = (Payme.Return
       (Payme.Success rpc_id
          (Payme.Created ct (Py.str (Payme.p_id params)) 1)),
     save_order
       (set_payme_state (Some 1)
          (set_payme_create_time (Some ct)
             (set_payme_transaction_id
                (Some (Py.str (Payme.p_id params))) o))) d).
Proof.
  intros Hid Hamt Htid Hfind Hp Hc Hunbound Hct Htext Hrange.
  unfold Payme._create_transaction.
  rewrite Hid, Hamt, Htid, Hfind. cbn [negb].
  rewrite Z.eqb_refl. cbn [negb].
  rewrite !bool_decide_eq_false_2 by assumption.
  rewrite Hunbound, Hct, Htext, Hrange. reflexivity.
Qed.

(** CreateTransaction on an order already bound to the same id: nothing
    is written, the state reported is the stored one (1 when unset) and
    the [create_time] reported is the stored one unless that is unset or
    zero, in which case it is the time of the present request. *)
Lemma create_replay
    (clk : Clock) (d : Db) (rpc_id : pyval) (params : Payme.Params)
    (order_id : Z) (o : Order) (bound : string) :
  Payme._get_order_id params = Some (Some order_id) ->
  Payme._get_amount_tiyin params = Some (Payme._expected_amount_tiyin o) ->
  truthy (Payme.p_id params) = true ->
  order_by_id d order_id = Some o ->
  status o <> paid ->
  status o <> cancelled ->
  payme_transaction_id o = Some bound ->
  Py.str (Payme.p_id params) = bound ->
  Payme._create_transaction clk d rpc_id params
  = (match Py.int_or (payme_create_time o)
             (match Payme.p_time params with
              | PNone => PInt (now_ms clk)
              | PBool b => PBool b
              | PInt z => PInt z
              | PStr s => PStr s
              end) with
     | Some stored_ct =>
         Payme.Return
           (Payme.Success rpc_id
              (Payme.Created stored_ct bound
                 (Py.or_int (payme_state o) 1)))
     | None => Payme.Raised
     end, d).
Proof.
  intros Hid Hamt Htid Hfind Hp Hc Hbound Hsame.
  pose proof (str_truthy_nonempty _ Htid) as Hne. rewrite Hsame in Hne.
  unfold Payme._create_transaction.
  rewrite Hid, Hamt, Htid, Hfind. cbn [negb].
  rewrite Z.eqb_refl. cbn [negb].
  rewrite !bool_decide_eq_false_2 by assumption.
  rewrite Hbound, (truthy_text_Some bound Hne). cbn [Py.str_text].
  rewrite Hsame, String.eqb_refl.
  destruct (Py.int_or _ _); reflexivity.
Qed.

(** Create twice with the same id: when the first call stored a non-zero
    [create_time], the second call returns that [create_time] and state
    1 and writes nothing, whatever time it carries itself; when the
    first call stored 0, the same holds provided the second call carries
    that same time. *)
Lemma create_twice_same_id
    (clk1 clk2 : Clock) (d : Db) (rpc1 rpc2 : pyval)
    (params1 params2 : Payme.Params) (order_id ct : Z) (o : Order) :
  Payme._get_order_id params1 = Some (Some order_id) ->
  Payme._get_order_id params2 = Some (Some order_id) ->
  Payme._get_amount_tiyin params1 = Some (Payme._expected_amount_tiyin o) ->
  Payme._get_amount_tiyin params2 = Some (Payme._expected_amount_tiyin o) ->
  truthy (Payme.p_id params1) = true ->
  truthy (Payme.p_id params2) = true ->
  Py.str (Payme.p_id params2) = Py.str (Payme.p_id params1) ->
  order_by_id d order_id = Some o ->
  status o <> paid ->
  status o <> cancelled ->
  Py.truthy_text (payme_transaction_id o) = false ->
  Py.int (match Payme.p_time params1 with
          | PNone => PInt (now_ms clk1)
          | PBool b => PBool b
          | PInt z => PInt z
          | PStr s => PStr s
          end) = Some ct ->
  varchar_ok (backend d) 255 (Py.str (Payme.p_id params1)) = true ->
  Column.bigint_ok ct = true ->
  (ct <> 0
   \/ Py.int (match Payme.p_time params2 with
              | PNone => PInt (now_ms clk2)
              | PBool b => PBool b
              | PInt z => PInt z
              | PStr s => PStr s
              end) = Some ct) ->
  let r1 := Payme._create_transaction clk1 d rpc1 params1 in
  let r2 := Payme._create_transaction clk2 (snd r1) rpc2 params2 in
  fst r1 = Payme.Return
             (Payme.Success rpc1
                (Payme.Created ct (Py.str (Payme.p_id params1)) 1))
  /\ fst r2 = Payme.Return
                (Payme.Success rpc2
                   (Payme.Created ct (Py.str (Payme.p_id params1)) 1))
  /\ snd r2 = snd r1.
Proof.
  intros Hid1 Hid2 Ha1 Ha2 Ht1 Ht2 Hsame Hfind Hp Hc Hunbound Hct Htext
    Hrange Hnz r1 r2.
  subst r1 r2.
  rewrite (create_binds clk1 d rpc1 params1 order_id ct o) by assumption.
  cbn [fst snd]. split; [reflexivity |].
  set (o1 := set_payme_state _ _).
  rewrite (create_replay clk2 (save_order o1 d) rpc2 params2 order_id o1
             (Py.str (Payme.p_id params1))); try assumption;
    try reflexivity.
  - cbn [o1 payme_create_time payme_state set_payme_state
           set_payme_create_time set_payme_transaction_id].
    unfold Py.int_or. cbn [Py.truthy_int].
    destruct (Z.eqb_spec ct 0) as [Hz | Hz]; cbn [negb].
    + destruct Hnz as [Hnz | Hsame_time]; [contradiction |].
      rewrite Hsame_time. split; reflexivity.
    + split; reflexivity.
  - apply (order_by_id_save d order_id o o1 Hfind). reflexivity.
Qed.

(** C3 at a first call that carries [time = 0]: the first
    CreateTransaction answers [create_time = 0] and stores it; the second
    call with the same id answers with its own time, 1700000000500,
    instead of the stored 0.  The stored columns are not changed by the
    second call. *)
Theorem create_replay_after_zero_time :
  let r1 := Payme._create_transaction Fixtures.clk0 Fixtures.db0 (PInt 1)
              (Fixtures.params_for 7 5000000 "tx-1" (PInt 0)) in
  let r2 := Payme._create_transaction Fixtures.clk0 (snd r1) (PInt 2)
              (Fixtures.params_for 7 5000000 "tx-1" (PInt 1700000000500)) in
  fst r1 = Payme.Return
             (Payme.Success (PInt 1) (Payme.Created 0 "tx-1" 1))
  /\ (payme_create_time <$> order_by_id (snd r1) 7) = Some (Some 0)
  /\ fst r2 = Payme.Return
                (Payme.Success (PInt 2)
                   (Payme.Created 1700000000500 "tx-1" 1))
  /\ snd r2 = snd r1.
Proof. repeat split; reflexivity. Qed.

(** ** GetStatement *)

(** C8.  GetStatement is read-only.  With [from > to] it returns the
    invalid-params fault.  Otherwise it returns one entry per row of the
    selection, in table order, where the selection consists of exactly
    the rows that have a transaction id and a [create_time] with
    [from <= create_time <= to] (so a row with [create_time = to + 1] is
    left out).  Each entry reports the row's [create_time] as [time] and
    [create_time], the amount in tiyin and the order id; its
    [perform_time] is the stored one when positive and 0 otherwise, hence
    non-zero only in states 2 and -2 for a consistent row; its
    [cancel_time] is 0 and its reason absent unless the state is -1 or
    -2, in which case they are the stored ones. *)
Theorem statement_window
    (clk : Clock) (d : Db) (rpc_id : pyval) (params : Payme.Params)
    (from_ts to_ts : Z) :
  Py.int (Payme.p_from params) = Some from_ts ->
  Py.int (Payme.p_to params) = Some to_ts ->
  let r := Payme._get_statement clk d rpc_id params in
  snd r = d
  /\ (to_ts < from_ts ->
      fst r = Payme.Return
                (Payme.Error rpc_id (-32602) "Invalid Params"
                   (Some "from>to"%string)))
  /\ (from_ts <= to_ts ->
      exists qs : list Order,
        fst r = Payme.Return
                  (Payme.Success rpc_id
                     (Payme.Statement (map Payme.statement_entry qs)))
        /\ qs = List.filter (Payme.in_statement from_ts to_ts) (orders d)
        /\ (forall o,
              In o qs <->
              In o (orders d)
              /\ payme_transaction_id o <> None
              /\ exists ct, payme_create_time o = Some ct
                            /\ from_ts <= ct <= to_ts)
        /\ (forall o, payme_create_time o = Some (to_ts + 1) -> ~ In o qs)
        /\ Forall
             (fun o =>
                let e := Payme.statement_entry o in
                let state := Payme.tx_state e in
                payme_create_time o = Some (Payme.tx_create_time e)
                /\ Payme.tx_time e = Payme.tx_create_time e
                /\ Payme.tx_amount e = Payme._expected_amount_tiyin o
                /\ Payme.tx_account_order_id e = id o
                /\ payme_transaction_id o = Some (Payme.tx_id e)
                /\ state = Py.or_int (payme_state o) 1
                /\ Payme.tx_perform_time e
                   = (if 0 <? Py.or_int (payme_perform_time o) 0
                      then Py.or_int (payme_perform_time o) 0 else 0)
                /\ (perform_time_consistent o ->
                    Payme.tx_perform_time e <> 0 ->
                    state = 2 \/ state = -2)
                /\ (state = -1 \/ state = -2 ->
                    Payme.tx_cancel_time e
                    = Py.or_int (payme_cancel_time o) 0
                    /\ Payme.tx_reason e = payme_cancel_reason o)
                /\ (state <> -1 -> state <> -2 ->
                    Payme.tx_cancel_time e = 0
                    /\ Payme.tx_reason e = None))
             qs).
Proof.
  intros Hf Ht r. subst r. unfold Payme._get_statement. rewrite Hf, Ht.
  destruct (Z.ltb_spec to_ts from_ts) as [Hlt | Hle]; cbn [fst snd].
  - split; [reflexivity |]. split; [reflexivity | lia].
  - split; [reflexivity |]. split; [lia |]. intros _.
    assert (Hsel : forall o,
               Payme.in_statement from_ts to_ts o = true <->
               payme_transaction_id o <> None
               /\ exists ct, payme_create_time o = Some ct
                             /\ from_ts <= ct <= to_ts).
    { intros o. unfold Payme.in_statement.
      destruct (payme_transaction_id o) as [t |];
        destruct (payme_create_time o) as [ct |]; cbn.
      - rewrite andb_true_iff, !Z.leb_le. split.
        + intros H. split; [discriminate |]. exists ct. split; [reflexivity | lia].
        + intros [_ (ct' & [= <-] & H)]. lia.
      - split; [discriminate |]. intros [_ (ct' & [=] & _)].
      - split; [discriminate |]. intros [H _]. contradiction.
      - split; [discriminate |]. intros [H _]. contradiction. }
    eexists. split; [reflexivity |]. split; [reflexivity |].
    split; [| split].
    + intros o. rewrite filter_In, Hsel. reflexivity.
    + intros o Hct Hin. apply filter_In in Hin as [_ Hin].
      apply Hsel in Hin as [_ (ct & Hct' & Hr)]. rewrite Hct in Hct'.
      injection Hct' as <-. lia.
    + apply List.Forall_forall. intros o Hin.
      apply filter_In in Hin as [_ Hin].
      apply Hsel in Hin as [Hb (ct & Hct & Hr)].
      destruct (payme_transaction_id o) as [t |] eqn:Htid;
        [| contradiction].
      unfold Payme.statement_entry, Payme.is_cancelled_state.
      cbn [Payme.tx_create_time Payme.tx_time Payme.tx_amount
           Payme.tx_account_order_id Payme.tx_id Payme.tx_state
           Payme.tx_perform_time Payme.tx_cancel_time Payme.tx_reason].
      rewrite Htid, Hct. cbn [Py.str_text].
      split.
      { unfold Py.or_int. destruct (Z.eqb_spec ct 0); congruence. }
      split; [reflexivity |]. split; [reflexivity |].
      split; [reflexivity |]. split; [reflexivity |].
      split; [reflexivity |]. split; [reflexivity |].
      split.
      { intros Hcons Hnz.
        destruct (Z.ltb_spec 0 (Py.or_int (payme_perform_time o) 0))
          as [Hpos | Hnp]; [| contradiction].
        destruct (Hcons Hpos) as [_ [E | E]]; rewrite E; cbn; auto. }
      split.
      { intros [E | E]; rewrite E; cbn; split; reflexivity. }
      intros Hn1 Hn2.
      destruct (Z.eqb_spec (Py.or_int (payme_state o) 1) (-1));
        [contradiction |].
      destruct (Z.eqb_spec (Py.or_int (payme_state o) 1) (-2));
        [contradiction |].
      cbn. split; reflexivity.
Qed.

Lemma statement_window_witness :
  fst (Payme._get_statement Fixtures.clk0 Fixtures.db_statement (PInt 8)
         (Fixtures.params_range 1693000000000 1694000000000))
  = Payme.Return
      (Payme.Success (PInt 8)
         (Payme.Statement
            [Payme.mkStatementTx "tx-1" 1694000000000 5000000 7
               1694000000000 1694000005000 0 "tx-1" 2 None]))
  /\ ~ In Fixtures.late_order
         (List.filter (Payme.in_statement 1693000000000 1694000000000)
            (orders Fixtures.db_statement)).
Proof.
  destruct (statement_window Fixtures.clk0 Fixtures.db_statement (PInt 8)
              (Fixtures.params_range 1693000000000 1694000000000)
              1693000000000 1694000000000 eq_refl eq_refl)
    as (_ & _ & H).
  destruct H as (qs & Heq & Hqs & _ & Hlate & _); [lia |].
  split.
  - rewrite Heq, Hqs. reflexivity.
  - rewrite <- Hqs. apply Hlate. reflexivity.
Defined.

(** ** The callbacks keep rows consistent *)

Lemma save_order_Forall (P : Order -> Prop) (o' : Order) (d : Db) :
  Forall P (orders d) -> P o' -> Forall P (orders (save_order o' d)).
Proof.
  intros Hall Ho. unfold save_order. cbn [orders with_orders].
  induction Hall as [| r l Hr _ IH]; cbn; [constructor |].
  constructor; [| exact IH]. destruct (id r =? id o'); assumption.
Qed.

Lemma save_participant_payment_orders
    (pid : N) (flag : bool) (at_ : option Z) (d d' : Db) :
  save_participant_payment pid flag at_ d = Some d' -> orders d' = orders d.
Proof.
  unfold save_participant_payment.
  destruct (participants d !! pid); [| discriminate].
  intros [= <-]. reflexivity.
Qed.

Lemma Forall_In_orders (P : Order -> Prop) (d : Db) (o : Order) :
  Forall P (orders d) -> In o (orders d) -> P o.
Proof. intros Hall Hin. exact (proj1 (List.Forall_forall P _) Hall o Hin). Qed.

Lemma found_by_truthy_id_is_bound (d : Db) (v : pyval) (o : Order) :
  truthy v = true ->
  order_by_payme_transaction d (Py.str v) = Some o ->
  Py.truthy_text (payme_transaction_id o) = true.
Proof.
  intros Hv Hfind.
  apply order_by_payme_transaction_Some in Hfind as [_ ->].
  apply truthy_text_Some, str_truthy_nonempty, Hv.
Qed.

Lemma atomic_snd (d : Db) (r : Payme.Outcome * Db) (P : Db -> Prop) :
  P d -> P (snd r) -> P (snd (Payme.atomic d r)).
Proof.
  intros Hd Hr. unfold Payme.atomic. destruct r as [[resp |] d']; cbn in *;
    assumption.
Qed.

Lemma create_keeps_perform_time_consistent
    (clk : Clock) (d : Db) (rpc_id : pyval) (params : Payme.Params) :
  Forall perform_time_consistent (orders d) ->
  Forall perform_time_consistent
    (orders (snd (Payme._create_transaction clk d rpc_id params))).
Proof.
  intros Hall. unfold Payme._create_transaction.
  destruct (Payme._get_order_id params) as [[order_id |] |]; try exact Hall.
  destruct (Payme._get_amount_tiyin params) as [amount |]; try exact Hall.
  destruct (negb (truthy (Payme.p_id params))); [exact Hall |].
  apply (atomic_snd d _ (fun d' => Forall perform_time_consistent (orders d')));
    [exact Hall |].
  destruct (order_by_id d order_id) as [o |] eqn:Hfind; [| exact Hall].
  destruct (negb _); [exact Hall |].
  destruct (bool_decide (status o = paid)); [exact Hall |].
  destruct (bool_decide (status o = cancelled)); [exact Hall |].
  destruct (Py.truthy_text (payme_transaction_id o)) eqn:Hb.
  - destruct (String.eqb _ _); [| exact Hall].
    destruct (Py.int_or _ _); exact Hall.
  - destruct (Py.int _) as [ct |]; [| exact Hall].
    destruct (negb _); [exact Hall |]. cbn [snd].
    apply save_order_Forall; [exact Hall |].
    apply order_by_id_Some in Hfind as [Hin _].
    pose proof (Forall_In_orders _ d o Hall Hin) as Ho.
    intros Hpos. cbn in Hpos. apply Ho in Hpos as [Hbound _]. congruence.
Qed.

Lemma perform_keeps_perform_time_consistent
    (clk : Clock) (d : Db) (rpc_id : pyval) (params : Payme.Params) :
  Forall perform_time_consistent (orders d) ->
  Forall perform_time_consistent
    (orders (snd (Payme._perform_transaction clk d rpc_id params))).
Proof.
  intros Hall. unfold Payme._perform_transaction.
  destruct (truthy (Payme.p_id params)) eqn:Htid; [| exact Hall].
  cbn [negb].
  apply (atomic_snd d _ (fun d' => Forall perform_time_consistent (orders d')));
    [exact Hall |].
  destruct (order_by_payme_transaction d _) as [o |] eqn:Hfind;
    [| exact Hall].
  destruct (_ || _).
  { destruct (payme_state o); exact Hall. }
  destruct (_ || _); [exact Hall |].
  destruct (save_participant_payment _ _ _ _) as [d' |] eqn:Hsave; cbn [snd].
  - rewrite (save_participant_payment_orders _ _ _ _ _ Hsave).
    apply save_order_Forall; [exact Hall |].
    intros _. split; [| left; reflexivity].
    exact (found_by_truthy_id_is_bound d _ o Htid Hfind).
  - apply save_order_Forall; [exact Hall |].
    intros _. split; [| left; reflexivity].
    exact (found_by_truthy_id_is_bound d _ o Htid Hfind).
Qed.

Lemma consistent_after_cancel (o o' : Order) :
  Py.truthy_text (payme_transaction_id o') = true ->
  payme_state o' = Some (if Payme.was_performed o then -2 else -1) ->
  (payme_perform_time o' = payme_perform_time o
   \/ payme_perform_time o' = Some 0) ->
  perform_time_consistent o'.
Proof.
  intros Hb Hs Hp Hpos. split; [exact Hb |]. right.
  destruct Hp as [E | E]; rewrite E in Hpos; [| cbn in Hpos; lia].
  assert (Hw : Payme.was_performed o = true).
  { unfold Payme.was_performed. apply Z.ltb_lt in Hpos. rewrite Hpos.
    reflexivity. }
  rewrite Hw in Hs. exact Hs.
Qed.

Lemma cancel_keeps_perform_time_consistent
    (clk : Clock) (d : Db) (rpc_id : pyval) (params : Payme.Params) :
  Forall perform_time_consistent (orders d) ->
  Forall perform_time_consistent
    (orders (snd (Payme._cancel_transaction clk d rpc_id params))).
Proof.
  intros Hall. unfold Payme._cancel_transaction.
  destruct (truthy (Payme.p_id params)) eqn:Htid; [| exact Hall].
  cbn [negb].
  apply (atomic_snd d _ (fun d' => Forall perform_time_consistent (orders d')));
    [exact Hall |].
  destruct (order_by_payme_transaction d _) as [o |] eqn:Hfind;
    [| exact Hall].
  pose proof (found_by_truthy_id_is_bound d _ o Htid Hfind) as Hbound.
  assert (Hrow : forall o',
             payme_transaction_id o' = payme_transaction_id o ->
             payme_state o'
             = Some (if Payme.was_performed o then -2 else -1) ->
             (payme_perform_time o' = payme_perform_time o
              \/ payme_perform_time o' = Some 0) ->
             Forall perform_time_consistent (orders (save_order o' d))).
  { intros o' Ht Hs Hp. apply save_order_Forall; [exact Hall |].
    apply (consistent_after_cancel o); [congruence | exact Hs | exact Hp]. }
  destruct (_ || _).
  - destruct (negb (Py.or_int (payme_state o) 0 =? _)).
    + destruct (negb (Py.truthy_int (payme_cancel_time o)));
        (destruct (payme_cancel_reason o) eqn:Hreason;
         cbn [payme_cancel_reason set_payme_state set_payme_cancel_time];
         rewrite ?Hreason;
         [| destruct (Payme.p_reason params) eqn:Hr;
            [| destruct (Py.int _);
               [cbn [mbind option_bind];
                destruct (integer_ok _ _); [| exact Hall]
               | exact Hall] ..]];
         cbn -[save_order]; apply Hrow; try reflexivity; left; reflexivity).
    + destruct (payme_state o); exact Hall.
  - destruct (Py.int _) as [r |]; [| exact Hall].
    destruct (negb _); [exact Hall |].
    destruct (Payme.was_performed o) eqn:Hw; cbn [negb].
    + destruct (save_participant_payment _ _ _ _) as [d' |] eqn:Hsave;
        cbn [snd];
        rewrite ?(save_participant_payment_orders _ _ _ _ _ Hsave);
        apply Hrow; try reflexivity; rewrite ?Hw; try reflexivity;
        left; reflexivity.
    + cbn [snd]. apply Hrow; try reflexivity; rewrite ?Hw; try reflexivity.
      right; reflexivity.
Qed.

Lemma handler_keeps_perform_time_consistent
    (method : pyval)
    (handler : Clock -> Db -> pyval -> Payme.Params -> Payme.Outcome * Db)
    (clk : Clock) (d : Db) (rpc_id : pyval) (params : Payme.Params) :
  Payme.handlers method = Some handler ->
  Forall perform_time_consistent (orders d) ->
  Forall perform_time_consistent (orders (snd (handler clk d rpc_id params))).
Proof.
  intros Hh Hall. unfold Payme.handlers in Hh.
  destruct method as [| b | z | m]; try discriminate.
  repeat match type of Hh with
         | (if ?c then _ else _) = _ => destruct c
         end;
    try discriminate; injection Hh as <-.
  - unfold Payme._check_perform_transaction.
    repeat match goal with
           | |- context [match ?x with _ => _ end] => destruct x
           end; exact Hall.
  - apply create_keeps_perform_time_consistent, Hall.
  - apply perform_keeps_perform_time_consistent, Hall.
  - apply cancel_keeps_perform_time_consistent, Hall.
  - unfold Payme._check_transaction.
    destruct (negb _); [exact Hall |].
    destruct (order_by_payme_transaction d _); exact Hall.
  - unfold Payme._get_statement.
    destruct (Py.int _); [| exact Hall].
    destruct (Py.int _); [| exact Hall].
    destruct (_ <? _); exact Hall.
Qed.

(** The Payme endpoint keeps every row consistent. *)
Lemma post_keeps_perform_time_consistent
    (b64decode : string -> option string) (cfg : Settings) (clk : Clock)
    (d : Db) (request : Payme.HttpRequest) :
  Forall perform_time_consistent (orders d) ->
  Forall perform_time_consistent
    (orders (snd (Payme.post b64decode cfg clk d request))).
Proof.
  intros Hall. unfold Payme.post.
  destruct (Payme.body request) as [| | rpc_id method params];
    try exact Hall.
  destruct (negb (negb _)); [exact Hall |].
  destruct (negb _); [exact Hall |].
  destruct (Payme.handlers method) as [handler |] eqn:Hh; [| exact Hall].
  pose proof (handler_keeps_perform_time_consistent method handler clk d
                rpc_id params Hh Hall) as Hkeep.
  destruct (handler clk d rpc_id params) as [[resp |] d']; exact Hkeep.
Qed.

(** So do the Click handlers, called on a consistent row. *)
Lemma prepare_keeps_perform_time_consistent
    (d : Db) (o : Order) (trans_id : Z) (merchant_trans_id : string)
    (error : Z) :
  perform_time_consistent o ->
  Forall perform_time_consistent (orders d) ->
  Forall perform_time_consistent
    (orders (snd (Click._handle_prepare d o trans_id merchant_trans_id
                    error))).
Proof.
  intros Ho Hall. unfold Click._handle_prepare.
  destruct (bool_decide (status o = paid)); [exact Hall |].
  destruct (bool_decide (status o = cancelled)); [exact Hall |].
  destruct (negb _); [exact Hall |].
  cbn [snd]. apply save_order_Forall; [exact Hall |].
  destruct (_ && _); exact Ho.
Qed.

Lemma complete_keeps_perform_time_consistent
    (clk : Clock) (d : Db) (o : Order) (trans_id : Z)
    (merchant_trans_id : string) (merchant_prepare_id error : Z) :
  perform_time_consistent o ->
  Forall perform_time_consistent (orders d) ->
  Forall perform_time_consistent
    (orders (snd (Click._handle_complete clk d o trans_id merchant_trans_id
                    merchant_prepare_id error))).
Proof.
  intros Ho Hall. unfold Click._handle_complete.
  destruct (error <? 0).
  { cbn [snd]. destruct (negb _); [| exact Hall].
    apply save_order_Forall; [exact Hall | exact Ho]. }
  destruct (bool_decide (status o = paid)); [exact Hall |].
  destruct (bool_decide (status o = cancelled)); [exact Hall |].
  destruct (negb _); [exact Hall |].
  destruct (save_participant_payment _ _ _ _) as [d' |] eqn:Hsave;
    [| exact Hall].
  cbn [snd]. rewrite (save_participant_payment_orders _ _ _ _ _ Hsave).
  apply save_order_Forall; [exact Hall | exact Ho].
Qed.

(** ** Order initiation *)

Lemma create_order_fields
    (clk : Clock) (pid : N) (s : Subject) (amount : Decimal)
    (method : PaymentMethod) (d : Db) :
  let r := Initiate.create_order clk pid s amount method d in
  orders (snd r) = fst r :: orders d
  /\ next_order_id (snd r) = next_order_id d + 1
  /\ id (fst r) = next_order_id d
  /\ total_amount (fst r) = amount
  /\ subject_id (fst r) = Some (subj_id s)
  /\ status (fst r) = pending
  /\ payment_method (fst r) = method.
Proof. repeat split; reflexivity. Qed.

Section RestOrders.

Variables (clk : Clock) (pid : N) (method : PaymentMethod).

Lemma create_remaining_cons (s : Subject) (rest : list Subject) (d : Db) :
  Initiate.create_remaining clk pid method (s :: rest) d
  = Initiate.create_remaining clk pid method rest
      (snd (Initiate.create_order clk pid s (ticket_price s) method d)).
Proof. reflexivity. Qed.

Lemma create_remaining_older_lookup (rest : list Subject) (d : Db) (k : Z) :
  k < next_order_id d ->
  order_by_id (Initiate.create_remaining clk pid method rest d) k
  = order_by_id d k.
Proof.
  revert d. induction rest as [| s rest IH]; intros d Hk; [reflexivity |].
  rewrite create_remaining_cons, IH by (cbn; lia).
  unfold order_by_id. cbn.
  destruct (Z.eqb_spec (next_order_id d) k); [lia | reflexivity].
Qed.

Lemma create_remaining_keeps (rest : list Subject) (d : Db) (o : Order) :
  In o (orders d) ->
  In o (orders (Initiate.create_remaining clk pid method rest d)).
Proof.
  revert d. induction rest as [| s rest IH]; intros d Hin; [exact Hin |].
  rewrite create_remaining_cons. apply IH. cbn. right. exact Hin.
Qed.

Lemma create_remaining_own_price (rest : list Subject) (d : Db)
    (i : nat) (s : Subject) :
  nth_error rest i = Some s ->
  exists o, In o (orders (Initiate.create_remaining clk pid method rest d))
            /\ id o = next_order_id d + Z.of_nat i
            /\ total_amount o = ticket_price s
            /\ subject_id o = Some (subj_id s).
Proof.
  revert d i. induction rest as [| s0 rest IH]; intros d i Hnth.
  - destruct i; discriminate.
  - rewrite create_remaining_cons. destruct i as [| i]; cbn in Hnth.
    + injection Hnth as ->.
      exists (fst (Initiate.create_order clk pid s (ticket_price s)
                     method d)).
      split; [apply create_remaining_keeps; left; reflexivity |].
      cbn. repeat split. lia.
    + destruct (IH (snd (Initiate.create_order clk pid s0
                           (ticket_price s0) method d)) i Hnth)
        as (o & Hin & Hid & Hrest).
      exists o. split; [exact Hin |]. split; [| exact Hrest].
      rewrite Hid. cbn. lia.
Qed.

Lemma create_remaining_Forall (P : Order -> Prop) (rest : list Subject)
    (d : Db) :
  (forall s k, P (fst (Initiate.create_order clk pid s (ticket_price s)
                         method k))) ->
  Forall P (orders d) ->
  Forall P (orders (Initiate.create_remaining clk pid method rest d)).
Proof.
  intros Hnew. revert d. induction rest as [| s rest IH]; intros d Hall;
    [exact Hall |].
  rewrite create_remaining_cons. apply IH. cbn. constructor; [| exact Hall].
  apply (Hnew s d).
Qed.

End RestOrders.

(** The Payme initiation view on a non-empty valid selection for which
    the pay-link can be built: the first order created takes the sum of
    the selected ticket prices, the pay-link is built from that order's
    id and the sum in tiyin, and the order created for each further
    subject takes that subject's price. *)
Lemma payme_post_first_order_total
    (cfg : Settings) (clk : Clock) (d : Db) (request : Initiate.Request)
    (pid : N) (p : Participant) (first : Subject) (rest : list Subject) :
  Initiate.session_participant_id request = Some pid ->
  participants d !! pid = Some p ->
  is_paid p = false ->
  Initiate.subject_ids request <> [] ->
  List.filter (Initiate.selected d (Initiate.subject_ids request))
    (subjects d) = first :: rest ->
  is_Some (Initiate.generate_pay_link cfg (next_order_id d)
             (Dec.to_int (Dec.mul (Initiate.sum_prices (first :: rest))
                            (Dec.of_int 100)))
             (Some (Initiate.ticket_uri request))) ->
  let total := Initiate.sum_prices (first :: rest) in
  let n := next_order_id d in
  exists (pay_url : Initiate.Url) (d' : Db),
    Initiate.payme_post cfg clk d request
    = (Some (Initiate.Started n total pay_url), d')
    /\ Initiate.generate_pay_link cfg n
         (Dec.to_int (Dec.mul total (Dec.of_int 100)))
         (Some (Initiate.ticket_uri request)) = Some pay_url
    /\ (exists o, order_by_id d' n = Some o
                  /\ total_amount o = total
                  /\ subject_id o = Some (subj_id first)
                  /\ status o = pending)
    /\ (forall i s, nth_error rest i = Some s ->
          exists o, In o (orders d')
                    /\ id o = n + 1 + Z.of_nat i
                    /\ total_amount o = ticket_price s
                    /\ subject_id o = Some (subj_id s)).
Proof.
  intros Hsess Hp Hunpaid Hids Hsel Hcfg total n.
  unfold Initiate.payme_post. rewrite Hsess, Hp, Hunpaid.
  destruct (Initiate.subject_ids request) as [| i0 ids] eqn:Hreq;
    [contradiction |].
  rewrite Hsel. fold total.
  set (d1 := Initiate.supersede_pending pid d).
  pose proof (create_order_fields clk pid first total payme d1)
    as (Ho & Hnext & Hid1 & Htot & Hsub & Hst & _).
  destruct (Initiate.create_order clk pid first total payme d1)
    as [o1 d2]. cbn [fst snd] in *.
  change (next_order_id d1) with n in Hnext, Hid1. rewrite Hid1.
  destruct (Initiate.generate_pay_link cfg n _ _) as [url |] eqn:Hurl.
  2: { destruct Hcfg as [u Hu]. fold total n in Hu. congruence. }
  eexists url, _. split; [reflexivity |]. split; [reflexivity |]. split.
  - exists o1. split; [| repeat split; assumption].
    rewrite (create_remaining_older_lookup clk pid payme rest d2 n) by lia.
    unfold order_by_id. rewrite Ho. cbn. rewrite Hid1, Z.eqb_refl.
    reflexivity.
  - intros i s Hnth.
    destruct (create_remaining_own_price clk pid payme rest d2 i s Hnth)
      as (o & Hin & Hid & Hrest).
    exists o. split; [exact Hin |]. split; [| exact Hrest].
    rewrite Hid. lia.
Qed.

(** The loop of the Click view writes the same rows as the loop of the
    Payme view does for its further subjects, and remembers the order
    created for the first subject. *)
Lemma click_create_orders_spec
    (clk : Clock) (pid : N) (l : list Subject) (first_order : option Order)
    (d : Db) :
  Initiate.click_create_orders clk pid l first_order d
  = (match first_order, l with
     | Some o, _ => Some o
     | None, s :: _ =>
         Some (fst (Initiate.create_order clk pid s (ticket_price s)
                      click d))
     | None, [] => None
     end,
     Initiate.create_remaining clk pid click l d).
Proof.
  revert first_order d. induction l as [| s l IH]; intros first_order d.
  - destruct first_order; reflexivity.
  - cbn [Initiate.click_create_orders]. cbn [Initiate.create_order].
    rewrite IH. destruct first_order; reflexivity.
Qed.

(** The Click initiation view on a non-empty valid selection for which
    the pay-link can be built: the pay-link is built from the id of the
    first order and the whole sum, but the first order is stored with
    the price of its own subject. *)
Lemma click_post_first_order_own_price
    (cfg : Settings) (clk : Clock) (d : Db) (request : Initiate.Request)
    (pid : N) (p : Participant) (first : Subject) (rest : list Subject) :
  Initiate.session_participant_id request = Some pid ->
  participants d !! pid = Some p ->
  is_paid p = false ->
  Initiate.subject_ids request <> [] ->
  List.filter (Initiate.selected d (Initiate.subject_ids request))
    (subjects d) = first :: rest ->
  is_Some (Initiate.generate_click_pay_link cfg (next_order_id d)
             (Dec.to_int (Initiate.sum_prices (first :: rest)))
             (Some (Initiate.ticket_uri request))) ->
  let total := Initiate.sum_prices (first :: rest) in
  let n := next_order_id d in
  exists (pay_url : Initiate.Url) (d' : Db),
    Initiate.click_post cfg clk d request
    = (Some (Initiate.Started n total pay_url), d')
    /\ Initiate.generate_click_pay_link cfg n (Dec.to_int total)
         (Some (Initiate.ticket_uri request)) = Some pay_url
    /\ exists o, order_by_id d' n = Some o
                 /\ total_amount o = ticket_price first
                 /\ subject_id o = Some (subj_id first).
Proof.
  intros Hsess Hp Hunpaid Hids Hsel Hcfg total n.
  unfold Initiate.click_post. rewrite Hsess, Hp, Hunpaid.
  destruct (Initiate.subject_ids request) as [| i0 ids] eqn:Hreq;
    [contradiction |].
  rewrite Hsel. fold total. rewrite click_create_orders_spec.
  set (d1 := Initiate.supersede_pending pid d).
  rewrite create_remaining_cons.
  pose proof (create_order_fields clk pid first (ticket_price first) click d1)
    as (Ho & Hnext & Hid1 & Htot & Hsub & _).
  destruct (Initiate.create_order clk pid first (ticket_price first) click d1)
    as [o1 d2]. cbn [fst snd] in *.
  change (next_order_id d1) with n in Hnext, Hid1. rewrite Hid1.
  destruct (Initiate.generate_click_pay_link cfg n _ _) as [url |] eqn:Hurl.
  2: { destruct Hcfg as [u Hu]. fold total n in Hu. congruence. }
  eexists url, _. split; [reflexivity |]. split; [reflexivity |].
  exists o1. split; [| split; assumption].
  rewrite (create_remaining_older_lookup clk pid click rest d2 n) by lia.
  unfold order_by_id. rewrite Ho. cbn. rewrite Hid1, Z.eqb_refl.
  reflexivity.
Qed.

(** C1 on the Click endpoint, for a buyer selecting two subjects priced
    50000.00 and 30000.00: the pay-link carries order 8 and the amount
    80000, but order 8, the first one created, is stored with
    [total_amount = 50000.00], the price of its own subject.  The Payme
    endpoint stores 80000.00 on the first order for the same request. *)
Theorem click_first_order_lacks_total :
  let r := Initiate.click_post Fixtures.cfg0 Fixtures.clk0
             Fixtures.db_catalogue Fixtures.both_subjects in
  let r' := Initiate.payme_post Fixtures.cfg0 Fixtures.clk0
              Fixtures.db_catalogue Fixtures.both_subjects in
  fst r = Some (Initiate.Started 8 (mkDecimal 8000000 (-2))
                  (Initiate.ClickPay
                     "?service_id=12345&merchant_id=678&amount=80000&transaction_param=8"
                     (Some "https://bond.example/ticket/"%string)))
  /\ (total_amount <$> order_by_id (snd r) 8)
     = Some (mkDecimal 5000000 (-2))
  /\ (total_amount <$> order_by_id (snd r) 9)
     = Some (mkDecimal 3000000 (-2))
  /\ (total_amount <$> order_by_id (snd r') 8)
     = Some (mkDecimal 8000000 (-2))
  /\ (total_amount <$> order_by_id (snd r') 9)
     = Some (mkDecimal 3000000 (-2)).
Proof. repeat split; vm_compute; reflexivity. Qed.

(** The initiation views keep every row consistent as well: superseding
    touches [status] only and a new row has no [perform_time]. *)
Lemma supersede_keeps_perform_time_consistent (pid : N) (d : Db) :
  Forall perform_time_consistent (orders d) ->
  Forall perform_time_consistent (orders (Initiate.supersede_pending pid d)).
Proof.
  intros Hall. unfold Initiate.supersede_pending. cbn [orders with_orders].
  induction Hall as [| o l Ho _ IH]; cbn; [constructor |].
  constructor; [| exact IH]. destruct (_ && _); exact Ho.
Qed.

Lemma new_order_perform_time_consistent
    (clk : Clock) (pid : N) (s : Subject) (amount : Decimal)
    (method : PaymentMethod) (d : Db) :
  perform_time_consistent
    (fst (Initiate.create_order clk pid s amount method d)).
Proof. intros Hpos. cbn in Hpos. lia. Qed.

Lemma click_create_orders_Forall
    (P : Order -> Prop) (clk : Clock) (pid : N) (l : list Subject)
    (first_order : option Order) (d : Db) :
  (forall s k, P (fst (Initiate.create_order clk pid s (ticket_price s)
                         click k))) ->
  Forall P (orders d) ->
  Forall P (orders (snd (Initiate.click_create_orders clk pid l
                           first_order d))).
Proof.
  intros Hnew. revert first_order d.
  induction l as [| s l IH]; intros first_order d Hall; [exact Hall |].
  cbn. apply IH. cbn. constructor; [apply (Hnew s d) | exact Hall].
Qed.

Lemma payme_post_keeps_perform_time_consistent
    (cfg : Settings) (clk : Clock) (d : Db) (request : Initiate.Request) :
  Forall perform_time_consistent (orders d) ->
  Forall perform_time_consistent
    (orders (snd (Initiate.payme_post cfg clk d request))).
Proof.
  intros Hall. unfold Initiate.payme_post.
  destruct (Initiate.session_participant_id request) as [pid |];
    [| exact Hall].
  destruct (participants d !! pid) as [p |]; [| exact Hall].
  destruct (is_paid p); [exact Hall |].
  destruct (Initiate.subject_ids request) as [| i0 ids]; [exact Hall |].
  destruct (List.filter _ _) as [| first rest]; [exact Hall |].
  cbn [Initiate.create_order].
  assert (Hnew : Forall perform_time_consistent
                   (orders
                      (Initiate.create_remaining clk pid payme rest
                         (snd (Initiate.create_order clk pid first
                                 (Initiate.sum_prices (first :: rest)) payme
                                 (Initiate.supersede_pending pid d)))))).
  { apply create_remaining_Forall.
    - intros s k. apply new_order_perform_time_consistent.
    - cbn. constructor.
      + apply (new_order_perform_time_consistent clk pid first
                 (Initiate.sum_prices (first :: rest)) payme
                 (Initiate.supersede_pending pid d)).
      + apply supersede_keeps_perform_time_consistent, Hall. }
  destruct (Initiate.generate_pay_link _ _ _ _); exact Hnew.
Qed.

Lemma click_post_keeps_perform_time_consistent
    (cfg : Settings) (clk : Clock) (d : Db) (request : Initiate.Request) :
  Forall perform_time_consistent (orders d) ->
  Forall perform_time_consistent
    (orders (snd (Initiate.click_post cfg clk d request))).
Proof.
  intros Hall. unfold Initiate.click_post.
  destruct (Initiate.session_participant_id request) as [pid |];
    [| exact Hall].
  destruct (participants d !! pid) as [p |]; [| exact Hall].
  destruct (is_paid p); [exact Hall |].
  destruct (Initiate.subject_ids request) as [| i0 ids]; [exact Hall |].
  destruct (List.filter _ _) as [| first rest] eqn:Hsel; [exact Hall |].
  pose proof (click_create_orders_Forall perform_time_consistent clk pid
                (first :: rest) None (Initiate.supersede_pending pid d)
                (fun s k => new_order_perform_time_consistent clk pid s
                              (ticket_price s) click k)
                (supersede_keeps_perform_time_consistent pid d Hall))
    as Hnew.
  destruct (Initiate.click_create_orders _ _ _ _ _) as [[o1 |] d'];
    cbn [snd] in Hnew |- *; [| exact Hnew].
  destruct (Initiate.generate_click_pay_link _ _ _ _); exact Hnew.
Qed.

(** ** A complete exchange, run through the endpoint

    Create, perform, cancel (refund), cancel again and check, on the
    fixture order of 50000.00, with a key configured and a header that
    decodes to the expected credentials. *)
Lemma payme_exchange :
  let decode := fun _ : string => Some "Paycom:secret"%string in
  let ask d method params :=
    Payme.post decode Fixtures.cfg0 Fixtures.clk0 d
      (Payme.mkHttpRequest "Basic UGF5Y29tOnNlY3JldA=="
         (Payme.Envelope (PInt 1) (PStr method) params)) in
  let p := Fixtures.params_for 7 5000000 "tx-1" (PInt 1694000000000) in
  let r1 := ask Fixtures.db0 "CreateTransaction"%string p in
  let r2 := ask (snd r1) "PerformTransaction"%string p in
  let r3 := ask (snd r2) "CancelTransaction"%string p in
  let r4 := ask (snd r3) "CancelTransaction"%string p in
  let r5 := ask (snd r4) "CheckTransaction"%string p in
  fst r1 = Payme.Success (PInt 1) (Payme.Created 1694000000000 "tx-1" 1)
  /\ fst r2 = Payme.Success (PInt 1) (Payme.Performed 1700000000000 "tx-1" 2)
  /\ participants (snd r2) !! 1%N
     = Some (mkParticipant true (Some 1700000000002))
  /\ fst r3 = Payme.Success (PInt 1) (Payme.Cancelled 1700000000000 "tx-1" (-2))
  /\ participants (snd r3) !! 1%N = Some (mkParticipant false None)
  /\ r4 = (fst r3, snd r3)
  /\ fst r5 = Payme.Success (PInt 1)
                (Payme.Checked 1694000000000 1700000000000 1700000000000
                   "tx-1" (-2) (Some 5))
  /\ snd r5 = snd r4.
Proof. vm_compute. repeat split. Qed.

(** A pending, never performed transaction is cancelled into state -1
    with [perform_time = 0] and reason 3, and the buyer is not touched. *)
Lemma payme_cancel_before_perform :
  let r := Payme._cancel_transaction Fixtures.clk0 Fixtures.db_bound (PInt 1)
             (Fixtures.params_for 7 5000000 "tx-1" PNone) in
  fst r = Payme.Return
            (Payme.Success (PInt 1)
               (Payme.Cancelled 1700000000000 "tx-1" (-1)))
  /\ (payme_perform_time <$> order_by_id (snd r) 7) = Some (Some 0)
  /\ (payme_cancel_reason <$> order_by_id (snd r) 7) = Some (Some 3)
  /\ participants (snd r) = participants Fixtures.db_bound.
Proof. vm_compute. repeat split. Qed.

(** ** Values a column does not hold

    A [time] of 2^63 in CreateTransaction, a [reason] of 2^63 in
    CancelTransaction and a [click_trans_id] of 2^63 in Prepare make
    [order.save] raise: the Payme endpoint answers with the internal
    fault -32400, the Click view lets the exception out, and nothing is
    written.  A [reason] of 2^31 is stored by SQLite and refused by
    PostgreSQL. *)
Lemma out_of_range_examples :
  let ask d method params :=
    Payme.post Fixtures.decode0 Fixtures.cfg0 Fixtures.clk0 d
      (Fixtures.signed method params) in
  let with_reason reason :=
    Payme.mkParams Payme.AccountFalsy PNone (PStr "tx-1") PNone
      (PInt reason) PNone PNone in
  let on_postgresql d :=
    mkDb (orders d) (participants d) (subjects d) (olympiads d)
      (next_order_id d) postgresql in
  ask Fixtures.db0 "CreateTransaction"%string
    (Fixtures.params_for 7 5000000 "tx-1" (PInt 9223372036854775808))
  = (Payme.Error (PInt 1) (-32400) "Internal server error" None,
     Fixtures.db0)
  /\ ask Fixtures.db_bound "CancelTransaction"%string
       (with_reason 9223372036854775808)
     = (Payme.Error (PInt 1) (-32400) "Internal server error" None,
        Fixtures.db_bound)
  /\ Click._handle_prepare Fixtures.db0 Fixtures.order0
       9223372036854775808 "7" 0
     = (None, Fixtures.db0)
  /\ fst (ask Fixtures.db_bound "CancelTransaction"%string
            (with_reason 2147483648))
     = Payme.Success (PInt 1) (Payme.Cancelled 1700000000000 "tx-1" (-1))
  /\ ask (on_postgresql Fixtures.db_bound) "CancelTransaction"%string
       (with_reason 2147483648)
     = (Payme.Error (PInt 1) (-32400) "Internal server error" None,
        on_postgresql Fixtures.db_bound).
Proof. vm_compute. repeat split. Qed.


(** * Further properties of the endpoints *)

(** ** Faults of the Payme endpoint *)

Ltac split_branches :=
  repeat match goal with
         | |- context [match ?x with _ => _ end] => destruct x eqn:?
         end.

Ltac close_shape :=
  unfold outcome_shape, Payme.atomic; cbn;
  first [ reflexivity
        | split; [reflexivity | first [discriminate | reflexivity]] ].

Lemma check_perform_outcome_shape
    (clk : Clock) (d : Db) (rpc_id : pyval) (params : Payme.Params) :
  outcome_shape rpc_id d
    (Payme._check_perform_transaction clk d rpc_id params).
Proof.
  unfold Payme._check_perform_transaction.
  split_branches; close_shape.
Qed.

Lemma create_outcome_shape
    (clk : Clock) (d : Db) (rpc_id : pyval) (params : Payme.Params) :
  outcome_shape rpc_id d (Payme._create_transaction clk d rpc_id params).
Proof.
  unfold Payme._create_transaction.
  split_branches; close_shape.
Qed.

Lemma perform_outcome_shape
    (clk : Clock) (d : Db) (rpc_id : pyval) (params : Payme.Params) :
  outcome_shape rpc_id d (Payme._perform_transaction clk d rpc_id params).
Proof.
  unfold Payme._perform_transaction.
  split_branches; close_shape.
Qed.

Lemma check_outcome_shape
    (clk : Clock) (d : Db) (rpc_id : pyval) (params : Payme.Params) :
  outcome_shape rpc_id d (Payme._check_transaction clk d rpc_id params).
Proof.
  unfold Payme._check_transaction.
  destruct (negb _); [close_shape |].
  destruct (order_by_payme_transaction d _); close_shape.
Qed.

Lemma statement_outcome_shape
    (clk : Clock) (d : Db) (rpc_id : pyval) (params : Payme.Params) :
  outcome_shape rpc_id d (Payme._get_statement clk d rpc_id params).
Proof.
  unfold Payme._get_statement.
  destruct (Py.int _); [| close_shape].
  destruct (Py.int _); [| close_shape].
  destruct (_ <? _); close_shape.
Qed.

Lemma cancel_outcome_shape
    (clk : Clock) (d : Db) (rpc_id : pyval) (params : Payme.Params) :
  outcome_shape rpc_id d (Payme._cancel_transaction clk d rpc_id params).
Proof.
  unfold Payme._cancel_transaction. cbn zeta.
  unfold mbind, option_bind.
  split_branches; close_shape.
Qed.

Lemma handler_outcome_shape
    (method : pyval)
    (handler : Clock -> Db -> pyval -> Payme.Params -> Payme.Outcome * Db)
    (clk : Clock) (d : Db) (rpc_id : pyval) (params : Payme.Params) :
  Payme.handlers method = Some handler ->
  outcome_shape rpc_id d (handler clk d rpc_id params).
Proof.
  intros Hh. unfold Payme.handlers in Hh.
  destruct method as [| b | z | m]; try discriminate.
  repeat match type of Hh with
         | (if ?c then _ else _) = _ => destruct c
         end;
    try discriminate; injection Hh as <-.
  - apply check_perform_outcome_shape.
  - apply create_outcome_shape.
  - apply perform_outcome_shape.
  - apply cancel_outcome_shape.
  - apply check_outcome_shape.
  - apply statement_outcome_shape.
Qed.

(** X1.  A fault never comes with a write: whenever the Payme endpoint
    answers with an error object (a fault of its own, a fault of a
    handler, or the internal fault that stands for an exception), the
    database is the one the request found. *)
Theorem post_error_writes_nothing
    (b64decode : string -> option string) (cfg : Settings) (clk : Clock)
    (d : Db) (request : Payme.HttpRequest) :
  is_error (fst (Payme.post b64decode cfg clk d request)) = true ->
  snd (Payme.post b64decode cfg clk d request) = d.
Proof.
  unfold Payme.post.
  destruct (Payme.body request) as [| | rpc_id method params];
    [reflexivity | reflexivity |].
  destruct (negb (negb _)); [reflexivity |].
  destruct (negb _); [reflexivity |].
  destruct (Payme.handlers method) as [handler |] eqn:Hh; [| reflexivity].
  pose proof (handler_outcome_shape method handler clk d rpc_id params Hh)
    as Hshape.
  unfold outcome_shape in Hshape.
  destruct (handler clk d rpc_id params) as [[r |] d']; cbn in *.
  - intros He. apply Hshape, He.
  - intros _. exact Hshape.
Qed.

(** X2.  Every answer to a JSON-RPC envelope carries the [id] of that
    envelope, whichever handler produced it and also when a handler
    raised. *)
Theorem post_echoes_request_id
    (b64decode : string -> option string) (cfg : Settings) (clk : Clock)
    (d : Db) (request : Payme.HttpRequest)
    (rpc_id method : pyval) (params : Payme.Params) :
  Payme.body request = Payme.Envelope rpc_id method params ->
  response_id (fst (Payme.post b64decode cfg clk d request)) = rpc_id.
Proof.
  intros Hbody. unfold Payme.post. rewrite Hbody.
  destruct (negb (negb _)); [reflexivity |].
  destruct (negb _); [reflexivity |].
  destruct (Payme.handlers method) as [handler |] eqn:Hh; [| reflexivity].
  pose proof (handler_outcome_shape method handler clk d rpc_id params Hh)
    as Hshape.
  unfold outcome_shape in Hshape.
  destruct (handler clk d rpc_id params) as [[r |] d']; cbn in *.
  - apply Hshape.
  - reflexivity.
Qed.

(** ** Rows across a Payme request *)

Lemma NoDup_keys_same_row (l : list Order) (a b : Order) :
  NoDup (map id l) -> In a l -> In b l -> id a = id b -> a = b.
Proof.
  induction l as [| r l IH]; intros Hnd Ha Hb Hid; [contradiction |].
  cbn in Hnd. apply NoDup_cons in Hnd as [Hnotin Hnd].
  destruct Ha as [-> | Ha], Hb as [-> | Hb].
  - reflexivity.
  - exfalso. apply Hnotin. rewrite Hid. apply list_elem_of_In, in_map, Hb.
  - exfalso. apply Hnotin. rewrite <- Hid.
    apply list_elem_of_In, in_map, Ha.
  - apply IH; assumption.
Qed.

Lemma save_order_Forall2
    (R : Order -> Order -> Prop) (o o' : Order) (d : Db) :
  (forall r, R r r) ->
  NoDup (map id (orders d)) ->
  In o (orders d) ->
  id o' = id o ->
  R o o' ->
  Forall2 R (orders d) (orders (save_order o' d)).
Proof.
  intros Hrefl Hnd Hin Hid HR. unfold save_order. cbn [orders with_orders].
  assert (Hall : forall r, In r (orders d) ->
                   R r (if id r =? id o' then o' else r)).
  { intros r Hr. destruct (Z.eqb_spec (id r) (id o')) as [E | _];
      [| apply Hrefl].
    rewrite (NoDup_keys_same_row (orders d) r o Hnd Hr Hin) by congruence.
    exact HR. }
  clear Hnd Hin. induction (orders d) as [| r l IH]; cbn; constructor.
  - apply Hall. left. reflexivity.
  - apply IH. intros r' Hr'. apply Hall. right. exact Hr'.
Qed.

Lemma Forall2_same (R : Order -> Order -> Prop) (l : list Order) :
  (forall r, R r r) -> Forall2 R l l.
Proof. intros Hrefl. induction l; constructor; auto. Qed.

Lemma atomic_write (d : Db) (r : Payme.Outcome * Db) :
  payme_write d (snd r) -> payme_write d (snd (Payme.atomic d r)).
Proof.
  intros Hr. unfold Payme.atomic.
  destruct r as [[resp |] d']; cbn in *; [exact Hr | apply write_none].
Qed.

Lemma create_write
    (clk : Clock) (d : Db) (rpc_id : pyval) (params : Payme.Params) :
  payme_write d (snd (Payme._create_transaction clk d rpc_id params)).
Proof.
  pose proof (write_none d) as Hsame.
  unfold Payme._create_transaction.
  destruct (Payme._get_order_id params) as [[order_id |] |]; try exact Hsame.
  destruct (Payme._get_amount_tiyin params) as [amount |]; try exact Hsame.
  destruct (truthy (Payme.p_id params)) eqn:Htid; [| exact Hsame].
  cbn [negb]. apply atomic_write.
  destruct (order_by_id d order_id) as [o |] eqn:Hfind; [| exact Hsame].
  destruct (negb _); [exact Hsame |].
  destruct (bool_decide (status o = paid)) eqn:Hp; [exact Hsame |].
  destruct (bool_decide (status o = cancelled)) eqn:Hc; [exact Hsame |].
  destruct (Py.truthy_text (payme_transaction_id o)) eqn:Hb.
  - destruct (String.eqb _ _); [| exact Hsame].
    destruct (Py.int_or _ _); exact Hsame.
  - destruct (Py.int _) as [ct |]; [| exact Hsame].
    destruct (negb _); [exact Hsame |]. cbn [snd].
    apply order_by_id_Some in Hfind as [Hin _].
    apply (write_row d o); [exact Hin | reflexivity |].
    apply step_bind; [exact Hb | | |].
    + apply bool_decide_eq_false in Hp. exact Hp.
    + apply bool_decide_eq_false in Hc. exact Hc.
    + apply str_truthy_nonempty, Htid.
Qed.

Lemma perform_write
    (clk : Clock) (d : Db) (rpc_id : pyval) (params : Payme.Params) :
  payme_write d (snd (Payme._perform_transaction clk d rpc_id params)).
Proof.
  pose proof (write_none d) as Hsame.
  unfold Payme._perform_transaction.
  destruct (truthy (Payme.p_id params)) eqn:Htid; [| exact Hsame].
  cbn [negb]. apply atomic_write.
  destruct (order_by_payme_transaction d _) as [o |] eqn:Hfind;
    [| exact Hsame].
  pose proof (found_by_truthy_id_is_bound d _ o Htid Hfind) as Hbound.
  apply order_by_payme_transaction_Some in Hfind as [Hin _].
  destruct (Payme.in_cancelled (payme_state o)
            || bool_decide (status o = cancelled)) eqn:Hcanc.
  { destruct (payme_state o); exact Hsame. }
  destruct (bool_decide (payme_state o = Some 2)
            || bool_decide (status o = paid)) eqn:Hdone; [exact Hsame |].
  apply orb_false_iff in Hcanc as [Hc1 Hc2], Hdone as [Hd1 Hd2].
  apply bool_decide_eq_false in Hc2, Hd1, Hd2.
  pose proof (step_perform o (now_ms clk) (auto_now clk) Hbound Hc1 Hc2
                Hd1 Hd2) as Hstep.
  set (o' := set_updated_at _ _) in *.
  destruct (save_participant_payment _ _ _ _) as [d' |] eqn:Hsave; cbn [snd].
  - apply (write_row_buyer d o o' true (Some (tz_now clk)) d' Hin eq_refl
             Hstep Hsave).
    split; [exact Hd2 | reflexivity].
  - apply (write_row d o o' Hin eq_refl Hstep).
Qed.

Lemma cancel_write
    (clk : Clock) (d : Db) (rpc_id : pyval) (params : Payme.Params) :
  payme_write d (snd (Payme._cancel_transaction clk d rpc_id params)).
Proof.
  pose proof (write_none d) as Hsame.
  unfold Payme._cancel_transaction.
  destruct (truthy (Payme.p_id params)) eqn:Htid; [| exact Hsame].
  cbn [negb]. apply atomic_write.
  destruct (order_by_payme_transaction d _) as [o |] eqn:Hfind;
    [| exact Hsame].
  pose proof (found_by_truthy_id_is_bound d _ o Htid Hfind) as Hbound.
  apply order_by_payme_transaction_Some in Hfind as [Hin _].
  destruct (bool_decide (status o = cancelled)
            || Payme.in_cancelled (payme_state o)) eqn:Hcanc.
  - assert (Hcond : status o = cancelled
                    \/ Payme.in_cancelled (payme_state o) = true).
    { apply orb_true_iff in Hcanc as [H | H];
        [left; apply bool_decide_eq_true in H; exact H | right; exact H]. }
    destruct (negb (Py.or_int (payme_state o) 0
                    =? (if Payme.was_performed o then -2 else -1))) eqn:Hne.
    2: { destruct (payme_state o); exact Hsame. }
    apply negb_true_iff, Z.eqb_neq in Hne.
    assert (Hheal : forall r,
               payme_write d
                 (save_order
                    (set_updated_at (Some (auto_now clk))
                       ((match payme_cancel_reason o with
                         | None => set_payme_cancel_reason (Some r)
                         | Some _ => fun order => order
                         end)
                          (set_payme_state
                             (Some (if Payme.was_performed o
                                    then -2 else -1))
                             ((if negb (Py.truthy_int
                                          (payme_cancel_time o))
                               then set_payme_cancel_time
                                      (Some (now_ms clk))
                               else fun order => order) o)))) d)).
    { intros r. apply (write_row d o); [exact Hin | |].
      - destruct (payme_cancel_reason o), (negb _); reflexivity.
      - apply step_heal; assumption. }
    destruct (negb (Py.truthy_int (payme_cancel_time o))) eqn:Hct;
      (cbn [payme_cancel_reason set_payme_state set_payme_cancel_time];
       destruct (payme_cancel_reason o) as [r0 |] eqn:Hreason;
       [ exact (Hheal 0)
       | destruct (Payme.p_reason params) eqn:Hr;
         [ exact (Hheal (if Payme.was_performed o then 5 else 3))
         | (destruct (Py.int _) as [r1 |];
            [ cbn [mbind option_bind];
              destruct (integer_ok _ _); [exact (Hheal r1) | exact Hsame]
            | exact Hsame ]) .. ] ]).
  - apply orb_false_iff in Hcanc as [Hc1 Hc2].
    apply bool_decide_eq_false in Hc1.
    destruct (Py.int _) as [r |]; [| exact Hsame].
    destruct (negb _); [exact Hsame |].
    pose proof (step_cancel o (now_ms clk) (auto_now clk) r Hbound Hc1 Hc2)
      as Hstep.
    destruct (Payme.was_performed o) eqn:Hw; cbn [negb] in *.
    + set (o' := set_updated_at _ _) in *.
      destruct (save_participant_payment _ _ _ _) as [d' |] eqn:Hsave;
        cbn [snd].
      * apply (write_row_buyer d o o' false None d' Hin eq_refl Hstep
                 Hsave).
        repeat split; assumption.
      * apply (write_row d o o' Hin eq_refl Hstep).
    + set (o' := set_updated_at _ _) in *.
      apply (write_row d o o' Hin eq_refl Hstep).
Qed.

Lemma handler_write
    (method : pyval)
    (handler : Clock -> Db -> pyval -> Payme.Params -> Payme.Outcome * Db)
    (clk : Clock) (d : Db) (rpc_id : pyval) (params : Payme.Params) :
  Payme.handlers method = Some handler ->
  payme_write d (snd (handler clk d rpc_id params)).
Proof.
  intros Hh. pose proof (write_none d) as Hsame.
  unfold Payme.handlers in Hh.
  destruct method as [| b | z | m]; try discriminate.
  repeat match type of Hh with
         | (if ?c then _ else _) = _ => destruct c
         end;
    try discriminate; injection Hh as <-.
  - unfold Payme._check_perform_transaction.
    split_branches; exact Hsame.
  - apply create_write.
  - apply perform_write.
  - apply cancel_write.
  - unfold Payme._check_transaction.
    destruct (negb _); [exact Hsame |].
    destruct (order_by_payme_transaction d _); exact Hsame.
  - unfold Payme._get_statement.
    destruct (Py.int _); [| exact Hsame].
    destruct (Py.int _); [| exact Hsame].
    destruct (_ <? _); exact Hsame.
Qed.

(** Whatever the request, the Payme endpoint leaves the database it
    found, or that database after one write of [payme_write]. *)
Lemma post_write
    (b64decode : string -> option string) (cfg : Settings) (clk : Clock)
    (d : Db) (request : Payme.HttpRequest) :
  payme_write d (snd (Payme.post b64decode cfg clk d request)).
Proof.
  pose proof (write_none d) as Hsame.
  unfold Payme.post.
  destruct (Payme.body request) as [| | rpc_id method params];
    try exact Hsame.
  destruct (negb (negb _)); [exact Hsame |].
  destruct (negb _); [exact Hsame |].
  destruct (Payme.handlers method) as [handler |] eqn:Hh; [| exact Hsame].
  pose proof (handler_write method handler clk d rpc_id params Hh)
    as Hstep.
  destruct (handler clk d rpc_id params) as [[resp |] d']; exact Hstep.
Qed.

Lemma payme_write_rows (d d' : Db) :
  NoDup (map id (orders d)) ->
  payme_write d d' ->
  Forall2 payme_step (orders d) (orders d').
Proof.
  intros Hnd Hw. destruct Hw as [| o o' Hin Hid Hstep
                                 | o o' flag at_ d' Hin Hid Hstep Hsave _].
  - apply Forall2_same, step_none.
  - apply (save_order_Forall2 payme_step o); auto using step_none.
  - rewrite (save_participant_payment_orders _ _ _ _ _ Hsave).
    apply (save_order_Forall2 payme_step o); auto using step_none.
Qed.

Lemma save_order_keys (o' : Order) (d : Db) :
  map id (orders (save_order o' d)) = map id (orders d).
Proof.
  unfold save_order. cbn [orders with_orders].
  induction (orders d) as [| r l IH]; cbn; [reflexivity |].
  rewrite IH. destruct (Z.eqb_spec (id r) (id o')); congruence.
Qed.

Lemma save_participant_payment_static
    (pid : N) (flag : bool) (at_ : option Z) (d d' : Db) :
  save_participant_payment pid flag at_ d = Some d' ->
  d' = with_participants
         (<[pid := mkParticipant flag at_]> (participants d)) d
  /\ is_Some (participants d !! pid).
Proof.
  unfold save_participant_payment.
  destruct (participants d !! pid) as [p |]; [| discriminate].
  intros [= <-]. split; [reflexivity | eexists; reflexivity].
Qed.

Lemma payme_step_static (o o' : Order) :
  payme_step o o' ->
  id o' = id o
  /\ participant_id o' = participant_id o
  /\ olympiad_id o' = olympiad_id o
  /\ subject_id o' = subject_id o
  /\ total_amount o' = total_amount o
  /\ payment_method o' = payment_method o
  /\ created_at o' = created_at o
  /\ click_trans_id o' = click_trans_id o
  /\ click_prepare_id o' = click_prepare_id o.
Proof.
  intros [| tid ct _ _ _ _ | now au _ _ _ _ _ | now au r _ _ _
          | now au r _ _ _];
    try (repeat split; reflexivity).
  - destruct (negb _); repeat split; reflexivity.
  - destruct (payme_cancel_reason o), (negb _); repeat split; reflexivity.
Qed.

(** X3.  A Payme request never creates or deletes an order and never
    touches the catalogue or the key sequence; with unique primary keys,
    every row keeps its key, buyer, olympiad, subject, amount, payment
    method, creation time and Click columns. *)
Theorem post_keeps_keys_and_amounts
    (b64decode : string -> option string) (cfg : Settings) (clk : Clock)
    (d : Db) (request : Payme.HttpRequest) :
  NoDup (map id (orders d)) ->
  let d' := snd (Payme.post b64decode cfg clk d request) in
  subjects d' = subjects d
  /\ olympiads d' = olympiads d
  /\ next_order_id d' = next_order_id d
  /\ Forall2
       (fun o o' =>
          id o' = id o
          /\ participant_id o' = participant_id o
          /\ olympiad_id o' = olympiad_id o
          /\ subject_id o' = subject_id o
          /\ total_amount o' = total_amount o
          /\ payment_method o' = payment_method o
          /\ created_at o' = created_at o
          /\ click_trans_id o' = click_trans_id o
          /\ click_prepare_id o' = click_prepare_id o)
       (orders d) (orders d').
Proof.
  intros Hnd d'. subst d'.
  pose proof (post_write b64decode cfg clk d request) as Hw.
  assert (Hstatic : subjects (snd (Payme.post b64decode cfg clk d request))
                    = subjects d
                    /\ olympiads (snd (Payme.post b64decode cfg clk d request))
                       = olympiads d
                    /\ next_order_id
                         (snd (Payme.post b64decode cfg clk d request))
                       = next_order_id d).
  { destruct Hw as [| o o' _ _ _ | o o' flag at_ d' _ _ _ Hsave _].
    - repeat split.
    - repeat split.
    - apply save_participant_payment_static in Hsave as [-> _].
      repeat split. }
  destruct Hstatic as (Hs & Ho & Hn).
  split; [exact Hs |]. split; [exact Ho |]. split; [exact Hn |].
  eapply Forall2_impl; [apply payme_write_rows; [exact Hnd | exact Hw] |].
  intros o o' Hstep. apply payme_step_static, Hstep.
Qed.

(** X4.  With unique primary keys, a row that is bound to a Payme
    transaction keeps that transaction id and its [create_time] through
    every Payme request. *)
Theorem post_keeps_bound_transaction
    (b64decode : string -> option string) (cfg : Settings) (clk : Clock)
    (d : Db) (request : Payme.HttpRequest) :
  NoDup (map id (orders d)) ->
  Forall2
    (fun o o' =>
       Py.truthy_text (payme_transaction_id o) = true ->
       payme_transaction_id o' = payme_transaction_id o
       /\ payme_create_time o' = payme_create_time o)
    (orders d) (orders (snd (Payme.post b64decode cfg clk d request))).
Proof.
  intros Hnd.
  eapply Forall2_impl;
    [apply payme_write_rows;
     [exact Hnd | apply (post_write b64decode cfg clk d request)] |].
  intros o o' Hstep Hb.
  destruct Hstep as [| tid ct Hun _ _ _ | now au _ _ _ _ _ | now au r _ _ _
                     | now au r _ _ _].
  - split; reflexivity.
  - congruence.
  - split; reflexivity.
  - destruct (negb _); split; reflexivity.
  - destruct (payme_cancel_reason o), (negb _); split; reflexivity.
Qed.

(** X5.  With unique primary keys, the status of a row moves only one
    way under Payme requests: a cancelled order stays cancelled, a paid
    order stays paid or becomes cancelled, and an order becomes paid
    only together with state 2 and a recorded [perform_time]. *)
Theorem post_status_moves_one_way
    (b64decode : string -> option string) (cfg : Settings) (clk : Clock)
    (d : Db) (request : Payme.HttpRequest) :
  NoDup (map id (orders d)) ->
  Forall2
    (fun o o' =>
       (status o = cancelled -> status o' = cancelled)
       /\ (status o = paid -> status o' = paid \/ status o' = cancelled)
       /\ (status o <> paid -> status o' = paid ->
           payme_state o' = Some 2
           /\ exists t, payme_perform_time o' = Some t))
    (orders d) (orders (snd (Payme.post b64decode cfg clk d request))).
Proof.
  intros Hnd.
  eapply Forall2_impl;
    [apply payme_write_rows;
     [exact Hnd | apply (post_write b64decode cfg clk d request)] |].
  intros o o' Hstep.
  destruct Hstep as [| tid ct _ Hp Hc _ | now au _ _ Hc _ Hp
                     | now au r _ Hc _ | now au r _ Hcond _].
  - split; [tauto |]. split; [tauto |]. intros Hn Hp. contradiction.
  - cbn. split; [tauto |]. split; [tauto |]. intros Hn Hp'. contradiction.
  - cbn. split; [contradiction |]. split; [contradiction |].
    intros _ _. split; [reflexivity | eexists; reflexivity].
  - assert (Hs : status
                   (set_updated_at (Some au)
                      ((if negb (Payme.was_performed o)
                        then set_payme_perform_time (Some 0)
                        else fun order => order)
                         (set_payme_cancel_reason (Some r)
                            (set_payme_cancel_time (Some now)
                               (set_payme_state
                                  (Some (if Payme.was_performed o
                                         then -2 else -1))
                                  (set_status cancelled o))))))
                 = cancelled)
      by (destruct (negb _); reflexivity).
    rewrite Hs. split; [reflexivity |]. split; [right; reflexivity |].
    discriminate.
  - assert (Hs : status
                   (set_updated_at (Some au)
                      ((match payme_cancel_reason o with
                        | None => set_payme_cancel_reason (Some r)
                        | Some _ => fun order => order
                        end)
                         (set_payme_state
                            (Some (if Payme.was_performed o then -2 else -1))
                            ((if negb (Py.truthy_int (payme_cancel_time o))
                              then set_payme_cancel_time (Some now)
                              else fun order => order) o))))
                 = status o)
      by (destruct (payme_cancel_reason o), (negb _); reflexivity).
    rewrite Hs. split; [tauto |]. split; [tauto |].
    intros Hn Hp. contradiction.
Qed.

Lemma save_order_In (o o' : Order) (d : Db) :
  In o (orders d) -> id o' = id o -> In o' (orders (save_order o' d)).
Proof.
  intros Hin Hid. unfold save_order. cbn [orders with_orders].
  apply in_map_iff. exists o. split; [| exact Hin].
  rewrite Hid, Z.eqb_refl. reflexivity.
Qed.

(** X6.  The buyer's [is_paid]/[paid_at] are written by a Payme request
    only together with one of the buyer's own orders: the flag is set
    only by a request that moves that order to [paid], and cleared (with
    [paid_at]) only by a request that cancels that order after it was
    performed.  No other buyer is written. *)
Theorem post_buyer_follows_order
    (b64decode : string -> option string) (cfg : Settings) (clk : Clock)
    (d : Db) (request : Payme.HttpRequest) :
  let d' := snd (Payme.post b64decode cfg clk d request) in
  participants d' = participants d
  \/ exists (o o' : Order) (flag : bool) (at_ : option Z),
       In o (orders d)
       /\ In o' (orders d')
       /\ id o' = id o
       /\ is_Some (participants d !! participant_id o)
       /\ participants d'
          = <[participant_id o := mkParticipant flag at_]> (participants d)
       /\ (if flag
           then status o <> paid /\ status o' = paid
           else at_ = None /\ Payme.was_performed o = true
                /\ status o <> cancelled /\ status o' = cancelled).
Proof.
  intros d'. subst d'.
  destruct (post_write b64decode cfg clk d request)
    as [| o o' _ _ _ | o o' flag at_ d' Hin Hid _ Hsave Hflag].
  - left. reflexivity.
  - left. reflexivity.
  - right. exists o, o', flag, at_.
    apply save_participant_payment_static in Hsave as [-> Hsome].
    split; [exact Hin |].
    split; [exact (save_order_In o o' d Hin Hid) |].
    split; [exact Hid |]. split; [exact Hsome |].
    split; [reflexivity | exact Hflag].
Qed.

(** ** PerformTransaction *)

(** X7.  PerformTransaction on a found transaction that is neither
    cancelled nor performed, whose buyer row exists, answers with
    [perform_time = now] and state 2, and writes in one step: the order
    becomes [paid] with state 2 and that [perform_time], and the buyer
    becomes paid at the current time, which is what the status view
    then reports for that buyer. *)
Theorem perform_commits
    (clk : Clock) (d : Db) (rpc_id : pyval) (params : Payme.Params)
    (o : Order) :
  truthy (Payme.p_id params) = true ->
  order_by_payme_transaction d (Py.str (Payme.p_id params)) = Some o ->
  Payme.in_cancelled (payme_state o) = false ->
  status o <> cancelled ->
  payme_state o <> Some 2 ->
  status o <> paid ->
  is_Some (participants d !! participant_id o) ->
  exists (o' : Order) (d' : Db),
    Payme._perform_transaction clk d rpc_id params
    = (Payme.Return
         (Payme.Success rpc_id
            (Payme.Performed (now_ms clk) (Py.str (Payme.p_id params)) 2)),
       d')
    /\ order_by_payme_transaction d' (Py.str (Payme.p_id params)) = Some o'
    /\ orders d' = orders (save_order o' d)
    /\ id o' = id o
    /\ status o' = paid
    /\ payme_state o' = Some 2
    /\ payme_perform_time o' = Some (now_ms clk)
    /\ total_amount o' = total_amount o
    /\ participants d'
       = <[participant_id o := mkParticipant true (Some (tz_now clk))]>
           (participants d)
    /\ Status.get d' (Some (participant_id o))
       = Status.Report true (Some (tz_now clk)).
Proof.
  intros Htid Hfind Hc1 Hc2 Hd1 Hd2 [p Hp].
  pose proof (order_by_payme_transaction_Some _ _ _ Hfind) as [_ Hbound].
  unfold Payme._perform_transaction. rewrite Htid, Hfind. cbn [negb].
  rewrite Hc1, !bool_decide_eq_false_2 by assumption. cbn [orb].
  set (o' := set_updated_at _ _).
  unfold save_participant_payment.
  cbn [participants with_participants save_order with_orders
       participant_id o' set_updated_at set_payme_perform_time
       set_payme_state set_status].
  rewrite Hp. unfold Payme.atomic. cbn [fst snd].
  eexists o', _. split; [reflexivity |].
  split.
  { apply (order_by_payme_transaction_save d _ o o' Hfind);
      [reflexivity | exact Hbound]. }
  repeat (split; [reflexivity |]).
  unfold Status.get. cbn [participants with_participants].
  rewrite lookup_insert_eq. reflexivity.
Qed.

(** X8.  PerformTransaction is idempotent: after it has committed, the
    same request repeated at any later time gets the [perform_time] and
    state of the first answer and writes nothing. *)
Theorem perform_twice
    (clk1 clk2 : Clock) (d : Db) (rpc1 rpc2 : pyval)
    (params : Payme.Params) (o : Order) :
  truthy (Payme.p_id params) = true ->
  order_by_payme_transaction d (Py.str (Payme.p_id params)) = Some o ->
  Payme.in_cancelled (payme_state o) = false ->
  status o <> cancelled ->
  payme_state o <> Some 2 ->
  status o <> paid ->
  is_Some (participants d !! participant_id o) ->
  let r1 := Payme._perform_transaction clk1 d rpc1 params in
  let r2 := Payme._perform_transaction clk2 (snd r1) rpc2 params in
  fst r1 = Payme.Return
             (Payme.Success rpc1
                (Payme.Performed (now_ms clk1)
                   (Py.str (Payme.p_id params)) 2))
  /\ fst r2 = Payme.Return
                (Payme.Success rpc2
                   (Payme.Performed (now_ms clk1)
                      (Py.str (Payme.p_id params)) 2))
  /\ snd r2 = snd r1.
Proof.
  intros Htid Hfind Hc1 Hc2 Hd1 Hd2 [p Hp] r1 r2.
  pose proof (order_by_payme_transaction_Some _ _ _ Hfind) as [_ Hbound].
  assert (Hr1 : exists o' d',
             r1 = (Payme.Return
                     (Payme.Success rpc1
                        (Payme.Performed (now_ms clk1)
                           (Py.str (Payme.p_id params)) 2)), d')
             /\ order_by_payme_transaction d' (Py.str (Payme.p_id params))
                = Some o'
             /\ status o' = paid
             /\ payme_state o' = Some 2
             /\ payme_perform_time o' = Some (now_ms clk1)).
  { subst r1. unfold Payme._perform_transaction.
    rewrite Htid, Hfind. cbn [negb].
    rewrite Hc1, !bool_decide_eq_false_2 by assumption. cbn [orb].
    set (o' := set_updated_at _ _).
    unfold save_participant_payment.
    cbn [participants with_participants save_order with_orders
         participant_id o' set_updated_at set_payme_perform_time
         set_payme_state set_status].
    rewrite Hp. unfold Payme.atomic. cbn [fst snd].
    eexists o', _. split; [reflexivity |]. split.
    { apply (order_by_payme_transaction_save d _ o o' Hfind);
        [reflexivity | exact Hbound]. }
    repeat split. }
  destruct Hr1 as (o' & d' & Hr1 & Hfind' & Hs & Hst & Hpt).
  subst r2. rewrite Hr1. cbn [fst snd]. split; [reflexivity |].
  unfold Payme._perform_transaction. rewrite Htid, Hfind'. cbn [negb].
  rewrite Hst, Hs. cbn.
  rewrite Hpt. cbn. destruct (Z.eqb_spec (now_ms clk1) 0) as [-> | _];
    split; reflexivity.
Qed.

(** ** CancelTransaction: replay and repair *)

(** X9.  CancelTransaction is idempotent on a transaction whose
    performance, if any, was recorded with a positive [perform_time]:
    after a first cancellation whose reason is omitted or an integer the
    [IntegerField] of the database holds, a repeated cancellation (at
    any later time, with any reason) gets the [cancel_time] and state of
    the first answer and writes nothing. *)
Theorem cancel_twice
    (clk1 clk2 : Clock) (d : Db) (rpc1 rpc2 : pyval)
    (params1 params2 : Payme.Params) (o : Order) (r : Z) :
  truthy (Payme.p_id params1) = true ->
  truthy (Payme.p_id params2) = true ->
  Py.str (Payme.p_id params2) = Py.str (Payme.p_id params1) ->
  order_by_payme_transaction d (Py.str (Payme.p_id params1)) = Some o ->
  status o <> cancelled ->
  Payme.in_cancelled (payme_state o) = false ->
  Py.int (match Payme.p_reason params1 with
          | PNone => PInt (if Payme.was_performed o then 5 else 3)
          | _ => Payme.p_reason params1
          end) = Some r ->
  (Payme.p_reason params1 <> PNone -> integer_ok (backend d) r = true) ->
  is_Some (participants d !! participant_id o) ->
  (Payme.was_performed o = true ->
   0 < Py.or_int (payme_perform_time o) 0) ->
  let r1 := Payme._cancel_transaction clk1 d rpc1 params1 in
  let r2 := Payme._cancel_transaction clk2 (snd r1) rpc2 params2 in
  let state := if Payme.was_performed o then -2 else -1 in
  fst r1 = Payme.Return
             (Payme.Success rpc1
                (Payme.Cancelled (now_ms clk1)
                   (Py.str (Payme.p_id params1)) state))
  /\ fst r2 = Payme.Return
                (Payme.Success rpc2
                   (Payme.Cancelled (now_ms clk1)
                      (Py.str (Payme.p_id params1)) state))
  /\ snd r2 = snd r1.
Proof.
  intros Htid1 Htid2 Hsame Hfind Hst Hnc Hr Hfit [p Hp] Hrec r1 r2 state.
  pose proof (order_by_payme_transaction_Some _ _ _ Hfind) as [_ Hbound].
  assert (Hok : match Payme.p_reason params1 with
                | PNone => true
                | _ => integer_ok (backend d) r
                end = true).
  { destruct (Payme.p_reason params1); try reflexivity;
      apply Hfit; discriminate. }
  assert (Hr1 : exists o' d',
             r1 = (Payme.Return
                     (Payme.Success rpc1
                        (Payme.Cancelled (now_ms clk1)
                           (Py.str (Payme.p_id params1)) state)), d')
             /\ order_by_payme_transaction d' (Py.str (Payme.p_id params1))
                = Some o'
             /\ status o' = cancelled
             /\ payme_state o' = Some state
             /\ payme_cancel_time o' = Some (now_ms clk1)
             /\ payme_perform_time o'
                = (if Payme.was_performed o then payme_perform_time o
                   else Some 0)).
  { subst r1 state. unfold Payme._cancel_transaction.
    rewrite Htid1, Hfind. cbn [negb].
    rewrite Hnc, bool_decide_eq_false_2 by exact Hst. cbn [orb].
    rewrite Hr, Hok. cbn [negb].
    destruct (Payme.was_performed o) eqn:Hwas; cbn [negb].
    - set (o' := set_updated_at _ _).
      unfold save_participant_payment.
      cbn [participants with_participants save_order with_orders
           participant_id o' set_updated_at set_payme_cancel_reason
           set_payme_cancel_time set_payme_state set_status].
      rewrite Hp. unfold Payme.atomic. cbn [fst snd].
      eexists o', _. split; [reflexivity |]. split.
      { apply (order_by_payme_transaction_save d _ o o' Hfind);
          [reflexivity | exact Hbound]. }
      repeat split.
    - set (o' := set_updated_at _ _).
      unfold Payme.atomic. cbn [fst snd].
      eexists o', _. split; [reflexivity |]. split.
      { apply (order_by_payme_transaction_save d _ o o' Hfind);
          [reflexivity | exact Hbound]. }
      repeat split. }
  destruct Hr1 as (o' & d' & Hr1 & Hfind' & Hs & Hstate & Hct & Hpt).
  assert (Hwas' : Payme.was_performed o' = Payme.was_performed o).
  { unfold Payme.was_performed at 1. rewrite Hpt, Hstate, Hs. subst state.
    destruct (Payme.was_performed o) eqn:Hwas.
    - apply Z.ltb_lt in Hrec; [| reflexivity]. rewrite Hrec. reflexivity.
    - reflexivity. }
  subst r2. rewrite Hr1. cbn [fst snd]. split; [reflexivity |].
  unfold Payme._cancel_transaction. rewrite Htid2, Hsame, Hfind'.
  cbn [negb]. rewrite Hs, bool_decide_eq_true_2 by reflexivity. cbn [orb].
  rewrite Hwas', Hstate. fold state.
  assert (Hor : Py.or_int (Some state) 0 = state)
    by (subst state; destruct (Payme.was_performed o); reflexivity).
  rewrite Hor, Z.eqb_refl. cbn [negb]. rewrite Hstate, Hct.
  unfold Payme.atomic. cbn.
  destruct (Z.eqb_spec (now_ms clk1) 0) as [-> | _]; split; reflexivity.
Qed.

(** X10.  The repair CancelTransaction makes on a transaction that is
    already cancelled but whose stored state is not the expected one (-2
    when it was performed, -1 otherwise): it stores the expected state,
    fills [cancel_time] and the reason only where they are missing, keeps
    the ones that are stored, and touches neither the order's status and
    [perform_time] nor any buyer.  Where the reason is missing, the one
    of the request is to be omitted or an integer the [IntegerField] of
    the database holds. *)
Theorem cancel_repairs_state
    (clk : Clock) (d : Db) (rpc_id : pyval) (params : Payme.Params)
    (o : Order) (r : Z) :
  truthy (Payme.p_id params) = true ->
  order_by_payme_transaction d (Py.str (Payme.p_id params)) = Some o ->
  (status o = cancelled \/ Payme.in_cancelled (payme_state o) = true) ->
  let expected := if Payme.was_performed o then -2 else -1 in
  Py.or_int (payme_state o) 0 <> expected ->
  (payme_cancel_reason o = None ->
   Py.int (match Payme.p_reason params with
           | PNone => PInt (if Payme.was_performed o then 5 else 3)
           | _ => Payme.p_reason params
           end) = Some r) ->
  (payme_cancel_reason o = None ->
   Payme.p_reason params <> PNone ->
   integer_ok (backend d) r = true) ->
  exists o' : Order,
    Payme._cancel_transaction clk d rpc_id params
    = (Payme.Return
         (Payme.Success rpc_id
            (Payme.Cancelled
               (if Py.truthy_int (payme_cancel_time o)
                then Py.or_int (payme_cancel_time o) 0
                else Py.or_int (Some (now_ms clk)) 0)
               (Py.str (Payme.p_id params)) expected)),
       save_order o' d)
    /\ id o' = id o
    /\ payme_state o' = Some expected
    /\ payme_cancel_time o'
       = (if Py.truthy_int (payme_cancel_time o)
          then payme_cancel_time o else Some (now_ms clk))
    /\ payme_cancel_reason o'
       = (match payme_cancel_reason o with
          | Some stored => Some stored
          | None => Some r
          end)
    /\ status o' = status o
    /\ payme_perform_time o' = payme_perform_time o
    /\ payme_transaction_id o' = payme_transaction_id o.
Proof.
  intros Htid Hfind Hcond expected Hne Hreason Hfit.
  assert (Hb : bool_decide (status o = cancelled)
               || Payme.in_cancelled (payme_state o) = true).
  { destruct Hcond as [H | H].
    - rewrite bool_decide_eq_true_2 by exact H. reflexivity.
    - rewrite H. apply orb_true_r. }
  unfold Payme._cancel_transaction. rewrite Htid, Hfind. cbn [negb].
  rewrite Hb. fold expected.
  destruct (Z.eqb_spec (Py.or_int (payme_state o) 0) expected) as [E | _];
    [contradiction |].
  cbn [negb].
  destruct (Py.truthy_int (payme_cancel_time o)) eqn:Hct; cbn [negb];
    cbn [payme_cancel_reason set_payme_state set_payme_cancel_time];
    destruct (payme_cancel_reason o) as [stored |] eqn:Hstored.
  - eexists. split; [reflexivity |]. repeat split. exact Hstored.
  - specialize (Hreason eq_refl). specialize (Hfit eq_refl).
    destruct (Payme.p_reason params) eqn:Hp;
      [ cbn in Hreason; injection Hreason as <-
      | rewrite Hreason; cbn [mbind option_bind];
        rewrite Hfit by discriminate .. ];
      (eexists; split; [reflexivity |]; repeat split).
  - eexists. split; [reflexivity |]. repeat split. exact Hstored.
  - specialize (Hreason eq_refl). specialize (Hfit eq_refl).
    destruct (Payme.p_reason params) eqn:Hp;
      [ cbn in Hreason; injection Hreason as <-
      | rewrite Hreason; cbn [mbind option_bind];
        rewrite Hfit by discriminate .. ];
      (eexists; split; [reflexivity |]; repeat split).
Qed.

(** ** CreateTransaction: when it succeeds *)

(** X11.  For a request that names an existing order, carries an integer
    amount, a truthy id that the [CharField] of the database holds and a
    time that the [BigIntegerField] holds (64 bits, signed),
    CreateTransaction answers with
    a result exactly when the amount is the order's amount in tiyin, the
    order is neither paid nor cancelled, and the order is unbound or
    bound to the very id of the request; the result then names that
    id. *)
Theorem create_succeeds_iff
    (clk : Clock) (d : Db) (rpc_id : pyval) (params : Payme.Params)
    (order_id amount ct : Z) (o : Order) :
  Payme._get_order_id params = Some (Some order_id) ->
  Payme._get_amount_tiyin params = Some amount ->
  truthy (Payme.p_id params) = true ->
  order_by_id d order_id = Some o ->
  Py.int (match Payme.p_time params with
          | PNone => PInt (now_ms clk)
          | PBool b => PBool b
          | PInt z => PInt z
          | PStr s => PStr s
          end) = Some ct ->
  -9223372036854775808 <= ct <= 9223372036854775807 ->
  varchar_ok (backend d) 255 (Py.str (Payme.p_id params)) = true ->
  let r := Payme._create_transaction clk d rpc_id params in
  (exists resp, fst r = Payme.Return resp)
  /\ ((exists c st,
         fst r = Payme.Return
                   (Payme.Success rpc_id
                      (Payme.Created c (Py.str (Payme.p_id params)) st)))
      <->
      (amount = Payme._expected_amount_tiyin o
       /\ status o <> paid
       /\ status o <> cancelled
       /\ (Py.truthy_text (payme_transaction_id o) = true ->
           Py.str_text (payme_transaction_id o)
           = Py.str (Payme.p_id params)))).
Proof.
  intros Hid Hamt Htid Hfind Hct Hrange Htext r. subst r.
  unfold Payme._create_transaction.
  rewrite Hid, Hamt, Htid, Hfind. cbn [negb].
  destruct (Z.eqb_spec amount (Payme._expected_amount_tiyin o))
    as [Ha | Ha]; cbn [negb].
  2: { cbn. split; [eauto |].
       split; [intros (c & st & [=]) | tauto]. }
  destruct (decide (status o = paid)) as [Hp | Hp].
  { rewrite bool_decide_eq_true_2 by exact Hp. cbn. split; [eauto |].
    split; [intros (c & st & [=]) | tauto]. }
  rewrite (bool_decide_eq_false_2 _ Hp).
  destruct (decide (status o = cancelled)) as [Hc | Hc].
  { rewrite bool_decide_eq_true_2 by exact Hc. cbn. split; [eauto |].
    split; [intros (c & st & [=]) | tauto]. }
  rewrite (bool_decide_eq_false_2 _ Hc).
  destruct (Py.truthy_text (payme_transaction_id o)) eqn:Hb.
  - destruct (String.eqb_spec (Py.str_text (payme_transaction_id o))
                (Py.str (Payme.p_id params))) as [E | E].
    + assert (Hor : exists c,
                 Py.int_or (payme_create_time o)
                   (match Payme.p_time params with
                    | PNone => PInt (now_ms clk)
                    | PBool b => PBool b
                    | PInt z => PInt z
                    | PStr s => PStr s
                    end) = Some c).
      { unfold Py.int_or.
        destruct (Py.truthy_int (payme_create_time o)) eqn:Ht;
          [| eauto].
        destruct (payme_create_time o); [eauto | discriminate]. }
      destruct Hor as [c Hor]. rewrite Hor. cbn. split; [eauto |].
      rewrite E. split; [tauto | eauto].
    + cbn. split; [eauto |].
      split; [intros (c & st & [=]) |].
      intros (_ & _ & _ & H). specialize (H eq_refl). contradiction.
  - rewrite Hct, Htext, (bigint_ok_range ct Hrange). cbn.
    split; [eauto |].
    split; [| eauto]. intros _. repeat split; try assumption.
    discriminate.
Qed.

(** ** Click: Prepare and Complete *)

(** X12.  Prepare followed by Complete: on an order that is neither paid
    nor cancelled and whose buyer row exists, Prepare with a
    transaction id that the [BigIntegerField] holds (64 bits, signed)
    answers success
    with the order id as prepare id, and a Complete that echoes that
    prepare id and reports no provider error then answers success,
    leaves the order [paid] and the buyer paid at the current time,
    which is what the status view reports. *)
Theorem prepare_then_complete
    (clk : Clock) (d : Db) (o : Order) (trans_id : Z)
    (merchant_trans_id : string) (error1 error2 : Z) :
  order_by_id d (id o) = Some o ->
  status o <> paid ->
  status o <> cancelled ->
  is_Some (participants d !! participant_id o) ->
  0 <= error2 ->
  -9223372036854775808 <= trans_id <= 9223372036854775807 ->
  let r1 := Click._handle_prepare d o trans_id merchant_trans_id error1 in
  exists (o1 o2 : Order) (d2 : Db),
    fst r1 = Some (Click._response trans_id merchant_trans_id (id o) 0
                     "Success")
    /\ order_by_id (snd r1) (id o) = Some o1
    /\ Click._handle_complete clk (snd r1) o1 trans_id merchant_trans_id
         (id o) error2
       = (Some (Click._response trans_id merchant_trans_id (id o) 0
                  "Success"), d2)
    /\ order_by_id d2 (id o) = Some o2
    /\ status o2 = paid
    /\ click_trans_id o2 = Some trans_id
    /\ total_amount o2 = total_amount o
    /\ participants d2
       = <[participant_id o := mkParticipant true (Some (tz_now clk))]>
           (participants d)
    /\ Status.get d2 (Some (participant_id o))
       = Status.Report true (Some (tz_now clk)).
Proof.
  intros Hfind Hp Hc [p Hpart] Herr Hrange r1. subst r1.
  unfold Click._handle_prepare.
  rewrite !bool_decide_eq_false_2 by assumption.
  rewrite (bigint_ok_range trans_id Hrange). cbn [negb fst snd].
  set (o1 := set_payment_method click _).
  assert (Ho1 : o1 = set_payment_method click
                       (set_click_prepare_id (Some (id o))
                          (set_click_trans_id (Some trans_id) o)))
    by (subst o1; destruct (_ && _); reflexivity).
  clearbody o1. subst o1.
  set (o1 := set_payment_method click _).
  assert (Hfind1 : order_by_id (save_order o1 d) (id o) = Some o1)
    by (apply (order_by_id_save d (id o) o o1 Hfind); reflexivity).
  set (o2 := set_updated_at (Some (auto_now clk)) (set_status paid o1)).
  assert (Hcomplete :
            Click._handle_complete clk (save_order o1 d) o1 trans_id
              merchant_trans_id (id o) error2
            = (Some (Click._response trans_id merchant_trans_id (id o) 0
                       "Success"),
               with_participants
                 (<[participant_id o
                    := mkParticipant true (Some (tz_now clk))]>
                    (participants d))
                 (save_order o2 (save_order o1 d)))).
  { unfold Click._handle_complete.
    destruct (Z.ltb_spec error2 0) as [Hlt | _]; [lia |].
    change (status o1) with (status o).
    rewrite !bool_decide_eq_false_2 by assumption.
    change (click_prepare_id o1) with (Some (id o)).
    rewrite bool_decide_eq_true_2 by reflexivity. cbn [negb].
    unfold save_participant_payment.
    cbn [participants with_participants save_order with_orders
         participant_id set_updated_at set_status o1 set_payment_method
         set_click_prepare_id set_click_trans_id].
    rewrite Hpart. reflexivity. }
  exists o1, o2. eexists.
  split; [reflexivity |].
  split; [exact Hfind1 |]. split; [exact Hcomplete |].
  split.
  { change (order_by_id (save_order o2 (save_order o1 d)) (id o) = Some o2).
    apply (order_by_id_save (save_order o1 d) (id o) o1 o2 Hfind1).
    reflexivity. }
  repeat (split; [reflexivity |]).
  unfold Status.get. cbn [participants with_participants].
  rewrite lookup_insert_eq. reflexivity.
Qed.

(** X13.  Complete twice: after a Complete has marked the order paid, any
    further Complete for that order that reports no provider error is
    answered with the already-paid fault -4 and writes nothing. *)
Theorem complete_twice
    (clk1 clk2 : Clock) (d : Db) (o : Order) (trans1 trans2 : Z)
    (merchant1 merchant2 : string) (prepare1 prepare2 error1 error2 : Z) :
  order_by_id d (id o) = Some o ->
  status o <> paid ->
  status o <> cancelled ->
  click_prepare_id o = Some prepare1 ->
  is_Some (participants d !! participant_id o) ->
  0 <= error1 ->
  0 <= error2 ->
  let r1 := Click._handle_complete clk1 d o trans1 merchant1 prepare1
              error1 in
  exists o1 : Order,
    fst r1 = Some (Click._response trans1 merchant1 prepare1 0 "Success")
    /\ order_by_id (snd r1) (id o) = Some o1
    /\ Click._handle_complete clk2 (snd r1) o1 trans2 merchant2 prepare2
         error2
       = (Some (Click._response trans2 merchant2 prepare2 (-4)
                  "Already paid"), snd r1).
Proof.
  intros Hfind Hp Hc Hprep [p Hpart] He1 He2 r1. subst r1.
  set (o1 := set_updated_at (Some (auto_now clk1)) (set_status paid o)).
  assert (Hfirst :
            Click._handle_complete clk1 d o trans1 merchant1 prepare1 error1
            = (Some (Click._response trans1 merchant1 prepare1 0 "Success"),
               with_participants
                 (<[participant_id o
                    := mkParticipant true (Some (tz_now clk1))]>
                    (participants d))
                 (save_order o1 d))).
  { unfold Click._handle_complete.
    destruct (Z.ltb_spec error1 0) as [Hlt | _]; [lia |].
    rewrite !bool_decide_eq_false_2 by assumption.
    rewrite bool_decide_eq_true_2 by exact Hprep. cbn [negb].
    unfold save_participant_payment.
    cbn [participants with_participants save_order with_orders
         participant_id set_updated_at set_status].
    rewrite Hpart. reflexivity. }
  rewrite Hfirst. cbn [fst snd]. exists o1.
  split; [reflexivity |]. split.
  { change (order_by_id (save_order o1 d) (id o) = Some o1).
    apply (order_by_id_save d (id o) o o1 Hfind). reflexivity. }
  unfold Click._handle_complete.
  destruct (Z.ltb_spec error2 0) as [Hlt | _]; [lia |]. reflexivity.
Qed.

(** ** The Click endpoint *)

Section ClickEndpoint.

Variable md5_hexdigest : string -> string.
Variable amount_differs : Decimal -> string -> option bool.

(** X14.  A Click request whose signature does not verify writes
    nothing, whatever else the form holds and whether or not the order
    it names exists.  When the view answers, the answer carries
    [merchant_prepare_id = 0] and is the fault -5 ("Invalid order ID")
    if [merchant_trans_id] is not the text of an integer, as the view
    reads the order id before it checks the signature, and the
    signature fault -1 otherwise. *)
Theorem unsigned_click_request_writes_nothing
    (cfg : Settings) (clk : Clock) (d : Db) (data : ClickView.Form) :
  (forall action,
      ClickView.int_field (ClickView.f_action data) (-1) = Some action ->
      ClickView._verify_sign md5_hexdigest cfg data action = false) ->
  snd (ClickView.post md5_hexdigest amount_differs cfg clk d data) = d
  /\ forall resp,
       fst (ClickView.post md5_hexdigest amount_differs cfg clk d data)
       = Some resp ->
       Click.r_merchant_prepare_id resp = 0
       /\ match Py.int_of_text
                  (default EmptyString (ClickView.f_merchant_trans_id data))
          with
          | Some _ =>
              Click.r_error resp = -1
              /\ Click.r_error_note resp = "Invalid signature"%string
          | None =>
              Click.r_error resp = -5
              /\ Click.r_error_note resp = "Invalid order ID"%string
          end.
Proof.
  intros Hsig.
  unfold ClickView.post.
  destruct (ClickView.int_field (ClickView.f_click_trans_id data) 0);
    [| split; [reflexivity | discriminate]].
  destruct (ClickView.int_field (ClickView.f_service_id data) 0);
    [| split; [reflexivity | discriminate]].
  destruct (ClickView.int_field (ClickView.f_action data) (-1))
    as [action |]; [| split; [reflexivity | discriminate]].
  destruct (ClickView.int_field (ClickView.f_error data) 0);
    [| split; [reflexivity | discriminate]].
  destruct (Py.int_of_text _) as [order_id |].
  - rewrite (Hsig action eq_refl). cbn. split; [reflexivity |].
    intros resp [= <-]. repeat split.
  - cbn. split; [reflexivity |]. intros resp [= <-]. repeat split.
Qed.


Lemma prepare_rows_step
    (d : Db) (o : Order) (trans_id : Z) (merchant_trans_id : string)
    (error : Z) :
  NoDup (map id (orders d)) ->
  In o (orders d) ->
  Forall2 click_step (orders d)
    (orders (snd (Click._handle_prepare d o trans_id merchant_trans_id
                    error))).
Proof.
  intros Hnd Hin.
  pose proof (Forall2_same click_step (orders d) cstep_none) as Hsame.
  unfold Click._handle_prepare.
  destruct (bool_decide (status o = paid)) eqn:Hp; [exact Hsame |].
  destruct (bool_decide (status o = cancelled)) eqn:Hc; [exact Hsame |].
  apply bool_decide_eq_false in Hp, Hc.
  destruct (negb _); [exact Hsame |]. cbn [snd].
  assert (Ho : (if Py.truthy_int (click_trans_id o)
                   && negb (bool_decide (click_trans_id o = Some trans_id))
                then o else o) = o) by (destruct (_ && _); reflexivity).
  rewrite Ho.
  apply (save_order_Forall2 click_step o); auto using cstep_none.
  apply cstep_prepare; assumption.
Qed.

Lemma complete_rows_step
    (clk : Clock) (d : Db) (o : Order) (trans_id : Z)
    (merchant_trans_id : string) (merchant_prepare_id error : Z) :
  NoDup (map id (orders d)) ->
  In o (orders d) ->
  let d' := snd (Click._handle_complete clk d o trans_id merchant_trans_id
                   merchant_prepare_id error) in
  Forall2 click_step (orders d) (orders d')
  /\ (participants d' = participants d
      \/ (status o <> paid
          /\ status o <> cancelled
          /\ is_Some (participants d !! participant_id o)
          /\ In (set_updated_at (Some (auto_now clk)) (set_status paid o))
               (orders d')
          /\ participants d'
             = <[participant_id o
                 := mkParticipant true (Some (tz_now clk))]>
                 (participants d))).
Proof.
  intros Hnd Hin d'. subst d'.
  pose proof (Forall2_same click_step (orders d) cstep_none) as Hsame.
  unfold Click._handle_complete.
  destruct (error <? 0).
  { cbn [snd]. destruct (bool_decide (status o = paid)) eqn:Hp; cbn [negb].
    - split; [exact Hsame | left; reflexivity].
    - apply bool_decide_eq_false in Hp. split; [| left; reflexivity].
      apply (save_order_Forall2 click_step o); auto using cstep_none.
      apply cstep_fail, Hp. }
  destruct (bool_decide (status o = paid)) eqn:Hp;
    [split; [exact Hsame | left; reflexivity] |].
  destruct (bool_decide (status o = cancelled)) eqn:Hc;
    [split; [exact Hsame | left; reflexivity] |].
  destruct (negb _); [split; [exact Hsame | left; reflexivity] |].
  apply bool_decide_eq_false in Hp, Hc.
  destruct (save_participant_payment _ _ _ _) as [d' |] eqn:Hsave;
    [| split; [exact Hsame | left; reflexivity]].
  cbn [snd]. apply save_participant_payment_static in Hsave as [-> Hrow].
  cbn [orders participants with_participants] in *.
  split.
  - apply (save_order_Forall2 click_step o); auto using cstep_none.
    apply cstep_complete; assumption.
  - right. split; [exact Hp |]. split; [exact Hc |].
    split; [exact Hrow |]. split; [| reflexivity].
    exact (save_order_In o
             (set_updated_at (Some (auto_now clk)) (set_status paid o))
             d Hin eq_refl).
Qed.

Lemma click_post_rows_step
    (cfg : Settings) (clk : Clock) (d : Db) (data : ClickView.Form) :
  NoDup (map id (orders d)) ->
  let d' := snd (ClickView.post md5_hexdigest amount_differs cfg clk d data) in
  Forall2 click_step (orders d) (orders d')
  /\ (participants d' = participants d
      \/ exists o,
           In o (orders d)
           /\ status o <> paid
           /\ status o <> cancelled
           /\ is_Some (participants d !! participant_id o)
           /\ In (set_updated_at (Some (auto_now clk)) (set_status paid o))
                (orders d')
           /\ participants d'
              = <[participant_id o
                  := mkParticipant true (Some (tz_now clk))]>
                  (participants d)).
Proof.
  intros Hnd d'. subst d'.
  assert (Hsame : Forall2 click_step (orders d) (orders d)
                  /\ (participants d = participants d
                      \/ exists o,
                           In o (orders d)
                           /\ status o <> paid
                           /\ status o <> cancelled
                           /\ is_Some (participants d !! participant_id o)
                           /\ In (set_updated_at (Some (auto_now clk))
                                    (set_status paid o)) (orders d)
                           /\ participants d
                              = <[participant_id o
                                  := mkParticipant true
                                       (Some (tz_now clk))]>
                                  (participants d)))
    by (split; [apply Forall2_same, cstep_none | left; reflexivity]).
  unfold ClickView.post.
  destruct (ClickView.int_field (ClickView.f_click_trans_id data) 0)
    as [trans_id |]; [| exact Hsame].
  destruct (ClickView.int_field (ClickView.f_service_id data) 0)
    as [service_id |]; [| exact Hsame].
  destruct (ClickView.int_field (ClickView.f_action data) (-1))
    as [action |]; [| exact Hsame].
  destruct (ClickView.int_field (ClickView.f_error data) 0)
    as [error |]; [| exact Hsame].
  destruct (Py.int_of_text _) as [order_id |]; [| exact Hsame].
  destruct (negb _); [exact Hsame |].
  destruct (order_by_id d order_id) as [order |] eqn:Hfind; [| exact Hsame].
  apply order_by_id_Some in Hfind as [Hin _].
  destruct (amount_differs _ _) as [[|] |]; try exact Hsame.
  destruct (action =? 0).
  - pose proof (prepare_rows_step d order trans_id
                  (default EmptyString (ClickView.f_merchant_trans_id data))
                  error Hnd Hin) as Hrows.
    assert (Hpart : participants
                      (snd (Click._handle_prepare d order trans_id
                              (default EmptyString
                                 (ClickView.f_merchant_trans_id data))
                              error))
                    = participants d).
    { unfold Click._handle_prepare.
      destruct (bool_decide _); [reflexivity |].
      destruct (bool_decide _); [reflexivity |].
      destruct (negb _); reflexivity. }
    split; [exact Hrows | left; exact Hpart].
  - destruct (action =? 1); [| exact Hsame].
    destruct (ClickView.int_field (ClickView.f_merchant_prepare_id data) 0)
      as [prepare_id |]; [| exact Hsame].
    destruct (complete_rows_step clk d order trans_id
                (default EmptyString (ClickView.f_merchant_trans_id data))
                prepare_id error Hnd Hin) as [Hrows Hpart].
    split; [exact Hrows |].
    destruct Hpart as [Hpart | Hpart]; [left; exact Hpart |].
    right. exists order. split; [exact Hin | exact Hpart].
Qed.

(** X16.  With unique primary keys, a Click request leaves a paid order
    exactly as it was, never revives a cancelled one, and never changes
    the key, buyer, amount or any Payme column of any order.  A buyer
    is written only together with one of the buyer's own orders: that
    order was neither paid nor cancelled, the request leaves it [paid]
    (with [updated_at] set and nothing else changed), and the buyer is
    set to paid at the current time. *)
Theorem click_request_respects_payments
    (cfg : Settings) (clk : Clock) (d : Db) (data : ClickView.Form) :
  NoDup (map id (orders d)) ->
  let d' := snd (ClickView.post md5_hexdigest amount_differs cfg clk d data) in
  Forall2
    (fun o o' =>
       (status o = paid -> o' = o)
       /\ (status o = cancelled -> status o' = cancelled)
       /\ id o' = id o
       /\ participant_id o' = participant_id o
       /\ total_amount o' = total_amount o
       /\ payme_transaction_id o' = payme_transaction_id o
       /\ payme_state o' = payme_state o
       /\ payme_create_time o' = payme_create_time o
       /\ payme_perform_time o' = payme_perform_time o
       /\ payme_cancel_time o' = payme_cancel_time o
       /\ payme_cancel_reason o' = payme_cancel_reason o)
    (orders d) (orders d')
  /\ (participants d' = participants d
      \/ exists o o',
           In o (orders d)
           /\ status o <> paid
           /\ status o <> cancelled
           /\ is_Some (participants d !! participant_id o)
           /\ In o' (orders d')
           /\ o' = set_updated_at (Some (auto_now clk)) (set_status paid o)
           /\ id o' = id o
           /\ status o' = paid
           /\ participants d'
              = <[participant_id o
                  := mkParticipant true (Some (tz_now clk))]>
                  (participants d)).
Proof.
  intros Hnd d'. subst d'.
  destruct (click_post_rows_step cfg clk d data Hnd) as [Hrows Hpart].
  split.
  - eapply Forall2_impl; [exact Hrows |].
    intros o o' [| t Hp Hc | au Hp | au Hp Hc]; cbn.
    + repeat split; try reflexivity; tauto.
    + repeat split; try reflexivity; tauto.
    + repeat split; try reflexivity; tauto.
    + repeat split; try reflexivity; tauto.
  - destruct Hpart as [Hpart | (o & Hin & Hp & Hc & Hrow & Hin' & Hpart)];
      [left; exact Hpart |].
    right.
    exists o, (set_updated_at (Some (auto_now clk)) (set_status paid o)).
    repeat (split; [first [assumption | reflexivity] |]). exact Hpart.
Qed.

End ClickEndpoint.

(** ** Order initiation: refusals, superseding, keys *)

(** X17.  An initiation request that is refused (no session, unknown or
    already paid participant, empty selection, no priced subject of an
    active olympiad among the selected ones) writes nothing, on either
    endpoint. *)
Theorem refused_initiation_writes_nothing
    (cfg : Settings) (clk : Clock) (d : Db) (request : Initiate.Request)
    (http_status : Z) (error : string) :
  (fst (Initiate.payme_post cfg clk d request)
   = Some (Initiate.Failure http_status error) ->
   snd (Initiate.payme_post cfg clk d request) = d)
  /\ (fst (Initiate.click_post cfg clk d request)
      = Some (Initiate.Failure http_status error) ->
      snd (Initiate.click_post cfg clk d request) = d).
Proof.
  split.
  - unfold Initiate.payme_post.
    destruct (Initiate.session_participant_id request) as [pid |];
      [| reflexivity].
    destruct (participants d !! pid) as [p |]; [| reflexivity].
    destruct (is_paid p); [reflexivity |].
    destruct (Initiate.subject_ids request) as [| i0 ids]; [reflexivity |].
    destruct (List.filter _ _) as [| first rest]; [reflexivity |].
    cbn [Initiate.create_order].
    destruct (Initiate.generate_pay_link _ _ _ _); discriminate.
  - unfold Initiate.click_post.
    destruct (Initiate.session_participant_id request) as [pid |];
      [| reflexivity].
    destruct (participants d !! pid) as [p |]; [| reflexivity].
    destruct (is_paid p); [reflexivity |].
    destruct (Initiate.subject_ids request) as [| i0 ids]; [reflexivity |].
    destruct (List.filter _ _) as [| first rest]; [reflexivity |].
    destruct (Initiate.click_create_orders _ _ _ _ _) as [[o1 |] d'];
      [| discriminate].
    destruct (Initiate.generate_click_pay_link _ _ _ _); discriminate.
Qed.

Lemma create_remaining_rows
    (clk : Clock) (pid : N) (method : PaymentMethod) (rest : list Subject)
    (d : Db) :
  exists new : list Order,
    orders (Initiate.create_remaining clk pid method rest d)
    = rev new ++ orders d
    /\ map id new = seqZ (next_order_id d) (Z.of_nat (length rest))
    /\ next_order_id (Initiate.create_remaining clk pid method rest d)
       = next_order_id d + Z.of_nat (length rest)
    /\ Forall2 (fresh_row pid method) rest new
    /\ participants (Initiate.create_remaining clk pid method rest d)
       = participants d
    /\ subjects (Initiate.create_remaining clk pid method rest d)
       = subjects d
    /\ olympiads (Initiate.create_remaining clk pid method rest d)
       = olympiads d.
Proof.
  revert d. induction rest as [| s rest IH]; intros d.
  - exists []. cbn. rewrite Z.add_0_r. repeat split; constructor.
  - rewrite create_remaining_cons.
    destruct (IH (snd (Initiate.create_order clk pid s (ticket_price s)
                         method d)))
      as (new & Ho & Hids & Hnext & Hfresh & Hp & Hs & Hol).
    exists (fst (Initiate.create_order clk pid s (ticket_price s) method d)
              :: new).
    split; [| split; [| split; [| split]]].
    + rewrite Ho. cbn. rewrite <- app_assoc. reflexivity.
    + cbn [map length]. rewrite Hids.
      cbn [Initiate.create_order fst snd id next_order_id].
      rewrite Nat2Z.inj_succ, (seqZ_cons (next_order_id d)) by lia.
      f_equal. f_equal; lia.
    + rewrite Hnext. cbn. lia.
    + constructor; [repeat split | exact Hfresh].
    + rewrite Hp, Hs, Hol. repeat split.
Qed.

Lemma create_all_initiated
    (clk : Clock) (pid : N) (method : PaymentMethod) (first : Subject)
    (amount : Decimal) (rest : list Subject) (d : Db) :
  exists new : list Order,
    initiated pid method (first :: rest) new d
      (Initiate.create_remaining clk pid method rest
         (snd (Initiate.create_order clk pid first amount method
                 (Initiate.supersede_pending pid d)))).
Proof.
  set (d1 := Initiate.supersede_pending pid d).
  destruct (create_remaining_rows clk pid method rest
              (snd (Initiate.create_order clk pid first amount method d1)))
    as (new & Ho & Hids & Hnext & Hfresh & Hp & Hs & Hol).
  exists (fst (Initiate.create_order clk pid first amount method d1) :: new).
  unfold initiated. fold d1.
  split; [| split; [| split; [| split]]].
  - rewrite Ho. cbn. rewrite <- app_assoc. reflexivity.
  - cbn [map length]. rewrite Hids.
    cbn [Initiate.create_order fst snd id next_order_id].
    rewrite Nat2Z.inj_succ, (seqZ_cons (next_order_id d1)) by lia.
    f_equal. f_equal; lia.
  - rewrite Hnext. cbn. lia.
  - constructor; [repeat split | exact Hfresh].
  - rewrite Hp, Hs, Hol. repeat split.
Qed.

Lemma payme_post_initiated
    (cfg : Settings) (clk : Clock) (d : Db) (request : Initiate.Request)
    (n : Z) (amount : Decimal) (url : Initiate.Url) :
  fst (Initiate.payme_post cfg clk d request)
  = Some (Initiate.Started n amount url) ->
  exists (pid : N) (new : list Order),
    Initiate.session_participant_id request = Some pid
    /\ n = next_order_id d
    /\ initiated pid payme
         (List.filter (Initiate.selected d (Initiate.subject_ids request))
            (subjects d))
         new d (snd (Initiate.payme_post cfg clk d request)).
Proof.
  unfold Initiate.payme_post.
  destruct (Initiate.session_participant_id request) as [pid |];
    [| discriminate].
  destruct (participants d !! pid) as [p |]; [| discriminate].
  destruct (is_paid p); [discriminate |].
  destruct (Initiate.subject_ids request) as [| i0 ids]; [discriminate |].
  destruct (List.filter _ _) as [| first rest]; [discriminate |].
  destruct (create_all_initiated clk pid payme first
              (Initiate.sum_prices (first :: rest)) rest d) as [new Hnew].
  cbn [Initiate.create_order] in *.
  destruct (Initiate.generate_pay_link _ _ _ _); [| discriminate].
  cbn [fst snd id]. intros [= <- _ _].
  exists pid, new. split; [reflexivity |]. split; [reflexivity |].
  exact Hnew.
Qed.

Lemma click_post_initiated
    (cfg : Settings) (clk : Clock) (d : Db) (request : Initiate.Request)
    (n : Z) (amount : Decimal) (url : Initiate.Url) :
  fst (Initiate.click_post cfg clk d request)
  = Some (Initiate.Started n amount url) ->
  exists (pid : N) (new : list Order),
    Initiate.session_participant_id request = Some pid
    /\ n = next_order_id d
    /\ initiated pid click
         (List.filter (Initiate.selected d (Initiate.subject_ids request))
            (subjects d))
         new d (snd (Initiate.click_post cfg clk d request)).
Proof.
  unfold Initiate.click_post.
  destruct (Initiate.session_participant_id request) as [pid |];
    [| discriminate].
  destruct (participants d !! pid) as [p |]; [| discriminate].
  destruct (is_paid p); [discriminate |].
  destruct (Initiate.subject_ids request) as [| i0 ids]; [discriminate |].
  destruct (List.filter _ _) as [| first rest]; [discriminate |].
  rewrite click_create_orders_spec, create_remaining_cons.
  destruct (create_all_initiated clk pid click first (ticket_price first)
              rest d) as [new Hnew].
  cbn [Initiate.create_order] in *.
  destruct (Initiate.generate_click_pay_link _ _ _ _); [| discriminate].
  cbn [fst snd id]. intros [= <- _ _].
  exists pid, new. split; [reflexivity |]. split; [reflexivity |].
  exact Hnew.
Qed.

Lemma supersede_pending_rows (pid : N) (d : Db) (o : Order) :
  In o (orders (Initiate.supersede_pending pid d)) <->
  exists r, In r (orders d)
            /\ o = (if (participant_id r =? pid)%N
                       && bool_decide (status r = pending)
                    then set_status cancelled r else r).
Proof.
  unfold Initiate.supersede_pending. cbn [orders with_orders].
  rewrite in_map_iff. split; intros (r & H1 & H2); exists r; auto.
Qed.

Lemma supersede_pending_keys (pid : N) (d : Db) :
  map id (orders (Initiate.supersede_pending pid d)) = map id (orders d).
Proof.
  unfold Initiate.supersede_pending. cbn [orders with_orders].
  induction (orders d) as [| r l IH]; cbn; [reflexivity |].
  rewrite IH. destruct (_ && _); reflexivity.
Qed.

Lemma initiated_supersedes
    (pid : N) (method : PaymentMethod) (sel : list Subject)
    (new : list Order) (d d' : Db) :
  initiated pid method sel new d d' ->
  length new = length sel
  /\ (forall o, In o (orders d') -> participant_id o = pid ->
                status o = pending -> In o new)
  /\ (forall o, In o (orders d) -> participant_id o = pid ->
                status o = pending ->
                In (set_status cancelled o) (orders d'))
  /\ (forall o, In o (orders d) ->
                participant_id o <> pid \/ status o <> pending ->
                In o (orders d')).
Proof.
  intros (Ho & _ & _ & Hfresh & _).
  split; [symmetry; exact (Forall2_length _ _ _ Hfresh) |].
  split; [| split].
  - intros o Hin Hpid Hst. rewrite Ho in Hin.
    apply in_app_or in Hin as [Hin | Hin]; [apply in_rev, Hin |].
    apply supersede_pending_rows in Hin as (r & _ & ->).
    destruct (N.eqb_spec (participant_id r) pid) as [E | E];
      destruct (decide (status r = pending)) as [P | P];
      rewrite ?(bool_decide_eq_true_2 _ P), ?(bool_decide_eq_false_2 _ P)
        in *; cbn in *; congruence.
  - intros o Hin Hpid Hst. rewrite Ho. apply in_or_app. right.
    apply supersede_pending_rows. exists o. split; [exact Hin |].
    rewrite Hpid, N.eqb_refl, bool_decide_eq_true_2 by exact Hst.
    reflexivity.
  - intros o Hin Hother. rewrite Ho. apply in_or_app. right.
    apply supersede_pending_rows. exists o. split; [exact Hin |].
    destruct Hother as [E | P].
    + destruct (N.eqb_spec (participant_id o) pid); [contradiction |].
      reflexivity.
    + rewrite (bool_decide_eq_false_2 _ P), andb_false_r. reflexivity.
Qed.

(** X18.  A successful initiation, on either endpoint, answers with the
    key of the first new order and leaves: one new pending order of the
    buyer per selected subject, unbound on both sides; every pending
    order the buyer had, cancelled; and every other order as it was.
    The buyer's only pending orders are then the new ones. *)
Theorem initiation_supersedes_pending
    (cfg : Settings) (clk : Clock) (d : Db) (request : Initiate.Request)
    (endpoint : PaymentMethod) (n : Z) (amount : Decimal)
    (url : Initiate.Url) :
  let r := match endpoint with
           | payme => Initiate.payme_post cfg clk d request
           | click => Initiate.click_post cfg clk d request
           end in
  let sel := List.filter
               (Initiate.selected d (Initiate.subject_ids request))
               (subjects d) in
  fst r = Some (Initiate.Started n amount url) ->
  exists (pid : N) (new : list Order),
    Initiate.session_participant_id request = Some pid
    /\ n = next_order_id d
    /\ orders (snd r) = rev new ++ orders (Initiate.supersede_pending pid d)
    /\ Forall2 (fresh_row pid endpoint) sel new
    /\ map id new = seqZ (next_order_id d) (Z.of_nat (length sel))
    /\ (forall o, In o (orders (snd r)) -> participant_id o = pid ->
                  status o = pending -> In o new)
    /\ (forall o, In o (orders d) -> participant_id o = pid ->
                  status o = pending ->
                  In (set_status cancelled o) (orders (snd r)))
    /\ (forall o, In o (orders d) ->
                  participant_id o <> pid \/ status o <> pending ->
                  In o (orders (snd r)))
    /\ participants (snd r) = participants d.
Proof.
  intros r sel Hok.
  assert (Hinit : exists pid new,
             Initiate.session_participant_id request = Some pid
             /\ n = next_order_id d
             /\ initiated pid endpoint sel new d (snd r)).
  { subst r sel. destruct endpoint.
    - exact (payme_post_initiated cfg clk d request n amount url Hok).
    - exact (click_post_initiated cfg clk d request n amount url Hok). }
  destruct Hinit as (pid & new & Hsess & Hn & Hinit).
  destruct (initiated_supersedes pid endpoint sel new d (snd r) Hinit)
    as (_ & Hpend & Hcanc & Hother).
  destruct Hinit as (Ho & Hids & _ & Hfresh & Hp & _).
  exists pid, new. repeat (split; [assumption |]). exact Hp.
Qed.

(** ** Keys stay unique and below the sequence *)

Lemma keys_fresh_same_keys (d d' : Db) :
  map id (orders d') = map id (orders d) ->
  next_order_id d' = next_order_id d ->
  keys_fresh d -> keys_fresh d'.
Proof.
  intros Hk Hn [Hnd Hlt]. unfold keys_fresh. rewrite Hk, Hn.
  split; [exact Hnd |].
  apply (proj1 (List.Forall_map id (fun k => k < next_order_id d)
                  (orders d'))).
  rewrite Hk.
  apply (proj2 (List.Forall_map id (fun k => k < next_order_id d)
                  (orders d))), Hlt.
Qed.

Lemma payme_write_keys (d d' : Db) :
  payme_write d d' ->
  map id (orders d') = map id (orders d)
  /\ next_order_id d' = next_order_id d.
Proof.
  intros [| o o' _ _ _ | o o' flag at_ d1 _ _ _ Hsave _].
  - split; reflexivity.
  - split; [apply save_order_keys | reflexivity].
  - apply save_participant_payment_static in Hsave as [-> _].
    split; [apply save_order_keys | reflexivity].
Qed.

Lemma initiated_keys_fresh
    (pid : N) (method : PaymentMethod) (sel : list Subject)
    (new : list Order) (d d' : Db) :
  initiated pid method sel new d d' ->
  keys_fresh d -> keys_fresh d'.
Proof.
  intros (Ho & Hids & Hnext & _) [Hnd Hlt].
  assert (Hnew : forall k, In k (map id new) ->
                           next_order_id d <= k
                           < next_order_id d + Z.of_nat (length sel)).
  { intros k Hk. rewrite Hids in Hk.
    apply list_elem_of_In, elem_of_seqZ in Hk. exact Hk. }
  assert (Hold : forall k, In k (map id (orders d)) -> k < next_order_id d).
  { intros k Hk. apply in_map_iff in Hk as (o & <- & Hin).
    rewrite List.Forall_forall in Hlt. apply Hlt, Hin. }
  unfold keys_fresh. rewrite Ho, Hnext, map_app, map_rev,
    supersede_pending_keys.
  split.
  - apply NoDup_app. split; [| split; [| exact Hnd]].
    + apply NoDup_ListNoDup, List.NoDup_rev, NoDup_ListNoDup.
      rewrite Hids. apply NoDup_seqZ.
    + intros k Hk Hk'. apply list_elem_of_In in Hk, Hk'.
      apply in_rev in Hk. specialize (Hnew k Hk). specialize (Hold k Hk').
      lia.
  - apply List.Forall_forall. intros o Hin.
    apply in_app_or in Hin as [Hin | Hin].
    + apply in_rev in Hin.
      specialize (Hnew (id o) (in_map id _ _ Hin)). lia.
    + assert (Hk : In (id o) (map id (orders d))).
      { rewrite <- (supersede_pending_keys pid d). apply in_map, Hin. }
      specialize (Hold _ Hk). lia.
Qed.

Lemma payme_post_db
    (cfg : Settings) (clk : Clock) (d : Db) (request : Initiate.Request) :
  snd (Initiate.payme_post cfg clk d request) = d
  \/ exists (pid : N) (new : list Order),
       initiated pid payme
         (List.filter (Initiate.selected d (Initiate.subject_ids request))
            (subjects d))
         new d (snd (Initiate.payme_post cfg clk d request)).
Proof.
  unfold Initiate.payme_post.
  destruct (Initiate.session_participant_id request) as [pid |];
    [| left; reflexivity].
  destruct (participants d !! pid) as [p |]; [| left; reflexivity].
  destruct (is_paid p); [left; reflexivity |].
  destruct (Initiate.subject_ids request) as [| i0 ids];
    [left; reflexivity |].
  destruct (List.filter _ _) as [| first rest]; [left; reflexivity |].
  destruct (create_all_initiated clk pid payme first
              (Initiate.sum_prices (first :: rest)) rest d) as [new Hnew].
  cbn [Initiate.create_order] in *.
  right. exists pid, new.
  destruct (Initiate.generate_pay_link _ _ _ _); exact Hnew.
Qed.

Lemma click_post_db
    (cfg : Settings) (clk : Clock) (d : Db) (request : Initiate.Request) :
  snd (Initiate.click_post cfg clk d request) = d
  \/ exists (pid : N) (new : list Order),
       initiated pid click
         (List.filter (Initiate.selected d (Initiate.subject_ids request))
            (subjects d))
         new d (snd (Initiate.click_post cfg clk d request)).
Proof.
  unfold Initiate.click_post.
  destruct (Initiate.session_participant_id request) as [pid |];
    [| left; reflexivity].
  destruct (participants d !! pid) as [p |]; [| left; reflexivity].
  destruct (is_paid p); [left; reflexivity |].
  destruct (Initiate.subject_ids request) as [| i0 ids];
    [left; reflexivity |].
  destruct (List.filter _ _) as [| first rest]; [left; reflexivity |].
  rewrite click_create_orders_spec, create_remaining_cons.
  destruct (create_all_initiated clk pid click first (ticket_price first)
              rest d) as [new Hnew].
  cbn [Initiate.create_order] in *.
  right. exists pid, new.
  destruct (Initiate.generate_click_pay_link _ _ _ _); exact Hnew.
Qed.

Lemma click_callback_keys
    (md5_hexdigest : string -> string)
    (amount_differs : Decimal -> string -> option bool)
    (cfg : Settings) (clk : Clock) (d : Db) (data : ClickView.Form) :
  map id (orders (snd (ClickView.post md5_hexdigest amount_differs cfg clk
                         d data)))
  = map id (orders d)
  /\ next_order_id (snd (ClickView.post md5_hexdigest amount_differs cfg clk
                           d data))
     = next_order_id d.
Proof.
  assert (Hsame : map id (orders d) = map id (orders d)
                  /\ next_order_id d = next_order_id d)
    by (split; reflexivity).
  unfold ClickView.post.
  destruct (ClickView.int_field (ClickView.f_click_trans_id data) 0)
    as [trans_id |]; [| exact Hsame].
  destruct (ClickView.int_field (ClickView.f_service_id data) 0)
    as [service_id |]; [| exact Hsame].
  destruct (ClickView.int_field (ClickView.f_action data) (-1))
    as [action |]; [| exact Hsame].
  destruct (ClickView.int_field (ClickView.f_error data) 0)
    as [error |]; [| exact Hsame].
  destruct (Py.int_of_text _) as [order_id |]; [| exact Hsame].
  destruct (negb _); [exact Hsame |].
  destruct (order_by_id d order_id) as [order |]; [| exact Hsame].
  destruct (amount_differs _ _) as [[|] |]; try exact Hsame.
  destruct (action =? 0).
  - unfold Click._handle_prepare.
    destruct (bool_decide _); [exact Hsame |].
    destruct (bool_decide _); [exact Hsame |].
    destruct (negb _); [exact Hsame |].
    cbn [snd]. split; [apply save_order_keys | reflexivity].
  - destruct (action =? 1); [| exact Hsame].
    destruct (ClickView.int_field (ClickView.f_merchant_prepare_id data) 0)
      as [prepare_id |]; [| exact Hsame].
    unfold Click._handle_complete.
    destruct (error <? 0).
    { cbn [snd]. destruct (negb _); [| exact Hsame].
      split; [apply save_order_keys | reflexivity]. }
    destruct (bool_decide _); [exact Hsame |].
    destruct (bool_decide _); [exact Hsame |].
    destruct (negb _); [exact Hsame |].
    destruct (save_participant_payment _ _ _ _) as [d' |] eqn:Hsave;
      [| exact Hsame].
    cbn [snd]. apply save_participant_payment_static in Hsave as [-> _].
    split; [apply save_order_keys | reflexivity].
Qed.

(** X19.  Primary keys that are unique and below the next value of the
    sequence stay so through every request to the four endpoints that
    write orders: the Payme callback, the Click callback and the two
    initiation views, whatever they answer. *)
Theorem endpoints_keep_keys_fresh
    (b64decode : string -> option string)
    (md5_hexdigest : string -> string)
    (amount_differs : Decimal -> string -> option bool)
    (cfg : Settings) (clk : Clock) (d : Db) :
  keys_fresh d ->
  (forall request,
      keys_fresh (snd (Payme.post b64decode cfg clk d request)))
  /\ (forall data,
         keys_fresh (snd (ClickView.post md5_hexdigest amount_differs cfg
                            clk d data)))
  /\ (forall request,
         keys_fresh (snd (Initiate.payme_post cfg clk d request)))
  /\ (forall request,
         keys_fresh (snd (Initiate.click_post cfg clk d request))).
Proof.
  intros Hk. split; [| split; [| split]].
  - intros request.
    destruct (payme_write_keys _ _ (post_write b64decode cfg clk d request))
      as [Hids Hnext].
    exact (keys_fresh_same_keys _ _ Hids Hnext Hk).
  - intros data.
    destruct (click_callback_keys md5_hexdigest amount_differs cfg clk d data)
      as [Hids Hnext].
    exact (keys_fresh_same_keys _ _ Hids Hnext Hk).
  - intros request.
    destruct (payme_post_db cfg clk d request) as [-> | (pid & new & Hi)];
      [exact Hk |].
    exact (initiated_keys_fresh _ _ _ _ _ _ Hi Hk).
  - intros request.
    destruct (click_post_db cfg clk d request) as [-> | (pid & new & Hi)];
      [exact Hk |].
    exact (initiated_keys_fresh _ _ _ _ _ _ Hi Hk).
Qed.

(** ** Printing an integer and reading it back *)

Lemma digit_of_pretty_N_char (x : N) :
  (x < 10)%N ->
  Py.digit_of (pretty_N_char x) = Some (Z.of_N x)
  /\ Py.int_space (pretty_N_char x) = false.
Proof.
  intros Hx.
  assert (H : (x = 0 \/ x = 1 \/ x = 2 \/ x = 3 \/ x = 4 \/ x = 5
               \/ x = 6 \/ x = 7 \/ x = 8 \/ x = 9)%N) by lia.
  repeat destruct H as [-> | H]; try subst x; split; reflexivity.
Qed.

Lemma int_digits_pretty_N_go (x : N) :
  forall (s : string) (acc : Z) (after_digit : bool),
    (0 < x)%N ->
    exists m : Z,
      Py.int_digits acc after_digit
        (list_ascii_of_string (pretty_N_go x s))
      = Py.int_digits m true (list_ascii_of_string s)
      /\ (acc = 0 -> m = Z.of_N x).
Proof.
  induction (N.lt_wf_0 x) as [x _ IH]. intros s acc b Hx.
  rewrite pretty_N_go_step by exact Hx.
  destruct (digit_of_pretty_N_char (x `mod` 10)%N) as [Hdigit _];
    [apply N.mod_lt; lia |].
  destruct (N.eq_dec (x `div` 10)%N 0%N) as [Hz | Hnz].
  - rewrite Hz, pretty_N_go_0. cbn [list_ascii_of_string Py.int_digits].
    rewrite Hdigit. eexists. split; [reflexivity |].
    intros ->. pose proof (N.Div0.div_mod x 10%N) as H.
    rewrite Hz in H. clear Hdigit Hz IH.
    set (r := (x `mod` 10)%N) in *. clearbody r. lia.
  - assert (Hlt : (x `div` 10 < x)%N) by (apply N.div_lt; lia).
    assert (Hpos : (0 < x `div` 10)%N) by (apply N.neq_0_lt_0, Hnz).
    destruct (IH _ Hlt (String (pretty_N_char (x `mod` 10)%N) s) acc b Hpos)
      as (m & Hm & Hval).
    rewrite Hm. cbn [list_ascii_of_string Py.int_digits].
    rewrite Hdigit. eexists. split; [reflexivity |].
    intros Hacc. rewrite (Hval Hacc).
    pose proof (N.Div0.div_mod x 10%N) as H. clear Hdigit Hm Hval IH.
    set (r := (x `mod` 10)%N) in *. set (q := (x `div` 10)%N) in *.
    clearbody r q. lia.
Qed.

Lemma pretty_N_go_no_space (x : N) :
  forall s : string,
    Forall (fun c => Py.int_space c = false) (list_ascii_of_string s) ->
    Forall (fun c => Py.int_space c = false)
      (list_ascii_of_string (pretty_N_go x s)).
Proof.
  induction (N.lt_wf_0 x) as [x _ IH]. intros s Hs.
  destruct (N.eq_dec x 0%N) as [-> | Hnz];
    [rewrite pretty_N_go_0; exact Hs |].
  rewrite pretty_N_go_step by lia.
  apply IH; [apply N.div_lt; lia |].
  cbn [list_ascii_of_string]. constructor; [| exact Hs].
  apply digit_of_pretty_N_char, N.mod_lt. lia.
Qed.

Lemma lstrip_no_space (space : ascii -> bool) (l : list ascii) :
  Forall (fun c => space c = false) l -> Py.lstrip space l = l.
Proof. intros [| c r Hc _]; cbn; [| rewrite Hc]; reflexivity. Qed.

Lemma trim_no_space (space : ascii -> bool) (s : string) :
  Forall (fun c => space c = false) (list_ascii_of_string s) ->
  Py.trim space s = s.
Proof.
  intros Hs. unfold Py.trim.
  rewrite (lstrip_no_space _ _ Hs), lstrip_no_space, rev_involutive.
  - apply string_of_list_ascii_of_string.
  - apply List.Forall_rev, Hs.
Qed.

Lemma int_of_text_pretty_pos (p : positive) :
  Forall (fun c => Py.int_space c = false)
    (list_ascii_of_string (pretty (Npos p)))
  /\ Py.int_digits 0 false (list_ascii_of_string (pretty (Npos p)))
     = Some (Zpos p)
  /\ exists c r, list_ascii_of_string (pretty (Npos p)) = c :: r
                 /\ c <> "-"%char /\ c <> "+"%char.
Proof.
  unfold pretty, pretty_N. rewrite decide_False by discriminate.
  assert (Hns : Forall (fun c => Py.int_space c = false)
                  (list_ascii_of_string (pretty_N_go (N.pos p) EmptyString)))
    by (apply pretty_N_go_no_space; constructor).
  destruct (int_digits_pretty_N_go (Npos p) EmptyString 0 false)
    as (m & Hm & Hval); [lia |].
  split; [exact Hns |]. split.
  - rewrite Hm, (Hval eq_refl). reflexivity.
  - destruct (list_ascii_of_string (pretty_N_go (N.pos p) EmptyString))
      as [| c r] eqn:Hl; [discriminate |].
    exists c, r. split; [reflexivity |].
    cbn [Py.int_digits] in Hm.
    destruct (Py.digit_of c) eqn:Hd.
    + split; intros ->; discriminate.
    + destruct (Ascii.eqb c "_" && false) eqn:Hu;
        [rewrite andb_false_r in Hu; discriminate |].
      rewrite (Hval eq_refl) in Hm. discriminate.
Qed.

(** A printed integer within the limit on digits reads back as the
    integer: [int(str(n)) = n]. *)
Lemma int_of_text_str_int (n : Z) (text : string) :
  Py.str_int n = Some text -> Py.int_of_text text = Some n.
Proof.
  unfold Py.str_int, Py.int_of_text.
  destruct (_ <? _)%N eqn:Hlimit; [discriminate |]. intros [= <-].
  destruct n as [| p | p]; [reflexivity | |].
  - destruct (int_of_text_pretty_pos p)
      as (Hns & Hval & c & r & Hl & Hm & Hp).
    change (pretty (Zpos p)) with (pretty (Npos p)) in *.
    rewrite (trim_no_space _ _ Hns), Hlimit, Hl.
    rewrite Hl in Hval.
    destruct c as [[] [] [] [] [] [] [] []]; try exact Hval; congruence.
  - destruct (int_of_text_pretty_pos p) as (Hns & Hval & _).
    change (pretty (Zneg p)) with (String "-" (pretty (Npos p))) in *.
    rewrite trim_no_space, Hlimit.
    + cbn [list_ascii_of_string]. rewrite Hval. reflexivity.
    + cbn [list_ascii_of_string].
      constructor; [reflexivity | exact Hns].
Qed.

Lemma generate_pay_link_prints
    (cfg : Settings) (n a : Z) (r : option string) (u : Initiate.Url) :
  Initiate.generate_pay_link cfg n a r = Some u ->
  Py.int_of_text (pretty n) = Some n.
Proof.
  unfold Initiate.generate_pay_link.
  destruct (negb _); [discriminate |].
  destruct (Py.str_int n) as [t |] eqn:Ho; [| discriminate].
  intros _. pose proof (int_of_text_str_int n t Ho) as Hread.
  unfold Py.str_int in Ho.
  destruct (_ <? _)%N; [discriminate |]. injection Ho as <-.
  exact Hread.
Qed.

(** X20.  What the pay links print, the callbacks read back.  When
    [generate_pay_link] builds a link for an order key and an amount,
    the texts it prints behind [ac.order_id=] and [a=] are texts from
    which [_get_order_id] and [_get_amount_tiyin] recover that key and
    that amount; when [generate_click_pay_link] builds a link, the text
    it prints behind [transaction_param=] is one from which
    [int(merchant_trans_id)] of the Click callback recovers the order
    key. *)
Theorem printed_order_id_reads_back
    (cfg : Settings) (order_id amount : Z) (return_url : option string)
    (url : Initiate.Url) :
  (Initiate.generate_pay_link cfg order_id amount return_url = Some url ->
   exists order_text amount_text : string,
     (let params :=
        "m=" +:+ Py.str_text (PAYME_ID cfg)
        +:+ ";ac.order_id=" +:+ order_text
        +:+ ";a=" +:+ amount_text in
      url = Initiate.PaymeCheckout
              (if Py.truthy_text return_url
               then params +:+ ";c=" +:+ Py.str_text return_url
               else params))
     /\ Payme._get_order_id
          (Payme.mkParams (Payme.AccountDict (PStr order_text))
             (PStr amount_text) PNone PNone PNone PNone PNone)
        = Some (Some order_id)
     /\ Payme._get_amount_tiyin
          (Payme.mkParams (Payme.AccountDict (PStr order_text))
             (PStr amount_text) PNone PNone PNone PNone PNone)
        = Some amount)
  /\ (Initiate.generate_click_pay_link cfg order_id amount return_url
      = Some url ->
      exists order_text amount_text : string,
        url = Initiate.ClickPay
                ("?service_id=" +:+ Py.str_text (CLICK_SERVICE_ID cfg)
                 +:+ "&merchant_id=" +:+ Py.str_text (CLICK_MERCHANT_ID cfg)
                 +:+ "&amount=" +:+ amount_text
                 +:+ "&transaction_param=" +:+ order_text)
                (if Py.truthy_text return_url then return_url else None)
        /\ Py.int_of_text order_text = Some order_id).
Proof.
  split.
  - unfold Initiate.generate_pay_link.
    destruct (negb _); [discriminate |].
    destruct (Py.str_int order_id) as [order_text |] eqn:Ho;
      [| discriminate].
    destruct (Py.str_int amount) as [amount_text |] eqn:Ha;
      [| discriminate].
    intros [= <-]. exists order_text, amount_text.
    split; [| split].
    + reflexivity.
    + cbn. rewrite (int_of_text_str_int _ _ Ho). reflexivity.
    + cbn. exact (int_of_text_str_int _ _ Ha).
  - unfold Initiate.generate_click_pay_link.
    destruct (negb _); [discriminate |].
    destruct (Py.str_int amount) as [amount_text |] eqn:Ha;
      [| discriminate].
    destruct (Py.str_int order_id) as [order_text |] eqn:Ho;
      [| discriminate].
    intros [= <-]. exists order_text, amount_text.
    split; [reflexivity |]. exact (int_of_text_str_int _ _ Ho).
Qed.

(** ** From the pay link to the first Payme request *)

Lemma sum_two_places_from (l : list Subject) (acc : Decimal) :
  Dec.two_places acc ->
  Forall (fun s => Dec.two_places (ticket_price s)) l ->
  fold_left (fun a s => Dec.add a (ticket_price s)) l acc
  = mkDecimal (coeff acc + fold_right Z.add 0
                             (map (fun s => coeff (ticket_price s)) l))
      (-2).
Proof.
  revert acc. induction l as [| s l IH]; intros acc Hacc Hall.
  - cbn. rewrite Z.add_0_r. destruct acc as [c e].
    unfold Dec.two_places in Hacc. cbn in *. subst e. reflexivity.
  - apply List.Forall_cons_iff in Hall as [Hs Hl].
    cbn [fold_left map fold_right].
    assert (Hstep : Dec.add acc (ticket_price s)
                    = mkDecimal (coeff acc + coeff (ticket_price s)) (-2)).
    { unfold Dec.two_places in Hacc, Hs.
      unfold Dec.add, Dec.rescale. rewrite Hacc, Hs.
      rewrite Z.min_id, Z.sub_diag, Z.pow_0_r. f_equal. lia. }
    rewrite Hstep, IH by (reflexivity || exact Hl).
    cbn [coeff]. f_equal. lia.
Qed.

Lemma sum_prices_two_places (first : Subject) (rest : list Subject) :
  Forall (fun s => Dec.two_places (ticket_price s)) (first :: rest) ->
  Initiate.sum_prices (first :: rest)
  = mkDecimal (fold_right Z.add 0
                 (map (fun s => coeff (ticket_price s)) (first :: rest)))
      (-2).
Proof.
  intros Hall. pose proof Hall as Hall'.
  apply List.Forall_cons_iff in Hall' as [Hf Hr].
  unfold Initiate.sum_prices. cbn [fold_left].
  assert (Hstep : Dec.add (Dec.of_int 0) (ticket_price first)
                  = mkDecimal (coeff (ticket_price first)) (-2)).
  { unfold Dec.two_places in Hf. unfold Dec.add, Dec.rescale, Dec.of_int.
    cbn [coeff exp]. rewrite Hf.
    change (Z.min 0 (-2)) with (-2). rewrite Z.sub_diag, Z.pow_0_r.
    f_equal. lia. }
  rewrite Hstep, sum_two_places_from by (reflexivity || exact Hr).
  reflexivity.
Qed.

(** X21.  With prices of two decimal places, the link of a successful Payme
    initiation is payable: its amount is the exact sum of the selected
    prices in tiyin, and on the database the view leaves,
    CheckPerformTransaction for the order key of the link (sent as a
    number or as the printed text) allows exactly that amount. *)
Theorem payme_link_is_payable
    (cfg : Settings) (clk : Clock) (d : Db) (request : Initiate.Request)
    (n : Z) (total : Decimal) (url : Initiate.Url) :
  Forall (fun s => Dec.two_places (ticket_price s)) (subjects d) ->
  fst (Initiate.payme_post cfg clk d request)
  = Some (Initiate.Started n total url) ->
  let d' := snd (Initiate.payme_post cfg clk d request) in
  let sel := List.filter
               (Initiate.selected d (Initiate.subject_ids request))
               (subjects d) in
  let tiyin :=
    fold_right Z.add 0 (map (fun s => coeff (ticket_price s)) sel) in
  total = mkDecimal tiyin (-2)
  /\ Initiate.generate_pay_link cfg n tiyin
       (Some (Initiate.ticket_uri request)) = Some url
  /\ forall (clk' : Clock) (rpc_id order_ref : pyval) (amount : Z)
            (params : Payme.Params),
       order_ref = PInt n \/ order_ref = PStr (pretty n) ->
       Payme.p_account params = Payme.AccountDict order_ref ->
       Payme.p_amount params = PInt amount ->
       Payme._check_perform_transaction clk' d' rpc_id params
       = (Payme.Return
            (if amount =? tiyin
             then Payme.Success rpc_id (Payme.Allow true)
             else Payme.Error rpc_id (-31001) "Invalid amount"
                    (Some "amount"%string)), d').
Proof.
  intros Hprices Hok d' sel tiyin.
  assert (Hsel : Forall (fun s => Dec.two_places (ticket_price s)) sel).
  { apply List.Forall_forall. intros s Hs. apply filter_In in Hs as [Hs _].
    rewrite List.Forall_forall in Hprices. apply Hprices, Hs. }
  revert Hok. subst d'. unfold Initiate.payme_post at 1.
  destruct (Initiate.session_participant_id request) as [pid |] eqn:Hsess;
    [| discriminate].
  destruct (participants d !! pid) as [p |] eqn:Hp; [| discriminate].
  destruct (is_paid p) eqn:Hpaid; [discriminate |].
  destruct (Initiate.subject_ids request) as [| i0 ids] eqn:Hids;
    [discriminate |].
  fold sel.
  destruct sel as [| first rest] eqn:Hfilter; [discriminate |].
  cbn [Initiate.create_order].
  destruct (Initiate.generate_pay_link _ _ _ _) as [u |] eqn:Hlink;
    [| discriminate].
  cbn [fst id]. intros [= <- <- <-].
  assert (Hkey : is_Some
                   (Initiate.generate_pay_link cfg (next_order_id d)
                      (Dec.to_int
                         (Dec.mul (Initiate.sum_prices (first :: rest))
                            (Dec.of_int 100)))
                      (Some (Initiate.ticket_uri request))))
    by (exists u; exact Hlink).
  assert (Hprint : Py.int_of_text (pretty (next_order_id d))
                   = Some (next_order_id d))
    by exact (generate_pay_link_prints _ _ _ _ _ Hlink).
  assert (Hne : Initiate.subject_ids request <> [])
    by (rewrite Hids; discriminate).
  assert (Hf : List.filter
                 (Initiate.selected d (Initiate.subject_ids request))
                 (subjects d) = first :: rest).
  { rewrite Hids. exact Hfilter. }
  destruct (payme_post_first_order_total cfg clk d request pid p first rest
              Hsess Hp Hpaid Hne Hf Hkey)
    as (pay_url & d1 & Hpost & _ & (o & Hfind & Hamt & _ & Hst) & _).
  rewrite Hpost. cbn [snd].
  pose proof (sum_prices_two_places first rest Hsel) as Hsum.
  fold tiyin in Hsum.
  assert (Htiyin : Dec.to_int (Dec.mul (Initiate.sum_prices (first :: rest))
                                 (Dec.of_int 100)) = tiyin).
  { rewrite Hsum. unfold Dec.to_int, Dec.mul. cbn.
    apply Z.quot_mul. lia. }
  split; [exact Hsum |]. split.
  - rewrite <- Htiyin. exact Hlink.
  - intros clk' rpc_id order_ref amount params Href Hacc Hamount.
    unfold Payme._check_perform_transaction, Payme._get_order_id,
      Payme._get_amount_tiyin.
    rewrite Hacc, Hamount.
    assert (Hid : match order_ref with
                  | PNone => Some None
                  | _ => Some (Py.int order_ref)
                  end = Some (Some (next_order_id d))).
    { destruct Href as [-> | ->]; [reflexivity |].
      cbn. f_equal. exact Hprint. }
    rewrite Hid. cbn [Py.int]. rewrite Hfind.
    rewrite bool_decide_eq_false_2 by (rewrite Hst; discriminate).
    rewrite bool_decide_eq_false_2 by (rewrite Hst; discriminate).
    unfold Payme._expected_amount_tiyin. rewrite Hamt, Htiyin.
    destruct (amount =? tiyin); reflexivity.
Qed.

(** ** The Authorization header of the Payme endpoint *)

Lemma prefix_app (p s : string) :
  String.prefix p s = true <-> exists r, s = p +:+ r.
Proof.
  revert s. induction p as [| c p IH]; intros s.
  - split; [intros _; exists s; reflexivity |].
    intros _. destruct s; reflexivity.
  - destruct s as [| c' s].
    + split; [discriminate | intros [r Hr]; discriminate].
    + change (String.prefix (String c p) (String c' s))
        with (if ascii_dec c c' then String.prefix p s else false).
      destruct (ascii_dec c c') as [-> | Hne].
      * rewrite IH. split; intros [r Hr]; exists r.
        -- rewrite Hr. reflexivity.
        -- injection Hr as ->. reflexivity.
      * split; [discriminate | intros [r Hr]].
        injection Hr as -> _. contradiction.
Qed.

Lemma split_once_Some (sep : ascii) (s a b : string) :
  Payme.split_once sep s = Some (a, b) -> s = a +:+ String sep b.
Proof.
  revert a. induction s as [| c s IH]; intros a; cbn [Payme.split_once].
  - discriminate.
  - destruct (Ascii.eqb_spec c sep) as [-> | Hne].
    + intros [= <- <-]. reflexivity.
    + destruct (Payme.split_once sep s) as [[a' b'] |]; [| discriminate].
      intros [= <- <-]. rewrite (IH a' eq_refl). reflexivity.
Qed.

(** X22.  The Payme endpoint accepts an Authorization header exactly when
    it is ["Basic "] followed by a payload that decodes to ["Paycom:"]
    followed by the configured key (stripped); any other header, on any
    well-formed request, is answered with error -32504 and nothing is
    written. *)
Theorem payme_accepts_only_the_merchant_key
    (b64decode : string -> option string) (cfg : Settings)
    (request : Payme.HttpRequest) :
  (Payme._verify_auth b64decode cfg request = true
   <-> exists payload : string,
         Payme.authorization request = "Basic " +:+ payload
         /\ b64decode payload
            = Some ("Paycom:" +:+ Payme.configured_key cfg))
  /\ forall (clk : Clock) (d : Db) (rpc_id method : pyval)
            (params : Payme.Params),
       Payme.body request = Payme.Envelope rpc_id method params ->
       Payme._verify_auth b64decode cfg request = false ->
       Payme.post b64decode cfg clk d request
       = (Payme.Error rpc_id (-32504) "Unauthorized" None, d).
Proof.
  split.
  - unfold Payme._verify_auth. split.
    + destruct (String.prefix "Basic " (Payme.authorization request))
        eqn:Hprefix; [| discriminate].
      apply prefix_app in Hprefix as [payload Hheader].
      rewrite Hheader. cbn [negb].
      change ("Basic " +:+ payload)
        with (String "B" (String "a" (String "s" (String "i"
                (String "c" (String " " payload)))))).
      cbn [Payme.split_once Ascii.eqb Bool.eqb].
      destruct (b64decode payload) as [decoded |] eqn:Hdec; [| discriminate].
      destruct (Payme.split_once ":" decoded) as [[username password] |]
        eqn:Hsplit; [| discriminate].
      intros Hboth. apply andb_prop in Hboth as [Hu Hp].
      apply String.eqb_eq in Hu, Hp. subst username password.
      apply split_once_Some in Hsplit. exists payload.
      split; [reflexivity |]. rewrite Hdec, Hsplit. reflexivity.
    + intros (payload & Hheader & Hdec). rewrite Hheader.
      assert (Hp : String.prefix "Basic " ("Basic " +:+ payload) = true)
        by (apply prefix_app; exists payload; reflexivity).
      rewrite Hp. cbn [negb].
      change ("Basic " +:+ payload)
        with (String "B" (String "a" (String "s" (String "i"
                (String "c" (String " " payload)))))).
      cbn [Payme.split_once Ascii.eqb Bool.eqb]. rewrite Hdec.
      change ("Paycom:" +:+ Payme.configured_key cfg)
        with (String "P" (String "a" (String "y" (String "c" (String "o"
                (String "m" (String ":" (Payme.configured_key cfg)))))))).
      cbn [Payme.split_once Ascii.eqb Bool.eqb].
      cbn [String.eqb Ascii.eqb Bool.eqb andb].
      apply String.eqb_refl.
  - intros clk d rpc_id method params Hbody Hauth.
    unfold Payme.post. rewrite Hbody, Hauth.
    destruct (negb (negb _)); reflexivity.
Qed.

(** ** A recorded perform time stays tied to a performed transaction *)

Lemma click_callback_keeps_perform_time_consistent
    (md5_hexdigest : string -> string)
    (amount_differs : Decimal -> string -> option bool)
    (cfg : Settings) (clk : Clock) (d : Db) (data : ClickView.Form) :
  Forall perform_time_consistent (orders d) ->
  Forall perform_time_consistent
    (orders (snd (ClickView.post md5_hexdigest amount_differs cfg clk d
                    data))).
Proof.
  intros Hall. unfold ClickView.post.
  destruct (ClickView.int_field (ClickView.f_click_trans_id data) 0)
    as [trans_id |]; [| exact Hall].
  destruct (ClickView.int_field (ClickView.f_service_id data) 0)
    as [service_id |]; [| exact Hall].
  destruct (ClickView.int_field (ClickView.f_action data) (-1))
    as [action |]; [| exact Hall].
  destruct (ClickView.int_field (ClickView.f_error data) 0)
    as [error |]; [| exact Hall].
  destruct (Py.int_of_text _) as [order_id |]; [| exact Hall].
  destruct (negb _); [exact Hall |].
  destruct (order_by_id d order_id) as [order |] eqn:Hfind; [| exact Hall].
  apply order_by_id_Some in Hfind as [Hin _].
  pose proof (Forall_In_orders _ d order Hall Hin) as Horder.
  destruct (amount_differs _ _) as [[|] |]; try exact Hall.
  destruct (action =? 0).
  - pose proof (prepare_keeps_perform_time_consistent d order trans_id
                  (default EmptyString (ClickView.f_merchant_trans_id data))
                  error Horder Hall) as Hkeep.
    destruct (Click._handle_prepare _ _ _ _ _) as [r d1]. exact Hkeep.
  - destruct (action =? 1); [| exact Hall].
    destruct (ClickView.int_field (ClickView.f_merchant_prepare_id data) 0)
      as [prepare_id |]; [| exact Hall].
    pose proof (complete_keeps_perform_time_consistent clk d order trans_id
                  (default EmptyString (ClickView.f_merchant_trans_id data))
                  prepare_id error Horder Hall) as Hkeep.
    destruct (Click._handle_complete _ _ _ _ _ _ _) as [r d1]. exact Hkeep.
Qed.

(** X23.  If on every order a positive [payme_perform_time] goes with a
    bound Payme transaction in state 2 or -2, the same holds after any
    request to the Payme callback, the Click callback or either
    initiation view. *)
Theorem endpoints_keep_perform_time_consistent
    (b64decode : string -> option string)
    (md5_hexdigest : string -> string)
    (amount_differs : Decimal -> string -> option bool)
    (cfg : Settings) (clk : Clock) (d : Db) :
  Forall perform_time_consistent (orders d) ->
  (forall request,
      Forall perform_time_consistent
        (orders (snd (Payme.post b64decode cfg clk d request))))
  /\ (forall data,
         Forall perform_time_consistent
           (orders (snd (ClickView.post md5_hexdigest amount_differs cfg
                           clk d data))))
  /\ (forall request,
         Forall perform_time_consistent
           (orders (snd (Initiate.payme_post cfg clk d request))))
  /\ (forall request,
         Forall perform_time_consistent
           (orders (snd (Initiate.click_post cfg clk d request)))).
Proof.
  intros Hall. split; [| split; [| split]].
  - intros request.
    apply post_keeps_perform_time_consistent, Hall.
  - intros data.
    apply click_callback_keeps_perform_time_consistent, Hall.
  - intros request.
    apply payme_post_keeps_perform_time_consistent, Hall.
  - intros request.
    apply click_post_keeps_perform_time_consistent, Hall.
Qed.

(** ** Methods that only read *)

(** X24.  CheckPerformTransaction, CheckTransaction and GetStatement
    never write: whatever the header and the parameters, the database
    after the request is the database before it.  The same holds for a
    method name that is not in the table of handlers. *)
Theorem reading_methods_write_nothing
    (b64decode : string -> option string) (cfg : Settings) (clk : Clock)
    (d : Db) (request : Payme.HttpRequest) (rpc_id method : pyval)
    (params : Payme.Params) :
  Payme.body request = Payme.Envelope rpc_id method params ->
  method <> PStr "CreateTransaction" ->
  method <> PStr "PerformTransaction" ->
  method <> PStr "CancelTransaction" ->
  snd (Payme.post b64decode cfg clk d request) = d.
Proof.
  intros Hbody Hcreate Hperform Hcancel.
  unfold Payme.post. rewrite Hbody.
  destruct (negb (negb _)); [reflexivity |].
  destruct (negb _); [reflexivity |].
  destruct method as [| b | z | m]; try reflexivity.
  unfold Payme.handlers.
  destruct (String.eqb_spec m "CheckPerformTransaction").
  { unfold Payme._check_perform_transaction.
    destruct (Payme._get_order_id params) as [[k |] |]; try reflexivity.
    destruct (Payme._get_amount_tiyin params); try reflexivity.
    destruct (order_by_id d k); try reflexivity.
    repeat (destruct (bool_decide _); try reflexivity).
    destruct (negb _); reflexivity. }
  destruct (String.eqb_spec m "CreateTransaction"); [congruence |].
  destruct (String.eqb_spec m "PerformTransaction"); [congruence |].
  destruct (String.eqb_spec m "CancelTransaction"); [congruence |].
  destruct (String.eqb_spec m "CheckTransaction").
  { unfold Payme._check_transaction.
    destruct (negb _); [reflexivity |].
    destruct (order_by_payme_transaction _ _); reflexivity. }
  destruct (String.eqb_spec m "GetStatement"); [| reflexivity].
  unfold Payme._get_statement.
  destruct (Py.int _); [| reflexivity].
  destruct (Py.int _); [| reflexivity].
  destruct (_ <? _); reflexivity.
Qed.

(** ** The properties above on the fixtures *)

Ltac keys_distinct := apply (bool_decide_unpack _); vm_compute; exact I.

Lemma post_error_writes_nothing_witness :
  snd (Payme.post Fixtures.decode0 Fixtures.cfg0 Fixtures.clk0
         Fixtures.db_performed
         (Fixtures.signed "CreateTransaction"
            (Fixtures.params_for 7 5000000 "tx-2" PNone)))
  = Fixtures.db_performed.
Proof. apply post_error_writes_nothing. reflexivity. Defined.

Lemma post_echoes_request_id_witness :
  response_id
    (fst (Payme.post Fixtures.decode0 Fixtures.cfg0 Fixtures.clk0
            Fixtures.db0 (Fixtures.signed "Refund" Payme.no_params)))
  = PInt 1.
Proof.
  apply (post_echoes_request_id Fixtures.decode0 Fixtures.cfg0
           Fixtures.clk0 Fixtures.db0
           (Fixtures.signed "Refund" Payme.no_params)
           (PInt 1) (PStr "Refund") Payme.no_params).
  reflexivity.
Defined.

Lemma post_keeps_keys_and_amounts_witness :
  next_order_id
    (snd (Payme.post Fixtures.decode0 Fixtures.cfg0 Fixtures.clk0
            Fixtures.db_statement
            (Fixtures.signed "CancelTransaction"
               (Fixtures.params_for 7 5000000 "tx-1" PNone))))
  = 10.
Proof.
  destruct (post_keeps_keys_and_amounts Fixtures.decode0 Fixtures.cfg0
              Fixtures.clk0 Fixtures.db_statement
              (Fixtures.signed "CancelTransaction"
                 (Fixtures.params_for 7 5000000 "tx-1" PNone)))
    as (_ & _ & Hnext & _).
  - keys_distinct.
  - exact Hnext.
Defined.

Lemma post_keeps_bound_transaction_witness :
  Forall2
    (fun o o' =>
       Py.truthy_text (payme_transaction_id o) = true ->
       payme_transaction_id o' = payme_transaction_id o
       /\ payme_create_time o' = payme_create_time o)
    (orders Fixtures.db_statement)
    (orders
       (snd (Payme.post Fixtures.decode0 Fixtures.cfg0 Fixtures.clk0
               Fixtures.db_statement
               (Fixtures.signed "CancelTransaction"
                  (Fixtures.params_for 7 5000000 "tx-1" PNone))))).
Proof. apply post_keeps_bound_transaction. keys_distinct. Defined.

Lemma post_status_moves_one_way_witness :
  Forall2
    (fun o o' =>
       (status o = cancelled -> status o' = cancelled)
       /\ (status o = paid -> status o' = paid \/ status o' = cancelled)
       /\ (status o <> paid -> status o' = paid ->
           payme_state o' = Some 2
           /\ exists t, payme_perform_time o' = Some t))
    (orders Fixtures.db_bound)
    (orders
       (snd (Payme.post Fixtures.decode0 Fixtures.cfg0 Fixtures.clk0
               Fixtures.db_bound
               (Fixtures.signed "PerformTransaction"
                  (Fixtures.params_for 7 5000000 "tx-1" PNone))))).
Proof. apply post_status_moves_one_way. keys_distinct. Defined.

Lemma perform_commits_witness :
  fst (Payme._perform_transaction Fixtures.clk0 Fixtures.db_bound (PInt 2)
         (Fixtures.params_for 7 5000000 "tx-1" PNone))
  = Payme.Return
      (Payme.Success (PInt 2) (Payme.Performed 1700000000000 "tx-1" 2)).
Proof.
  destruct (perform_commits Fixtures.clk0 Fixtures.db_bound (PInt 2)
              (Fixtures.params_for 7 5000000 "tx-1" PNone)
              Fixtures.bound_order eq_refl eq_refl eq_refl)
    as (o' & d' & Heq & _).
  - discriminate.
  - discriminate.
  - discriminate.
  - exists Fixtures.buyer0. reflexivity.
  - rewrite Heq. reflexivity.
Defined.

Lemma perform_twice_witness :
  snd (Payme._perform_transaction
         (mkClock 1700000009000 1700000009001 1700000009002)
         (snd (Payme._perform_transaction Fixtures.clk0 Fixtures.db_bound
                 (PInt 2) (Fixtures.params_for 7 5000000 "tx-1" PNone)))
         (PInt 3) (Fixtures.params_for 7 5000000 "tx-1" PNone))
  = snd (Payme._perform_transaction Fixtures.clk0 Fixtures.db_bound
           (PInt 2) (Fixtures.params_for 7 5000000 "tx-1" PNone)).
Proof.
  destruct (perform_twice Fixtures.clk0
              (mkClock 1700000009000 1700000009001 1700000009002)
              Fixtures.db_bound (PInt 2) (PInt 3)
              (Fixtures.params_for 7 5000000 "tx-1" PNone)
              Fixtures.bound_order eq_refl eq_refl eq_refl)
    as (_ & _ & Hsame).
  - discriminate.
  - discriminate.
  - discriminate.
  - exists Fixtures.buyer0. reflexivity.
  - exact Hsame.
Defined.

Lemma cancel_twice_witness :
  fst (Payme._cancel_transaction
         (mkClock 1700000009000 1700000009001 1700000009002)
         (snd (Payme._cancel_transaction Fixtures.clk0
                 Fixtures.db_performed (PInt 4)
                 (Fixtures.params_for 7 5000000 "tx-1" PNone)))
         (PInt 5) (Fixtures.params_for 7 5000000 "tx-1" PNone))
  = Payme.Return
      (Payme.Success (PInt 5) (Payme.Cancelled 1700000000000 "tx-1" (-2))).
Proof.
  destruct (cancel_twice Fixtures.clk0
              (mkClock 1700000009000 1700000009001 1700000009002)
              Fixtures.db_performed (PInt 4) (PInt 5)
              (Fixtures.params_for 7 5000000 "tx-1" PNone)
              (Fixtures.params_for 7 5000000 "tx-1" PNone)
              Fixtures.performed_order 5 eq_refl eq_refl eq_refl eq_refl)
    as (_ & Hsecond & _).
  - discriminate.
  - reflexivity.
  - reflexivity.
  - intros _. reflexivity.
  - exists Fixtures.paid_buyer. reflexivity.
  - intros _. reflexivity.
  - exact Hsecond.
Defined.

Lemma cancel_repairs_state_witness :
  exists o' : Order,
    Payme._cancel_transaction Fixtures.clk0 Fixtures.db_stale (PInt 3)
      (Fixtures.params_for 7 5000000 "tx-1" PNone)
    = (Payme.Return
         (Payme.Success (PInt 3)
            (Payme.Cancelled 1700000000000 "tx-1" (-1))),
       save_order o' Fixtures.db_stale)
    /\ payme_state o' = Some (-1)
    /\ payme_cancel_reason o' = Some 3
    /\ status o' = cancelled.
Proof.
  destruct (cancel_repairs_state Fixtures.clk0 Fixtures.db_stale (PInt 3)
              (Fixtures.params_for 7 5000000 "tx-1" PNone)
              Fixtures.stale_order 3 eq_refl eq_refl)
    as (o' & Heq & _ & Hstate & _ & Hreason & Hstatus & _).
  - left. reflexivity.
  - discriminate.
  - intros _. reflexivity.
  - intros _ _. reflexivity.
  - exists o'. split; [exact Heq |]. split; [exact Hstate |].
    split; [exact Hreason | exact Hstatus].
Defined.

Lemma create_succeeds_iff_witness :
  exists c st,
    fst (Payme._create_transaction Fixtures.clk0 Fixtures.db0 (PInt 1)
           (Fixtures.params_for 7 5000000 "tx-1" (PInt 1694000000000)))
    = Payme.Return (Payme.Success (PInt 1) (Payme.Created c "tx-1" st)).
Proof.
  destruct (create_succeeds_iff Fixtures.clk0 Fixtures.db0 (PInt 1)
              (Fixtures.params_for 7 5000000 "tx-1" (PInt 1694000000000))
              7 5000000 1694000000000 Fixtures.order0
              eq_refl eq_refl eq_refl eq_refl eq_refl)
    as (_ & Hiff); [lia | reflexivity |].
  apply Hiff. split; [reflexivity |].
  split; [discriminate |]. split; [discriminate |]. discriminate.
Defined.

Lemma prepare_then_complete_witness :
  fst (Click._handle_prepare Fixtures.db0 Fixtures.order0 111 "7" 0)
  = Some (Click._response 111 "7" 7 0 "Success").
Proof.
  destruct (prepare_then_complete Fixtures.clk0 Fixtures.db0
              Fixtures.order0 111 "7" 0 0 eq_refl)
    as (o1 & o2 & d2 & Hprepared & _).
  - discriminate.
  - discriminate.
  - exists Fixtures.buyer0. reflexivity.
  - lia.
  - lia.
  - exact Hprepared.
Defined.

Lemma complete_twice_witness :
  exists o1 : Order,
    order_by_id
      (snd (Click._handle_complete Fixtures.clk0 Fixtures.db_click_bound
              Fixtures.click_bound_order 111 "7" 7 0)) 7
    = Some o1
    /\ Click._handle_complete
         (mkClock 1700000009000 1700000009001 1700000009002)
         (snd (Click._handle_complete Fixtures.clk0 Fixtures.db_click_bound
                 Fixtures.click_bound_order 111 "7" 7 0))
         o1 111 "7" 7 0
       = (Some (Click._response 111 "7" 7 (-4) "Already paid"),
          snd (Click._handle_complete Fixtures.clk0 Fixtures.db_click_bound
                 Fixtures.click_bound_order 111 "7" 7 0)).
Proof.
  destruct (complete_twice Fixtures.clk0
              (mkClock 1700000009000 1700000009001 1700000009002)
              Fixtures.db_click_bound Fixtures.click_bound_order
              111 111 "7" "7" 7 7 0 0 eq_refl)
    as (o1 & _ & Hfind & Hagain).
  - discriminate.
  - discriminate.
  - reflexivity.
  - exists Fixtures.buyer0. reflexivity.
  - lia.
  - lia.
  - exists o1. split; [exact Hfind | exact Hagain].
Defined.

Lemma unsigned_click_request_writes_nothing_witness :
  snd (ClickView.post Fixtures.digest0 Fixtures.amount_differs0
         Fixtures.cfg0 Fixtures.clk0 Fixtures.db0 Fixtures.forged_form)
  = Fixtures.db0
  /\ forall resp,
       fst (ClickView.post Fixtures.digest0 Fixtures.amount_differs0
              Fixtures.cfg0 Fixtures.clk0 Fixtures.db0 Fixtures.forged_form)
       = Some resp ->
       Click.r_error resp = -1.
Proof.
  destruct (unsigned_click_request_writes_nothing Fixtures.digest0
              Fixtures.amount_differs0 Fixtures.cfg0 Fixtures.clk0
              Fixtures.db0 Fixtures.forged_form)
    as [Hdb Hanswer].
  - intros action Haction. vm_compute in Haction.
    injection Haction as <-. reflexivity.
  - split; [exact Hdb |]. intros resp Hresp.
    destruct (Hanswer resp Hresp) as [_ Hfault].
    exact (proj1 Hfault).
Defined.


Lemma click_request_respects_payments_witness :
  let d := Fixtures.db_click_bound in
  let d' := snd (ClickView.post Fixtures.digest0 Fixtures.amount_differs0
                   Fixtures.cfg0 Fixtures.clk0 d Fixtures.complete_form) in
  participants d' = participants d
  \/ exists o o',
       In o (orders d)
       /\ status o <> paid
       /\ In o' (orders d')
       /\ id o' = id o
       /\ status o' = paid
       /\ participants d'
          = <[participant_id o
              := mkParticipant true (Some (tz_now Fixtures.clk0))]>
              (participants d).
Proof.
  intros d d'.
  destruct (click_request_respects_payments Fixtures.digest0
              Fixtures.amount_differs0 Fixtures.cfg0 Fixtures.clk0
              Fixtures.db_click_bound Fixtures.complete_form)
    as [_ Hbuyer].
  - keys_distinct.
  - destruct Hbuyer
      as [Hsame | (o & o' & Hin & Hp & _ & _ & Hin' & _ & Hid & Hs & Hw)].
    + left. exact Hsame.
    + right. exists o, o'. repeat (split; [assumption |]). exact Hw.
Defined.

Lemma initiation_supersedes_pending_witness :
  In (set_status cancelled Fixtures.order0)
    (orders
       (snd (Initiate.payme_post Fixtures.cfg0 Fixtures.clk0
               Fixtures.db_catalogue_pending Fixtures.both_subjects))).
Proof.
  destruct (initiation_supersedes_pending Fixtures.cfg0 Fixtures.clk0
              Fixtures.db_catalogue_pending Fixtures.both_subjects payme
              8 (mkDecimal 8000000 (-2))
              (Initiate.PaymeCheckout
                 "m=merchant-1;ac.order_id=8;a=8000000;c=https://bond.example/ticket/")
              eq_refl)
    as (pid & new & Hsess & _ & _ & _ & _ & _ & Hcancelled & _).
  injection Hsess as <-.
  apply Hcancelled; [left; reflexivity | reflexivity | reflexivity].
Defined.

Lemma endpoints_keep_keys_fresh_witness :
  keys_fresh
    (snd (Initiate.click_post Fixtures.cfg0 Fixtures.clk0
            Fixtures.db_catalogue_pending Fixtures.both_subjects)).
Proof.
  destruct (endpoints_keep_keys_fresh Fixtures.decode0 Fixtures.digest0
              Fixtures.amount_differs0 Fixtures.cfg0 Fixtures.clk0
              Fixtures.db_catalogue_pending)
    as (_ & _ & _ & Hclick).
  - split; [keys_distinct |]. repeat constructor.
  - apply Hclick.
Defined.

Lemma payme_link_is_payable_witness :
  Payme._check_perform_transaction Fixtures.clk0
    (snd (Initiate.payme_post Fixtures.cfg0 Fixtures.clk0
            Fixtures.db_catalogue_pending Fixtures.both_subjects))
    (PInt 1)
    (Payme.mkParams (Payme.AccountDict (PStr "8")) (PInt 8000000)
       PNone PNone PNone PNone PNone)
  = (Payme.Return (Payme.Success (PInt 1) (Payme.Allow true)),
     snd (Initiate.payme_post Fixtures.cfg0 Fixtures.clk0
            Fixtures.db_catalogue_pending Fixtures.both_subjects)).
Proof.
  destruct (payme_link_is_payable Fixtures.cfg0 Fixtures.clk0
              Fixtures.db_catalogue_pending Fixtures.both_subjects
              8 (mkDecimal 8000000 (-2))
              (Initiate.PaymeCheckout
                 "m=merchant-1;ac.order_id=8;a=8000000;c=https://bond.example/ticket/"))
    as (_ & _ & Hcheck).
  - repeat constructor.
  - reflexivity.
  - exact (Hcheck Fixtures.clk0 (PInt 1) (PStr "8") 8000000
             (Payme.mkParams (Payme.AccountDict (PStr "8")) (PInt 8000000)
                PNone PNone PNone PNone PNone)
             (or_intror eq_refl) eq_refl eq_refl).
Defined.

Lemma endpoints_keep_perform_time_consistent_witness :
  Forall perform_time_consistent
    (orders
       (snd (Payme.post Fixtures.decode0 Fixtures.cfg0 Fixtures.clk0
               Fixtures.db_performed
               (Fixtures.signed "CancelTransaction"
                  (Fixtures.params_for 7 5000000 "tx-1" PNone))))).
Proof.
  destruct (endpoints_keep_perform_time_consistent Fixtures.decode0
              Fixtures.digest0 Fixtures.amount_differs0 Fixtures.cfg0
              Fixtures.clk0 Fixtures.db_performed)
    as (Hpayme & _).
  - constructor; [| constructor].
    intros _. split; [reflexivity | left; reflexivity].
  - apply Hpayme.
Defined.

Lemma reading_methods_write_nothing_witness :
  snd (Payme.post Fixtures.decode0 Fixtures.cfg0 Fixtures.clk0
         Fixtures.db_statement
         (Fixtures.signed "GetStatement"
            (Fixtures.params_range 1693000000000 1694000000000)))
  = Fixtures.db_statement.
Proof.
  apply (reading_methods_write_nothing Fixtures.decode0 Fixtures.cfg0
           Fixtures.clk0 Fixtures.db_statement
           (Fixtures.signed "GetStatement"
              (Fixtures.params_range 1693000000000 1694000000000))
           (PInt 1) (PStr "GetStatement")
           (Fixtures.params_range 1693000000000 1694000000000)).
  - reflexivity.
  - discriminate.
  - discriminate.
  - discriminate.
Defined.


Lemma printed_order_id_reads_back_witness :
  exists order_text amount_text : string,
    Payme._get_order_id
      (Payme.mkParams (Payme.AccountDict (PStr order_text))
         (PStr amount_text) PNone PNone PNone PNone PNone)
    = Some (Some 8)
    /\ Payme._get_amount_tiyin
         (Payme.mkParams (Payme.AccountDict (PStr order_text))
            (PStr amount_text) PNone PNone PNone PNone PNone)
       = Some 8000000.
Proof.
  destruct (proj1 (printed_order_id_reads_back Fixtures.cfg0 8 8000000
                     (Some "https://bond.example/ticket/"%string)
                     (Initiate.PaymeCheckout
                        "m=merchant-1;ac.order_id=8;a=8000000;c=https://bond.example/ticket/"))
              eq_refl)
    as (order_text & amount_text & _ & Horder & Hamount).
  exists order_text, amount_text. split; [exact Horder | exact Hamount].
Defined.
